(** * seller-apis: stock and price reconciliation for Ozon and Yandex Market

    A shallow embedding of [seller.py] and [market.py] and the properties of
    their reconciliation core: quantity and price normalisation, the batcher
    [divide], the catalogue pagers [get_offer_ids], the reconcilers
    [create_stocks] / [create_prices] and the two [main] drivers.

    Python text is embedded as [string], the sequence of its UTF-8 bytes.
    Every character the programs inspect (["."], the digits, [">"], ["_"],
    the signs and the blanks) is ASCII, and the bytes of a multi-byte UTF-8
    character are all above 127, so splitting on ["."] and deleting
    non-digits act on the bytes exactly as they act on the code points. The
    one place where this matters is [int()], which also accepts decimal
    digits and blanks of other scripts: [py_int_of_str] is exact on ASCII
    text. CPython's optional cap on the number of digits converted by
    [int()] and [str()] is an interpreter setting and is left out, and so are
    floating-point cells of the spreadsheet. *)

From Stdlib Require Import ZArith Lia String Ascii DecimalString DecimalPos DecimalZ.
From stdpp Require Import base option list strings gmap.

Local Open Scope string_scope.
Local Open Scope list_scope.
Local Open Scope stdpp_scope.
Local Open Scope Z_scope.

(** ** Python values *)

(** Exceptions the programs can meet. *)
Inductive exn : Type :=
| ValueError
| TypeError
| AttributeError
| IndexError
| HTTPError
| ReadTimeout
| ConnectionError
| XLRDError.

(** A cell of a spreadsheet row, as [pandas] hands it over after
    [to_dict(orient="records")]; [dict.get] yields [CNone] for a missing key. *)
Inductive cell : Type :=
| CNone
| CInt (z : Z)
| CStr (s : string).

(** One feed row: a [dict] from column title to cell. *)
Definition watch : Type := list (string * cell).

(** JSON-like objects built by the programs and sent to the marketplaces. *)
#[warnings="-register-all"]
Inductive pyobj : Type :=
| PyNone
| PyInt (z : Z)
| PyStr (s : string)
| PyList (l : list pyobj)
| PyDict (d : list (string * pyobj)).

(** Result of a pure computation that may raise. *)
Inductive result (A : Type) : Type :=
| Ok (a : A)
| Err (e : exn).
Arguments Ok {A} a.
Arguments Err {A} e.

(** [d.get(k)] on a feed row. *)
Fixpoint dict_get (d : watch) (k : string) : cell :=
  match d with
  | [] => CNone
  | (k', v) :: d' => if String.eqb k k' then v else dict_get d' k
  end.

(** First value stored under key [k] anywhere inside a payload object. *)
Fixpoint find_key (k : string) (o : pyobj) : option pyobj :=
  match o with
  | PyDict d =>
      (fix in_dict (d : list (string * pyobj)) : option pyobj :=
         match d with
         | [] => None
         | (k', v) :: d' =>
             if String.eqb k k' then Some v
             else match find_key k v with
                  | Some r => Some r
                  | None => in_dict d'
                  end
         end) d
  | PyList l =>
      (fix in_list (l : list pyobj) : option pyobj :=
         match l with
         | [] => None
         | v :: l' =>
             match find_key k v with
             | Some r => Some r
             | None => in_list l'
             end
         end) l
  | _ => None
  end.

(** [o.get(k)] on a payload object: only a [dict] has a [get]. *)
Definition obj_get (o : pyobj) (k : string) : result pyobj :=
  match o with
  | PyDict d =>
      Ok ((fix lookup (d : list (string * pyobj)) : pyobj :=
             match d with
             | [] => PyNone
             | (k', v) :: d' => if String.eqb k k' then v else lookup d'
             end) d)
  | _ => Err AttributeError
  end.

(** [o != z] for an [int] [z]: an object that is not an [int] differs. *)
Definition obj_ne_int (o : pyobj) (z : Z) : bool :=
  match o with
  | PyInt z' => negb (Z.eqb z' z)
  | _ => true
  end.

(** [list(filter(f, l))] for a predicate that may raise. *)
Fixpoint py_filter {A : Type} (f : A -> result bool) (l : list A) : result (list A) :=
  match l with
  | [] => Ok []
  | x :: l' =>
      match f x with
      | Err e => Err e
      | Ok b =>
          match py_filter f l' with
          | Err e => Err e
          | Ok r => Ok (if b then x :: r else r)
          end
      end
  end.

(** ** [str()] and [int()] *)

(** [str(z)] for an [int]. *)
Definition str_of_Z (z : Z) : string := NilZero.string_of_int (Z.to_int z).

(** [str(v)] for a cell. *)
Definition py_str (v : cell) : string :=
  match v with
  | CNone => "None"
  | CInt z => str_of_Z z
  | CStr s => s
  end.

Definition is_digit (c : ascii) : bool :=
  ((48 <=? nat_of_ascii c) && (nat_of_ascii c <=? 57))%nat.

Definition digit_value (c : ascii) : Z := Z.of_nat (nat_of_ascii c) - 48.

(** The blanks [int()] strips from ASCII text: tab, newline, vertical tab,
    form feed, carriage return and space. *)
Definition is_space (c : ascii) : bool :=
  (((9 <=? nat_of_ascii c) && (nat_of_ascii c <=? 13))
   || (nat_of_ascii c =? 32))%nat.

Fixpoint lstrip (s : string) : string :=
  match s with
  | String c s' => if is_space c then lstrip s' else s
  | EmptyString => EmptyString
  end.

(** Drops trailing blanks. *)
Fixpoint rstrip (s : string) : string :=
  match s with
  | EmptyString => EmptyString
  | String c s' =>
      match rstrip s' with
      | EmptyString => if is_space c then EmptyString else String c EmptyString
      | r => String c r
      end
  end.

(** Digits of a base-10 literal; single underscores may separate digits.
    [prev] tells whether the previous character was a digit. *)
Fixpoint digits_value (s : string) (acc : Z) (prev : bool) : option Z :=
  match s with
  | EmptyString => if prev then Some acc else None
  | String c s' =>
      if is_digit c then digits_value s' (10 * acc + digit_value c) true
      else if Ascii.eqb c "_" then
             (if prev then digits_value s' acc false else None)
      else None
  end.

(** [int(s)] for a [str]: blanks around, an optional sign, then digits.
    This is [int] on texts of ASCII characters, which is what the feed
    holds in the source's examples. Python also reads the decimal digits and
    blanks of other scripts, which this definition refuses, and from
    version 3.11 on it refuses a text of more than 4300 digits, which this
    definition reads; the properties that depend on either say so in their
    hypotheses. *)
Definition py_int_of_str (s : string) : result Z :=
  match lstrip (rstrip s) with
  | String "-" d =>
      match digits_value d 0 false with
      | Some z => Ok (- z)
      | None => Err ValueError
      end
  | String "+" d =>
      match digits_value d 0 false with
      | Some z => Ok z
      | None => Err ValueError
      end
  | d =>
      match digits_value d 0 false with
      | Some z => Ok z
      | None => Err ValueError
      end
  end.

(** [int(v)] for a cell. *)
Definition py_int (v : cell) : result Z :=
  match v with
  | CNone => Err TypeError
  | CInt z => Ok z
  | CStr s => py_int_of_str s
  end.

(** ** Lists as Python uses them *)

(** [x in l]. *)
Fixpoint list_contains (x : string) (l : list string) : bool :=
  match l with
  | [] => false
  | y :: l' => if String.eqb x y then true else list_contains x l'
  end.

(** [l.remove(x)]: drops the first element equal to [x]; [None] stands for
    the [ValueError] raised when there is none. *)
Fixpoint list_remove (x : string) (l : list string) : option (list string) :=
  match l with
  | [] => None
  | y :: l' =>
      if String.eqb x y then Some l'
      else match list_remove x l' with
           | Some r => Some (y :: r)
           | None => None
           end
  end.

(** [range(start, stop, step)]. *)
Definition py_range (start stop step : Z) : result (list Z) :=
  if step =? 0 then Err ValueError
  else
    let count :=
      if 0 <? step then
        (if start <? stop then (stop - start - 1) / step + 1 else 0)
      else
        (if stop <? start then (start - stop - 1) / (- step) + 1 else 0) in
    Ok (map (fun k => start + Z.of_nat k * step) (seq 0 (Z.to_nat count))).

(** An index of a slice, brought into [0 .. len]. *)
Definition slice_index (len i : Z) : Z :=
  if i <? 0 then Z.max 0 (i + len) else Z.min i len.

(** [l[i:j]]. *)
Definition py_slice {A : Type} (l : list A) (i j : Z) : list A :=
  let len := Z.of_nat (length l) in
  let i' := slice_index len i in
  let j' := slice_index len j in
  take (Z.to_nat (j' - i')) (drop (Z.to_nat i') l).

(** ** seller.py: pure helpers *)

(** [s.split(sep)] for a one-character separator. *)
Fixpoint split (sep : ascii) (s : string) : list string :=
  match s with
  | EmptyString => [EmptyString]
  | String c s' =>
      if Ascii.eqb c sep then EmptyString :: split sep s'
      else match split sep s' with
           | h :: t => String c h :: t
           | [] => [String c EmptyString]
           end
  end.

(** [re.sub(p, repl, s)] for a pattern [p] that is one character class
    [[lo-hi]], or its complement [[^lo-hi]] when [negated]. *)
Fixpoint re_sub_class (negated : bool) (lo hi : ascii) (repl s : string) : string :=
  match s with
  | EmptyString => EmptyString
  | String c s' =>
      let in_range :=
        ((nat_of_ascii lo <=? nat_of_ascii c)
         && (nat_of_ascii c <=? nat_of_ascii hi))%nat in
      if xorb negated in_range then repl +:+ re_sub_class negated lo hi repl s'
      else String c (re_sub_class negated lo hi repl s')
  end.

(** [price_conversion(price)]:
    [re.sub("[^0-9]", EmptyString, price.split(".")[0])]. *)
Definition price_conversion (price : cell) : result string :=
  match price with
  | CStr s =>
      match split "." s with
      | seg :: _ => Ok (re_sub_class true "0" "9" EmptyString seg)
      | [] => Err IndexError
      end
  | _ => Err AttributeError
  end.

(** [list(divide(lst, n))]: the chunks the generator yields, in order. *)
Definition divide {A : Type} (lst : list A) (n : Z) : result (list (list A)) :=
  match py_range 0 (Z.of_nat (length lst)) n with
  | Err e => Err e
  | Ok idx => Ok (map (fun i => py_slice lst i (i + n)) idx)
  end.

(** ** [datetime] *)

Record datetime : Type := Datetime {
  year : nat; month : nat; day : nat;
  hour : nat; minute : nat; second : nat; microsecond : nat }.

(** [dt.replace(microsecond=us)]. *)
Definition replace_microsecond (dt : datetime) (us : nat) : datetime :=
  Datetime (year dt) (month dt) (day dt) (hour dt) (minute dt) (second dt) us.

Fixpoint zeros (n : nat) : string :=
  match n with
  | O => EmptyString
  | S n' => String "0" (zeros n')
  end.

(** [n] in decimal on at least [width] characters, as ["%0<width>d"]. *)
Definition pad (width n : nat) : string :=
  let d := NilZero.string_of_uint (Nat.to_uint n) in
  zeros (width - String.length d) +:+ d.

(** [dt.isoformat()] for a naive [datetime]: the fraction is printed only
    when the microseconds are not zero. *)
Definition isoformat (dt : datetime) : string :=
  pad 4 (year dt) +:+ "-" +:+ pad 2 (month dt) +:+ "-" +:+ pad 2 (day dt)
  +:+ "T" +:+ pad 2 (hour dt) +:+ ":" +:+ pad 2 (minute dt)
  +:+ ":" +:+ pad 2 (second dt)
  +:+ (if Nat.eqb (microsecond dt) 0 then EmptyString else "." +:+ pad 6 (microsecond dt)).

(** ** The world the programs run in *)

(** A reference to a Python [list] object holding offer identifiers. *)
Definition loc : Type := nat.

(** One entry of Ozon's [/v2/product/list] page. *)
Record ozon_product : Type := OzonProduct {
  product_id : Z;
  offer_id : string }.

(** The ["result"] object of a well-formed Ozon page, with its keys
    ["items"], ["total"] and ["last_id"]. *)
Record ozon_page : Type := OzonPage {
  page_items : list ozon_product;
  page_total : Z;
  page_last_id : string }.

(** One entry of Yandex Market's [offer-mapping-entries] page; of the
    ["offer"] object only ["shopSku"] is read. *)
Record mapping_entry : Type := MappingEntry {
  shopSku : string }.

(** The ["result"] object of a well-formed Market page; [nextPageToken] is
    [None] when ["paging"] has no such key. *)
Record market_page : Type := MarketPage {
  offerMappingEntries : list mapping_entry;
  nextPageToken : option string }.

(** What a listing endpoint answers to one request: the call raises, or the
    body has no ["result"], or it carries a page. *)
Inductive reply (P : Type) : Type :=
| ReplyFail (e : exn)
| ReplyNoResult
| ReplyResult (p : P).
Arguments ReplyFail {P} e.
Arguments ReplyNoResult {P}.
Arguments ReplyResult {P} p.

(** What a run does to the outside. *)
#[warnings="-register-all"]
Inductive event : Type :=
| ProductListRequest (account cursor : string)
| StockFileDownload
| StocksUpdate (account : string) (stocks : list pyobj)
| PricesUpdate (account : string) (prices : list pyobj)
| Printed (msg : string)
| PrintedError (error : exn) (msg : string).

Record world : Type := World {
  (** the list objects alive, by reference *)
  heap : gmap loc (list string);
  (** everything sent or printed so far, oldest first *)
  log : list event;
  (** answers the Ozon listing endpoint will give, in order *)
  ozon_replies : list (reply ozon_page);
  (** answers the Market listing endpoint will give, in order *)
  market_replies : list (reply market_page);
  (** outcome of fetching and parsing the spreadsheet *)
  stock_file : result (list watch);
  (** whether an update request fails, given what was sent before *)
  ack : list event -> event -> option exn;
  (** successive readings of the UTC clock *)
  utc_clock : nat -> datetime;
  clock_reads : nat }.

Definition set_heap (h : gmap loc (list string)) (w : world) : world :=
  World h (log w) (ozon_replies w) (market_replies w) (stock_file w)
        (ack w) (utc_clock w) (clock_reads w).

Definition emit (e : event) (w : world) : world :=
  World (heap w) (log w ++ [e]) (ozon_replies w) (market_replies w)
        (stock_file w) (ack w) (utc_clock w) (clock_reads w).

Definition set_ozon_replies (r : list (reply ozon_page)) (w : world) : world :=
  World (heap w) (log w) r (market_replies w) (stock_file w)
        (ack w) (utc_clock w) (clock_reads w).

Definition set_market_replies (r : list (reply market_page)) (w : world) : world :=
  World (heap w) (log w) (ozon_replies w) r (stock_file w)
        (ack w) (utc_clock w) (clock_reads w).

Definition tick (w : world) : world :=
  World (heap w) (log w) (ozon_replies w) (market_replies w) (stock_file w)
        (ack w) (utc_clock w) (S (clock_reads w)).

(** How a computation ends: with a value, with an exception, or waiting for
    an answer the world does not hold. *)
Inductive outcome (A : Type) : Type :=
| Ret (a : A)
| Raise (e : exn)
| Starved.
Arguments Ret {A} a.
Arguments Raise {A} e.
Arguments Starved {A}.

Definition M (A : Type) : Type := world -> outcome A * world.

Definition ret {A : Type} (a : A) : M A := fun w => (Ret a, w).

Definition raise {A : Type} (e : exn) : M A := fun w => (Raise e, w).

Definition bind {A B : Type} (m : M A) (k : A -> M B) : M B :=
  fun w =>
    match m w with
    | (Ret a, w') => k a w'
    | (Raise e, w') => (Raise e, w')
    | (Starved, w') => (Starved, w')
    end.

Notation "'let!' x ':=' m 'in' k" := (bind m (fun x => k))
  (at level 10, x name, m at level 100, k at level 200).
Notation "m ';;;' k" := (bind m (fun _ => k))
  (at level 100, k at level 200, right associativity).

Definition lift {A : Type} (r : result A) : M A :=
  match r with
  | Ok a => ret a
  | Err e => raise e
  end.

(** [try: body except Exception as e: handler]. *)
Definition try_except {A : Type} (body : M A) (handler : exn -> M A) : M A :=
  fun w =>
    match body w with
    | (Raise e, w') => handler e w'
    | r => r
    end.

(** [for x in l: body(x)] over a list that the body does not touch. *)
Fixpoint for_each {A : Type} (l : list A) (body : A -> M unit) : M unit :=
  match l with
  | [] => ret tt
  | x :: l' => body x ;;; for_each l' body
  end.

(** [print(msg)]. *)
Definition py_print (msg : string) : M unit :=
  fun w => (Ret tt, emit (Printed msg) w).

(** [print(error, msg)] for a caught exception [error]: one line with the
    text of the exception, a blank and [msg]. *)
Definition py_print_error (error : exn) (msg : string) : M unit :=
  fun w => (Ret tt, emit (PrintedError error msg) w).

(** [datetime.datetime.utcnow()]. *)
Definition utcnow : M datetime :=
  fun w => (Ret (utc_clock w (clock_reads w)), tick w).

(** A new list object. *)
Definition new_list (l : list string) : M loc :=
  fun w => let r := fresh (dom (heap w)) in (Ret r, set_heap (<[r := l]> (heap w)) w).

(** The elements of the list object behind [r], as iteration sees them. A
    reference that names no object does not arise in a run, where every
    reference comes from [new_list]; the model raises there. *)
Definition read_list (r : loc) : M (list string) :=
  fun w =>
    match heap w !! r with
    | Some l => (Ret l, w)
    | None => (Raise TypeError, w)
    end.

(** [x in r]. *)
Definition contains (x : string) (r : loc) : M bool :=
  let! l := read_list r in ret (list_contains x l).

(** [r.remove(x)]: the object behind [r] itself loses the element. *)
Definition remove (r : loc) (x : string) : M unit :=
  fun w =>
    match heap w !! r with
    | Some l =>
        match list_remove x l with
        | Some l' => (Ret tt, set_heap (<[r := l']> (heap w)) w)
        | None => (Raise ValueError, w)
        end
    | None => (Raise TypeError, w)
    end.

(** A [requests] call to an update endpoint followed by
    [raise_for_status()] and [json()]. *)
Definition send (e : event) : M unit :=
  fun w =>
    match ack w (log w) e with
    | Some err => (Raise err, emit e w)
    | None => (Ret tt, emit e w)
    end.

(** An [async def] function called without [await] only builds this object;
    its body runs when the coroutine is awaited. *)
Inductive coroutine (A : Type) : Type :=
| Coroutine (body : M A).
Arguments Coroutine {A} body.

Definition await {A : Type} (c : coroutine A) : M A :=
  match c with Coroutine body => body end.

(** ** seller.py: the Ozon integration *)

Module Seller.

(** [get_product_list(last_id, client_id, seller_token)]: one POST to
    [/v2/product/list]; returns [response_object.get("result")]. *)
Definition get_product_list (last_id client_id seller_token : string)
  : M (option ozon_page) :=
  fun w =>
    match ozon_replies w with
    | [] => (Starved, w)
    | r :: rest =>
        let w' := set_ozon_replies rest (emit (ProductListRequest client_id last_id) w) in
        match r with
        | ReplyFail e => (Raise e, w')
        | ReplyNoResult => (Ret None, w')
        | ReplyResult p => (Ret (Some p), w')
        end
    end.

(** The [while True] loop of [get_offer_ids]; [fuel] bounds its rounds. *)
Fixpoint get_offer_ids_loop (fuel : nat) (client_id seller_token last_id : string)
    (product_list : list ozon_product) : M (list ozon_product) :=
  match fuel with
  | O => fun w => (Starved, w)
  | S fuel' =>
      let! some_prod := get_product_list last_id client_id seller_token in
      match some_prod with
      | None => raise AttributeError
      | Some some_prod =>
          let product_list := product_list ++ page_items some_prod in
          let total := page_total some_prod in
          let last_id := page_last_id some_prod in
          if total =? Z.of_nat (length product_list)
          then ret product_list
          else get_offer_ids_loop fuel' client_id seller_token last_id product_list
      end
  end.

(** [get_offer_ids(client_id, seller_token)]. Every round takes one answer
    from the world, so one round more than there are answers is all the loop
    can use. *)
Definition get_offer_ids (client_id seller_token : string) : M loc :=
  fun w =>
    (let! product_list :=
       get_offer_ids_loop (S (length (ozon_replies w))) client_id seller_token EmptyString [] in
     new_list (map offer_id product_list)) w.

Definition update_price (prices : list pyobj) (client_id seller_token : string)
  : M unit :=
  send (PricesUpdate client_id prices).

Definition update_stocks (stocks : list pyobj) (client_id seller_token : string)
  : M unit :=
  send (StocksUpdate client_id stocks).

Definition download_stock : M (list watch) :=
  fun w => lift (stock_file w) (emit StockFileDownload w).

(** Lines 206-212: the stock count of one feed row. *)
Definition stock_of (watch : watch) : result Z :=
  let count := py_str (dict_get watch "Количество") in
  if String.eqb count ">10" then Ok 100
  else if String.eqb count "1" then Ok 0
  else py_int (dict_get watch "Количество").

(** Lines 204-214: the first loop of [create_stocks]. *)
Fixpoint create_stocks_loop (watch_remnants : list watch) (offer_ids : loc)
    (stocks : list pyobj) : M (list pyobj) :=
  match watch_remnants with
  | [] => ret stocks
  | watch :: rest =>
      let! listed := contains (py_str (dict_get watch "Код")) offer_ids in
      if listed : bool then
        let! stock := lift (stock_of watch) in
        let stocks := stocks ++ [PyDict [("offer_id", PyStr (py_str (dict_get watch "Код")));
                                         ("stock", PyInt stock)]] in
        remove offer_ids (py_str (dict_get watch "Код")) ;;;
        create_stocks_loop rest offer_ids stocks
      else create_stocks_loop rest offer_ids stocks
  end.

(** [create_stocks(watch_remnants, offer_ids)]. *)
Definition create_stocks (watch_remnants : list watch) (offer_ids : loc)
  : M (list pyobj) :=
  let! stocks := create_stocks_loop watch_remnants offer_ids [] in
  let! remaining := read_list offer_ids in
  ret (stocks ++ map (fun offer_id => PyDict [("offer_id", PyStr offer_id);
                                              ("stock", PyInt 0)]) remaining).

Fixpoint create_prices_loop (watch_remnants : list watch) (offer_ids : loc)
    (prices : list pyobj) : M (list pyobj) :=
  match watch_remnants with
  | [] => ret prices
  | watch :: rest =>
      let! listed := contains (py_str (dict_get watch "Код")) offer_ids in
      if listed : bool then
        let! converted := lift (price_conversion (dict_get watch "Цена")) in
        let price := PyDict [("auto_action_enabled", PyStr "UNKNOWN");
                             ("currency_code", PyStr "RUB");
                             ("offer_id", PyStr (py_str (dict_get watch "Код")));
                             ("old_price", PyStr "0");
                             ("price", PyStr converted)] in
        create_prices_loop rest offer_ids (prices ++ [price])
      else create_prices_loop rest offer_ids prices
  end.

(** [create_prices(watch_remnants, offer_ids)]. *)
Definition create_prices (watch_remnants : list watch) (offer_ids : loc)
  : M (list pyobj) :=
  create_prices_loop watch_remnants offer_ids [].

(** [async def upload_prices(...)]: a call returns the coroutine object. *)
Definition upload_prices (watch_remnants : list watch) (client_id seller_token : string)
  : M (coroutine (list pyobj)) :=
  ret (Coroutine
         (let! offer_ids := get_offer_ids client_id seller_token in
          let! prices := create_prices watch_remnants offer_ids in
          let! chunks := lift (divide prices 1000) in
          for_each chunks (fun some_price => update_price some_price client_id seller_token) ;;;
          ret prices)).

(** [async def upload_stocks(...)]: a call returns the coroutine object. *)
Definition upload_stocks (watch_remnants : list watch) (client_id seller_token : string)
  : M (coroutine (list pyobj * list pyobj)) :=
  ret (Coroutine
         (let! offer_ids := get_offer_ids client_id seller_token in
          let! stocks := create_stocks watch_remnants offer_ids in
          let! chunks := lift (divide stocks 100) in
          for_each chunks (fun some_stock => update_stocks some_stock client_id seller_token) ;;;
          let! not_empty :=
            lift (py_filter (fun stock => match obj_get stock "stock" with
                                          | Ok v => Ok (obj_ne_int v 0)
                                          | Err e => Err e
                                          end) stocks) in
          ret (not_empty, stocks))).

(** The [except] clauses of [main]: the first one prints a fixed line, the
    other two print the exception before their text. *)
Definition report (e : exn) : M unit :=
  match e with
  | ReadTimeout => py_print "Превышено время ожидания..."
  | ConnectionError => py_print_error e "Ошибка соединения"
  | _ => py_print_error e "ERROR_2"
  end.

(** [main()], given the two environment settings. *)
Definition main (seller_token client_id : string) : M unit :=
  try_except
    (let! offer_ids := get_offer_ids client_id seller_token in
     let! watch_remnants := download_stock in
     let! stocks := create_stocks watch_remnants offer_ids in
     let! chunks := lift (divide stocks 100) in
     for_each chunks (fun some_stock => update_stocks some_stock client_id seller_token) ;;;
     let! prices := create_prices watch_remnants offer_ids in
     let! chunks := lift (divide prices 900) in
     for_each chunks (fun some_price => update_price some_price client_id seller_token))
    report.

End Seller.

(** ** market.py: the Yandex Market integration *)

Module Market.

(** [get_product_list(page, campaign_id, access_token)]: one GET of
    [campaigns/{campaign_id}/offer-mapping-entries]. *)
Definition get_product_list (page campaign_id access_token : string)
  : M (option market_page) :=
  fun w =>
    match market_replies w with
    | [] => (Starved, w)
    | r :: rest =>
        let w' := set_market_replies rest (emit (ProductListRequest campaign_id page) w) in
        match r with
        | ReplyFail e => (Raise e, w')
        | ReplyNoResult => (Ret None, w')
        | ReplyResult p => (Ret (Some p), w')
        end
    end.

Definition update_stocks (stocks : list pyobj) (campaign_id access_token : string)
  : M unit :=
  send (StocksUpdate campaign_id stocks).

Definition update_price (prices : list pyobj) (campaign_id access_token : string)
  : M unit :=
  send (PricesUpdate campaign_id prices).

(** The [while True] loop of [get_offer_ids]; [fuel] bounds its rounds. The
    loop goes on while [nextPageToken] is a non-empty string. *)
Fixpoint get_offer_ids_loop (fuel : nat) (campaign_id market_token page : string)
    (product_list : list mapping_entry) : M (list mapping_entry) :=
  match fuel with
  | O => fun w => (Starved, w)
  | S fuel' =>
      let! some_prod := get_product_list page campaign_id market_token in
      match some_prod with
      | None => raise AttributeError
      | Some some_prod =>
          let product_list := product_list ++ offerMappingEntries some_prod in
          match nextPageToken some_prod with
          | None => ret product_list
          | Some EmptyString => ret product_list
          | Some page =>
              get_offer_ids_loop fuel' campaign_id market_token page product_list
          end
      end
  end.

(** [get_offer_ids(campaign_id, market_token)]. *)
Definition get_offer_ids (campaign_id market_token : string) : M loc :=
  fun w =>
    (let! product_list :=
       get_offer_ids_loop (S (length (market_replies w))) campaign_id market_token EmptyString [] in
     new_list (map shopSku product_list)) w.

(** Lines 328-334: the stock count of one feed row. *)
Definition stock_of (watch : watch) : result Z :=
  let count := py_str (dict_get watch "Количество") in
  if String.eqb count ">10" then Ok 100
  else if String.eqb count "1" then Ok 0
  else py_int (dict_get watch "Количество").

(** Lines 335-346 and 351-362: one element of the ["skus"] payload. *)
Definition sku_entry (sku warehouse_id : string) (count : Z) (date : string) : pyobj :=
  PyDict [("sku", PyStr sku);
          ("warehouseId", PyStr warehouse_id);
          ("items", PyList [PyDict [("count", PyInt count);
                                    ("type", PyStr "FIT");
                                    ("updatedAt", PyStr date)]])].

(** Lines 326-348: the first loop of [create_stocks]. *)
Fixpoint create_stocks_loop (watch_remnants : list watch) (offer_ids : loc)
    (warehouse_id date : string) (stocks : list pyobj) : M (list pyobj) :=
  match watch_remnants with
  | [] => ret stocks
  | watch :: rest =>
      let! listed := contains (py_str (dict_get watch "Код")) offer_ids in
      if listed : bool then
        let! stock := lift (stock_of watch) in
        let stocks :=
          stocks ++ [sku_entry (py_str (dict_get watch "Код")) warehouse_id stock date] in
        remove offer_ids (py_str (dict_get watch "Код")) ;;;
        create_stocks_loop rest offer_ids warehouse_id date stocks
      else create_stocks_loop rest offer_ids warehouse_id date stocks
  end.

(** [create_stocks(watch_remnants, offer_ids, warehouse_id)]. *)
Definition create_stocks (watch_remnants : list watch) (offer_ids : loc)
    (warehouse_id : string) : M (list pyobj) :=
  let! now := utcnow in
  let date := isoformat (replace_microsecond now 0) +:+ "Z" in
  let! stocks := create_stocks_loop watch_remnants offer_ids warehouse_id date [] in
  let! remaining := read_list offer_ids in
  ret (stocks ++ map (fun offer_id => sku_entry offer_id warehouse_id 0 date) remaining).

Fixpoint create_prices_loop (watch_remnants : list watch) (offer_ids : loc)
    (prices : list pyobj) : M (list pyobj) :=
  match watch_remnants with
  | [] => ret prices
  | watch :: rest =>
      let! listed := contains (py_str (dict_get watch "Код")) offer_ids in
      if listed : bool then
        let! converted := lift (price_conversion (dict_get watch "Цена")) in
        let! value := lift (py_int_of_str converted) in
        let price := PyDict [("id", PyStr (py_str (dict_get watch "Код")));
                             ("price", PyDict [("value", PyInt value);
                                               ("currencyId", PyStr "RUR")])] in
        create_prices_loop rest offer_ids (prices ++ [price])
      else create_prices_loop rest offer_ids prices
  end.

(** [create_prices(watch_remnants, offer_ids)]. *)
Definition create_prices (watch_remnants : list watch) (offer_ids : loc)
  : M (list pyobj) :=
  create_prices_loop watch_remnants offer_ids [].

(** [async def upload_prices(...)]: a call returns the coroutine object. *)
Definition upload_prices (watch_remnants : list watch) (campaign_id market_token : string)
  : M (coroutine (list pyobj)) :=
  ret (Coroutine
         (let! offer_ids := get_offer_ids campaign_id market_token in
          let! prices := create_prices watch_remnants offer_ids in
          let! chunks := lift (divide prices 500) in
          for_each chunks (fun some_prices => update_price some_prices campaign_id market_token) ;;;
          ret prices)).

(** The [except] clauses of [main]: the first one prints a fixed line, the
    other two print the exception before their text. *)
Definition report (e : exn) : M unit :=
  match e with
  | ReadTimeout => py_print "Превышено время ожидания..."
  | ConnectionError => py_print_error e "Ошибка соединения"
  | _ => py_print_error e "ERROR_2"
  end.

(** [main()], given the five environment settings. The spreadsheet is
    fetched before the [try] block is entered. *)
Definition main (market_token campaign_fbs_id campaign_dbs_id
                 warehouse_fbs_id warehouse_dbs_id : string) : M unit :=
  let! watch_remnants := Seller.download_stock in
  try_except
    (let! offer_ids := get_offer_ids campaign_fbs_id market_token in
     let! stocks := create_stocks watch_remnants offer_ids warehouse_fbs_id in
     let! chunks := lift (divide stocks 2000) in
     for_each chunks (fun some_stock => update_stocks some_stock campaign_fbs_id market_token) ;;;
     upload_prices watch_remnants campaign_fbs_id market_token ;;;
     let! offer_ids := get_offer_ids campaign_dbs_id market_token in
     let! stocks := create_stocks watch_remnants offer_ids warehouse_dbs_id in
     let! chunks := lift (divide stocks 2000) in
     for_each chunks (fun some_stock => update_stocks some_stock campaign_dbs_id market_token) ;;;
     upload_prices watch_remnants campaign_dbs_id market_token ;;;
     ret tt)
    report.

End Market.

(** ** Notions used to state the properties *)

(** [str(watch.get("Код"))]: the code under which a feed row is looked up. *)
Definition code_of (watch : watch) : string := py_str (dict_get watch "Код").

(** The world in which the list object behind [r] holds [l]. *)
Definition with_list (r : loc) (l : list string) (w : world) : world :=
  set_heap (<[r := l]> (heap w)) w.

(** What the first loop of [create_stocks] does to the content [ids] of the
    list behind [offer_ids]: the (identifier, count) pairs it appends, or the
    exception that stops it, and the content it leaves in the list. *)
Fixpoint reconcile (watch_remnants : list watch) (ids : list string)
  : result (list (string * Z)) * list string :=
  match watch_remnants with
  | [] => (Ok [], ids)
  | watch :: rest =>
      if list_contains (code_of watch) ids then
        match Seller.stock_of watch with
        | Err e => (Err e, ids)
        | Ok stock =>
            match list_remove (code_of watch) ids with
            | None => (Err ValueError, ids)
            | Some ids' =>
                match reconcile rest ids' with
                | (Ok entries, kept) => (Ok ((code_of watch, stock) :: entries), kept)
                | (Err e, kept) => (Err e, kept)
                end
            end
        end
      else reconcile rest ids
  end.

(** The first feed row that carries code [o]. *)
Definition first_row (watch_remnants : list watch) (o : string) : option watch :=
  List.find (fun watch => String.eqb (code_of watch) o) watch_remnants.


(** Lines 225-231 of seller.py: the price entry of one feed row. *)
Definition ozon_price_of (watch : watch) : result pyobj :=
  match price_conversion (dict_get watch "Цена") with
  | Err e => Err e
  | Ok converted =>
      Ok (PyDict [("auto_action_enabled", PyStr "UNKNOWN");
                  ("currency_code", PyStr "RUB");
                  ("offer_id", PyStr (code_of watch));
                  ("old_price", PyStr "0");
                  ("price", PyStr converted)])
  end.

(** Lines 389-400 of market.py: the price entry of one feed row. *)
Definition market_price_of (watch : watch) : result pyobj :=
  match price_conversion (dict_get watch "Цена") with
  | Err e => Err e
  | Ok converted =>
      match py_int_of_str converted with
      | Err e => Err e
      | Ok value =>
          Ok (PyDict [("id", PyStr (code_of watch));
                      ("price", PyDict [("value", PyInt value);
                                        ("currencyId", PyStr "RUR")])])
      end
  end.

(** A price batch matches the feed: no world change, and one entry, in feed
    order, for each feed row whose code is listed; a run that raises instead
    was stopped by the price of a listed feed row. *)
Definition price_batch_matches (watch_remnants : list watch) (L : list string)
    (price_of : watch -> result pyobj) (w : world)
    (run : outcome (list pyobj) * world) : Prop :=
  run.2 = w /\
  match run.1 with
  | Ret prices =>
      Forall2 (fun watch price => price_of watch = Ok price)
              (List.filter (fun watch => list_contains (code_of watch) L) watch_remnants)
              prices
  | Raise e =>
      exists watch, watch ∈ watch_remnants /\ code_of watch ∈ L /\
                    price_of watch = Err e
  | Starved => False
  end.

Definition is_price_update (e : event) : bool :=
  match e with
  | PricesUpdate _ _ => true
  | _ => false
  end.

(** The price-update requests among the events of a log. *)
Definition price_updates (l : list event) : list event :=
  List.filter is_price_update l.

(** [quiet P m Q]: run from a world that satisfies [P], the computation [m]
    only adds events to the log, none of them a price update, however it
    ends, and when it returns [a] the world it leaves satisfies [Q a]. *)
Definition quiet {A : Type} (P : world -> Prop) (m : M A)
    (Q : A -> world -> Prop) : Prop :=
  forall w, P w ->
    (exists new, log (m w).2 = log w ++ new /\ price_updates new = []) /\
    forall a, (m w).1 = Ret a -> Q a (m w).2.

(** The world after the events [es], in this order. *)
Definition emit_all (es : list event) (w : world) : world :=
  World (heap w) (log w ++ es) (ozon_replies w) (market_replies w)
        (stock_file w) (ack w) (utc_clock w) (clock_reads w).

(** The offer identifiers the Ozon listing endpoint holds in store. *)
Definition ozon_catalogue (replies : list (reply ozon_page)) : list string :=
  flat_map (fun r => match r with
                     | ReplyResult p => map offer_id (page_items p)
                     | _ => []
                     end) replies.

(** The UTC clock reading [dt] as [create_stocks] writes it. *)
Definition stamp (dt : datetime) : string :=
  isoformat (replace_microsecond dt 0) +:+ "Z".

(** ** Notions used to state further properties *)

(** [emits phi m]: from every world, [m] only adds events to the log, and
    each event it adds satisfies [phi], however [m] ends. *)
Definition emits {A : Type} (phi : event -> Prop) (m : M A) : Prop :=
  forall w, exists new, log (m w).2 = log w ++ new /\ Forall phi new.

(** An update request holds at least one entry and at most [stocks_max]
    stock entries, or [prices_max] price entries. *)
Definition sized (stocks_max prices_max : nat) (e : event) : Prop :=
  match e with
  | StocksUpdate _ stocks => (1 <= length stocks <= stocks_max)%nat
  | PricesUpdate _ prices => (1 <= length prices <= prices_max)%nat
  | _ => True
  end.

(** The feed codes, in feed order. *)
Definition codes (watch_remnants : list watch) : list string :=
  map code_of watch_remnants.

(** The cursors of the requests made while the Ozon pages [pages] are read
    and the paging goes on after each of them: the empty cursor, then the
    [last_id] of each page. *)
Definition ozon_cursors (pages : list ozon_page) : list string :=
  EmptyString :: map page_last_id pages.

(** Whether none of the Ozon pages [pages], met after [seen] entries, ends
    the paging. *)
Fixpoint ozon_unfinished (seen : nat) (pages : list ozon_page) : bool :=
  match pages with
  | [] => true
  | p :: pages' =>
      negb (page_total p =? Z.of_nat (seen + length (page_items p)))
      && ozon_unfinished (seen + length (page_items p)) pages'
  end.

(** A page ends the Market paging when its [nextPageToken] is missing or
    empty. *)
Definition market_last (p : market_page) : bool :=
  match nextPageToken p with
  | None => true
  | Some EmptyString => true
  | Some _ => false
  end.

(** The cursors of the requests made while the Market pages [pages] are
    read and the paging goes on after each of them. *)
Definition market_cursors (pages : list market_page) : list string :=
  EmptyString :: map (fun p => default EmptyString (nextPageToken p)) pages.

(** ** Sample data *)

(** The feed row of the docstrings. *)
Definition docstring_feed : list watch :=
  [[("Код", CInt 73309); ("Наименование товара", CStr "BM7334-66L");
    ("Изображение", CStr "Показать"); ("Цена", CStr "38'440.00 руб.");
    ("Количество", CInt 2); ("Заказ", CStr EmptyString)]].

(** A feed row with the given code, quantity and price. *)
Definition row (code quantity price : cell) : watch :=
  [("Код", code); ("Цена", price); ("Количество", quantity)].

(** A world at the start of a run: nothing sent yet, every update request
    accepted, the clock advancing by one second per reading. *)
Definition world_of (lists : gmap loc (list string))
    (ozon : list (reply ozon_page)) (market : list (reply market_page))
    (feed : list watch) : world :=
  World lists [] ozon market (Ok feed) (fun _ _ => None)
        (fun n => Datetime 2022 12 29 18 2 (1 + n) 250) 0.

(** ** Sample runs *)

Example divide_docstring :
  divide [1; 2; 3; 4; 5] 2 = Ok [[1; 2]; [3; 4]; [5]].
Proof. reflexivity. Qed.

Example price_conversion_docstring :
  price_conversion (CStr "5'990.00 руб.") = Ok "5990".
Proof. reflexivity. Qed.

Example price_conversion_two_dots :
  price_conversion (CStr "1.234.56 руб.") = Ok "1" /\
  price_conversion (CStr "12 345") = Ok "12345" /\
  price_conversion (CInt 5990) = Err AttributeError.
Proof. repeat split; reflexivity. Qed.

Example py_int_examples :
  py_int_of_str "-5" = Ok (-5) /\ py_int_of_str " 7 " = Ok 7 /\
  py_int_of_str "1_0" = Ok 10 /\ py_int_of_str "2O" = Err ValueError /\
  py_int_of_str EmptyString = Err ValueError /\ py_int_of_str "- 5" = Err ValueError /\
  py_int_of_str "1__0" = Err ValueError /\ py_int_of_str "007" = Ok 7 /\
  py_str (CInt (-5)) = "-5" /\ py_str (CInt 73309) = "73309".
Proof. repeat split; reflexivity. Qed.

Example market_scenario_stocks :
  (Market.create_stocks docstring_feed 0%nat "W1"
     (world_of {[ 0%nat := ["73309"] ]} [] [] [])).1
  = Ret [Market.sku_entry "73309" "W1" 2 "2022-12-29T18:02:01Z"].
Proof. vm_compute. reflexivity. Qed.

Example market_scenario_prices :
  (Market.create_prices docstring_feed 0%nat
     (world_of {[ 0%nat := ["73309"] ]} [] [] [])).1
  = Ret [PyDict [("id", PyStr "73309");
                 ("price", PyDict [("value", PyInt 38440); ("currencyId", PyStr "RUR")])]].
Proof. vm_compute. reflexivity. Qed.

Example scenario_single_watch :
  (Seller.create_stocks [row (CInt 73309) (CStr "1") (CStr "1.00")] 0%nat
     (world_of {[ 0%nat := ["73309"; "99999"] ]} [] [] [])).1
  = Ret [PyDict [("offer_id", PyStr "73309"); ("stock", PyInt 0)];
         PyDict [("offer_id", PyStr "99999"); ("stock", PyInt 0)]].
Proof. vm_compute. reflexivity. Qed.

Example scenario_letter_in_quantity :
  (Seller.create_stocks [row (CInt 73309) (CStr "2O") (CStr "1.00")] 0%nat
     (world_of {[ 0%nat := ["136748"; "73309"] ]} [] [] [])).1
  = Raise ValueError.
Proof. vm_compute. reflexivity. Qed.

(** Were the coroutine of [upload_prices] awaited, its body would send the
    price batch. *)
Example awaited_upload_prices_sends :
  price_updates
    (log ((let! c := Market.upload_prices docstring_feed "fbs" "token" in await c)
            (world_of ∅ [] [ReplyResult (MarketPage [MappingEntry "73309"] None)] [])).2)
  = [PricesUpdate "fbs"
       [PyDict [("id", PyStr "73309");
                ("price", PyDict [("value", PyInt 38440); ("currencyId", PyStr "RUR")])]]].
Proof. vm_compute. reflexivity. Qed.

(** * Properties *)

(** ** The batcher *)

Section Divide.
Context {A : Type}.
Implicit Types (lst : list A) (m k : nat).

Lemma take_plus_window lst p m :
  take (p + m) lst = take p lst ++ take m (drop p lst).
Proof.
  revert lst. induction p as [|p IH]; intros [|x lst]; simpl; try done.
  - by rewrite take_nil.
  - by rewrite IH.
Qed.

Lemma concat_windows lst m (c : nat) :
  concat (map (fun k => take m (drop (k * m) lst)) (seq 0 c)) = take (c * m) lst.
Proof.
  induction c as [|c IH].
  - by rewrite take_0.
  - rewrite seq_S, map_app, concat_app, IH.
    replace (S c * m)%nat with (c * m + m)%nat by lia.
    rewrite take_plus_window. cbn [map concat Nat.add]. by rewrite app_nil_r.
Qed.

Lemma py_range_from_zero (len n : Z) :
  0 < n ->
  py_range 0 len n =
    Ok (map (fun k => Z.of_nat k * n)
            (seq 0 (Z.to_nat (if 0 <? len then (len - 1) / n + 1 else 0)))).
Proof.
  intros Hn. unfold py_range.
  destruct (Z.eqb_spec n 0) as [->|_]; [lia|].
  destruct (Z.ltb_spec 0 n); [|lia].
  rewrite Z.sub_0_r. f_equal.
Qed.

Lemma py_slice_window lst (n : Z) k :
  0 < n -> (k * Z.to_nat n < length lst)%nat ->
  py_slice lst (Z.of_nat k * n) (Z.of_nat k * n + n)
  = take (Z.to_nat n) (drop (k * Z.to_nat n) lst).
Proof.
  intros Hn Hk. unfold py_slice, slice_index.
  set (len := Z.of_nat (length lst)).
  assert (Hkn : Z.of_nat k * n = Z.of_nat (k * Z.to_nat n)) by lia.
  destruct (Z.ltb_spec (Z.of_nat k * n) 0); [lia|].
  destruct (Z.ltb_spec (Z.of_nat k * n + n) 0); [lia|].
  rewrite (Z.min_l (Z.of_nat k * n) len) by lia.
  replace (Z.to_nat (Z.of_nat k * n)) with (k * Z.to_nat n)%nat by lia.
  destruct (Z.le_gt_cases (Z.of_nat k * n + n) len).
  - rewrite Z.min_l by lia. f_equal. lia.
  - rewrite Z.min_r by lia.
    rewrite !take_ge; [done| |]; rewrite length_drop; lia.
Qed.

Lemma divide_windows lst (n : Z) :
  0 < n ->
  divide lst n =
    Ok (map (fun k => take (Z.to_nat n) (drop (k * Z.to_nat n) lst))
            (seq 0 (Z.to_nat (if 0 <? Z.of_nat (length lst)
                              then (Z.of_nat (length lst) - 1) / n + 1 else 0)))).
Proof.
  intros Hn. unfold divide. rewrite py_range_from_zero by done.
  f_equal. rewrite map_map. apply map_ext_in.
  intros k Hk. apply in_seq in Hk.
  apply py_slice_window; [done|].
  destruct (Z.ltb_spec 0 (Z.of_nat (length lst))); [|simpl in Hk; lia].
  assert (Z.of_nat k <= (Z.of_nat (length lst) - 1) / n) by lia.
  assert (n * ((Z.of_nat (length lst) - 1) / n) <= Z.of_nat (length lst) - 1)
    by (apply Z.mul_div_le; lia).
  nia.
Qed.

(** C7. For a positive [n], [divide lst n] yields chunks whose concatenation
    is [lst]; every chunk but the last has exactly [n] elements; when [lst]
    is not empty the last chunk has between 1 and [n] elements; and the empty
    list yields no chunk. *)
Theorem divide_chunks lst (n : Z) :
  0 < n ->
  exists chunks,
    divide lst n = Ok chunks /\
    concat chunks = lst /\
    (forall i c, (S i < length chunks)%nat -> chunks !! i = Some c ->
                 Z.of_nat (length c) = n) /\
    (lst <> [] -> exists c, last chunks = Some c /\ 1 <= Z.of_nat (length c) <= n) /\
    (lst = [] -> chunks = []).
Proof.
  intros Hn. eexists. split; [by apply divide_windows|].
  set (len := Z.of_nat (length lst)).
  set (m := Z.to_nat n).
  destruct (Z.ltb_spec 0 len) as [Hlen|Hlen].
  - pose proof (Z.mul_div_le (len - 1) n Hn) as Hlo.
    pose proof (Z.mul_succ_div_gt (len - 1) n Hn) as Hhi.
    set (q := (len - 1) / n) in *.
    assert (Hq : 0 <= q) by (apply Z.div_pos; lia).
    replace (Z.to_nat (q + 1)) with (S (Z.to_nat q)) by lia.
    repeat split.
    + rewrite concat_windows. apply take_ge. subst len m. nia.
    + intros i c Hi Hc. rewrite length_map, length_seq in Hi.
      rewrite list_lookup_fmap in Hc.
      rewrite lookup_seq_lt in Hc by lia. simpl in Hc. injection Hc as <-.
      rewrite length_take, length_drop. subst len m. nia.
    + intros _. rewrite seq_S, map_app. cbn [map].
      eexists. split; [apply last_snoc|].
      rewrite length_take, length_drop. subst len m. simpl. nia.
    + intros ->. simpl in len. subst len. lia.
  - assert (lst = []) as -> by (destruct lst; [done|simpl in len; subst len; lia]).
    repeat split; try done.
Qed.
End Divide.

(** An instance of [divide_chunks]. *)
Lemma divide_chunks_witness :
  0 < 2 /\
  exists chunks,
    divide [1; 2; 3; 4; 5] 2 = Ok chunks /\
    concat chunks = [1; 2; 3; 4; 5] /\
    (forall i c, (S i < length chunks)%nat -> chunks !! i = Some c ->
                 Z.of_nat (length c) = 2) /\
    ([1; 2; 3; 4; 5] <> [] ->
     exists c, last chunks = Some c /\ 1 <= Z.of_nat (length c) <= 2) /\
    ([1; 2; 3; 4; 5] = [] -> chunks = []).
Proof. split; [lia|]. apply (divide_chunks [1; 2; 3; 4; 5] 2). lia. Defined.

(** ** Price normalisation *)

Lemma split_first_segment (s : string) :
  exists pre tl,
    split "." s = pre :: tl /\
    ~ In "."%char (list_ascii_of_string pre) /\
    (s = pre \/ exists rest, s = pre +:+ String "." rest).
Proof.
  induction s as [|c s (pre & tl & Hsplit & Hdot & Hs)]; simpl.
  - exists EmptyString, []. auto.
  - destruct (Ascii.eqb_spec c ".") as [->|Hc].
    + exists EmptyString, (split "." s). repeat split; [tauto|]. right. by exists s.
    + rewrite Hsplit. exists (String c pre), tl. repeat split.
      * simpl. intros [?|?]; congruence || tauto.
      * destruct Hs as [->|[rest ->]]; [by left|right]. by exists rest.
Qed.

Lemma re_sub_keeps_digits (s : string) :
  re_sub_class true "0" "9" EmptyString s
  = string_of_list_ascii (List.filter is_digit (list_ascii_of_string s)).
Proof.
  induction s as [|c s IH]; [done|].
  cbn [re_sub_class list_ascii_of_string List.filter].
  change (nat_of_ascii "0") with 48%nat. change (nat_of_ascii "9") with 57%nat.
  unfold is_digit at 1.
  destruct ((48 <=? nat_of_ascii c)%nat && (nat_of_ascii c <=? 57)%nat); simpl.
  - by rewrite IH.
  - done.
Qed.

(** C6. For every text [s], [price_conversion] returns the part of [s] that
    precedes its first ["."] (all of [s] when it has none) with every
    character other than an ASCII digit taken out. *)
Theorem price_conversion_first_segment (s : string) :
  exists pre,
    ~ In "."%char (list_ascii_of_string pre) /\
    (s = pre \/ exists rest, s = pre +:+ String "." rest) /\
    price_conversion (CStr s)
    = Ok (string_of_list_ascii (List.filter is_digit (list_ascii_of_string pre))).
Proof.
  destruct (split_first_segment s) as (pre & tl & Hsplit & Hdot & Hs).
  exists pre. repeat split; [done..|].
  unfold price_conversion. by rewrite Hsplit, re_sub_keeps_digits.
Qed.

(** The part before the first ["."] is determined by the text. *)
Lemma first_segment_unique (s pre1 pre2 : string) :
  ~ In "."%char (list_ascii_of_string pre1) ->
  ~ In "."%char (list_ascii_of_string pre2) ->
  (s = pre1 \/ exists rest, s = pre1 +:+ String "." rest) ->
  (s = pre2 \/ exists rest, s = pre2 +:+ String "." rest) ->
  pre1 = pre2.
Proof.
  revert s pre2. induction pre1 as [|c pre1 IH]; intros s [|d pre2] H1 H2 Hs1 Hs2.
  - done.
  - exfalso. simpl in H2. destruct Hs1 as [->|[r1 ->]], Hs2 as [Hs2|[r2 Hs2]];
      simpl in Hs2; try discriminate; injection Hs2 as <- _; tauto.
  - exfalso. simpl in H1. destruct Hs2 as [->|[r2 ->]], Hs1 as [Hs1|[r1 Hs1]];
      simpl in Hs1; try discriminate; injection Hs1 as <- _; tauto.
  - simpl in H1, H2.
    assert (c = d /\ exists s', s = String c s' /\
            (s' = pre1 \/ exists rest, s' = pre1 +:+ String "." rest) /\
            (s' = pre2 \/ exists rest, s' = pre2 +:+ String "." rest))
      as (<- & s' & -> & Hs1' & Hs2').
    { destruct Hs1 as [->|[r1 ->]], Hs2 as [Hs2|[r2 Hs2]]; simpl in Hs2;
        injection Hs2 as -> Hs2; (split; [done|]); eexists; (split; [done|]);
        split; eauto. }
    f_equal. apply (IH s'); tauto.
Qed.

(** A price of the form [D1.rest] with [D1] made of digits converts to [D1]. *)
Lemma price_conversion_plain_digits (d rest : string) :
  forallb is_digit (list_ascii_of_string d) = true ->
  price_conversion (CStr (d +:+ String "." rest)) = Ok d.
Proof.
  intros Hd.
  destruct (split_first_segment (d +:+ String "." rest))
    as (pre & tl & Hsplit & Hdot & Hs).
  unfold price_conversion. rewrite Hsplit, re_sub_keeps_digits.
  assert (pre = d) as ->.
  { apply (first_segment_unique (d +:+ String "." rest)); [done| |done|eauto].
    intros Hin. rewrite forallb_forall in Hd. by apply Hd in Hin. }
  f_equal. rewrite <- (string_of_list_ascii_of_string d) at 2. f_equal.
  induction (list_ascii_of_string d) as [|c l IH]; [done|].
  simpl in *. apply andb_prop in Hd as [-> ?]. f_equal. auto.
Qed.

(** ** Quantity normalisation *)

(** *** Which quantity texts [int()] accepts *)

(** The two integrations normalise a quantity in the same way. *)
Lemma stock_of_same (watch : watch) : Market.stock_of watch = Seller.stock_of watch.
Proof. reflexivity. Qed.

(** The three cases of a quantity given as text. *)
Lemma stock_of_text (watch : watch) (s : string) :
  dict_get watch "Количество" = CStr s ->
  Seller.stock_of watch =
    if String.eqb s ">10" then Ok 100
    else if String.eqb s "1" then Ok 0
    else py_int_of_str s.
Proof. intros H. unfold Seller.stock_of. by rewrite H. Qed.

Lemma digit_not_space (c : ascii) : is_digit c = true -> is_space c = false.
Proof.
  unfold is_digit, is_space. intros [H1 H2]%andb_prop.
  apply Nat.leb_le in H1, H2.
  apply orb_false_iff. split.
  - apply andb_false_iff. right. apply Nat.leb_gt. lia.
  - apply Nat.eqb_neq. lia.
Qed.

Lemma rstrip_keeps (s : string) (c : ascii) :
  In c (list_ascii_of_string s) -> is_space c = false ->
  In c (list_ascii_of_string (rstrip s)) /\ rstrip s <> EmptyString.
Proof.
  induction s as [|x s IH]; simpl; [done|].
  intros [->|Hin] Hc.
  - destruct (rstrip s); [rewrite Hc|]; simpl; auto.
  - destruct (IH Hin Hc) as [Hin' Hne].
    destruct (rstrip s); [done|]. simpl in *. auto.
Qed.

Lemma lstrip_keeps (s : string) (c : ascii) :
  In c (list_ascii_of_string s) -> is_space c = false ->
  In c (list_ascii_of_string (lstrip s)).
Proof.
  induction s as [|x s IH]; simpl; [done|].
  intros [->|Hin] Hc.
  - rewrite Hc. simpl. auto.
  - destruct (is_space x); [auto|]. simpl. auto.
Qed.

Lemma digits_value_rejects (s : string) (c : ascii) :
  In c (list_ascii_of_string s) -> is_digit c = false -> c <> "_"%char ->
  forall acc prev, digits_value s acc prev = None.
Proof.
  induction s as [|x s IH]; simpl; [done|].
  intros [->|Hin] Hd Hu acc prev.
  - rewrite Hd. by destruct (Ascii.eqb_spec c "_").
  - destruct (is_digit x); [by apply IH|].
    destruct (Ascii.eqb x "_"); [|done]. destruct prev; [by apply IH|done].
Qed.

(** A text with an ASCII character that is neither a digit, a blank, a sign
    nor an underscore is refused. *)
Lemma py_int_of_str_rejects (s : string) (c : ascii) :
  In c (list_ascii_of_string s) -> (nat_of_ascii c < 128)%nat ->
  is_digit c = false -> is_space c = false ->
  c <> "_"%char -> c <> "+"%char -> c <> "-"%char ->
  py_int_of_str s = Err ValueError.
Proof.
  intros Hin _ Hd Hs Hu Hp Hm.
  destruct (rstrip_keeps s c Hin Hs) as [Hin1 _].
  pose proof (lstrip_keeps _ c Hin1 Hs) as Hin2.
  unfold py_int_of_str.
  destruct (lstrip (rstrip s)) as [|x d]; [done|].
  assert (Hall : digits_value (String x d) 0 false = None)
    by by apply (digits_value_rejects _ c).
  assert (Htail : x <> c -> digits_value d 0 false = None).
  { intros Hx. apply (digits_value_rejects _ c); [|done..].
    simpl in Hin2. by destruct Hin2. }
  destruct (Ascii.eqb_spec x "-") as [->|?]; [by rewrite Htail|].
  destruct (Ascii.eqb_spec x "+") as [->|?]; [by rewrite Htail|].
  destruct x as [[] [] [] [] [] [] [] []]; try congruence; by rewrite Hall.
Qed.

Lemma no_blank_rstrip (s : string) :
  forallb is_digit (list_ascii_of_string s) = true -> rstrip s = s.
Proof.
  induction s as [|x s IH]; simpl; [done|].
  intros [Hx Hs]%andb_prop. rewrite (IH Hs).
  destruct s; [|done]. by rewrite (digit_not_space x Hx).
Qed.

Lemma digits_value_digits (s : string) :
  forallb is_digit (list_ascii_of_string s) = true ->
  forall acc prev,
    digits_value s acc prev =
      match s with
      | EmptyString => if prev then Some acc else None
      | _ => Some (fold_left (fun a c => 10 * a + digit_value c)
                             (list_ascii_of_string s) acc)
      end.
Proof.
  induction s as [|x s IH]; simpl; [done|].
  intros [Hx Hs]%andb_prop acc prev. rewrite Hx, (IH Hs).
  by destruct s.
Qed.

(** A non-empty text of ASCII digits is read as its decimal value. *)
Lemma py_int_of_str_digits (s : string) :
  s <> EmptyString ->
  forallb is_digit (list_ascii_of_string s) = true ->
  py_int_of_str s =
    Ok (fold_left (fun a c => 10 * a + digit_value c) (list_ascii_of_string s) 0).
Proof.
  intros Hne Hs. unfold py_int_of_str. rewrite (no_blank_rstrip s Hs).
  destruct s as [|x s]; [done|].
  pose proof Hs as Hs'. simpl in Hs'. apply andb_prop in Hs' as [Hx _].
  simpl lstrip. rewrite (digit_not_space x Hx).
  pose proof (digits_value_digits _ Hs 0 false) as Hv.
  destruct x as [[] [] [] [] [] [] [] []]; try discriminate Hx; by rewrite Hv.
Qed.

(** C4 (the code departs from the claim). A quantity text with a sign, with
    blanks around it or with an underscore between digits holds characters
    that are not digits, and still [create_stocks] takes it for a number:
    ["-5"] becomes the stock [-5]. *)
Theorem signed_quantity_is_accepted :
  Seller.stock_of (row (CInt 73309) (CStr "-5") (CStr "1.00")) = Ok (-5) /\
  Market.stock_of (row (CInt 73309) (CStr "-5") (CStr "1.00")) = Ok (-5) /\
  Seller.stock_of (row (CInt 73309) (CStr " 7 ") (CStr "1.00")) = Ok 7 /\
  Seller.stock_of (row (CInt 73309) (CStr "1_0") (CStr "1.00")) = Ok 10 /\
  (Seller.create_stocks [row (CInt 73309) (CStr "-5") (CStr "1.00")] 0%nat
     (world_of {[ 0%nat := ["73309"] ]} [] [] [])).1
  = Ret [PyDict [("offer_id", PyStr "73309"); ("stock", PyInt (-5))]].
Proof. vm_compute. done. Qed.

(** ** The stock reconciler *)

Lemma list_contains_elem (x : string) (l : list string) :
  list_contains x l = true <-> x ∈ l.
Proof.
  induction l as [|y l IH]; simpl.
  - split; [done|]. by intros ?%elem_of_nil.
  - rewrite elem_of_cons. destruct (String.eqb_spec x y); [tauto|].
    rewrite IH. tauto.
Qed.

Lemma list_remove_elem (x : string) (l : list string) :
  x ∈ l -> exists l', list_remove x l = Some l' /\ l ≡ₚ x :: l'.
Proof.
  induction l as [|y l IH]; [by intros ?%elem_of_nil|].
  intros Hin. simpl. destruct (String.eqb_spec x y) as [->|Hne].
  - by exists l.
  - apply elem_of_cons in Hin as [?|Hin]; [done|].
    destruct (IH Hin) as (l' & -> & Hp). exists (y :: l'). split; [done|].
    rewrite Hp. apply Permutation_swap.
Qed.

Lemma with_list_same (r : loc) (l : list string) (w : world) :
  heap w !! r = Some l -> with_list r l w = w.
Proof.
  intros H. unfold with_list, set_heap. rewrite insert_id by done. by destruct w.
Qed.

Lemma with_list_twice (r : loc) (l1 l2 : list string) (w : world) :
  with_list r l2 (with_list r l1 w) = with_list r l2 w.
Proof. unfold with_list, set_heap. simpl. by rewrite insert_insert_eq. Qed.

Lemma with_list_lookup (r : loc) (l : list string) (w : world) :
  heap (with_list r l w) !! r = Some l.
Proof. unfold with_list. simpl. apply lookup_insert_eq. Qed.

Lemma bind_run {A B : Type} (m : M A) (k : A -> M B) (w : world) :
  bind m k w =
    match m w with
    | (Ret a, w') => k a w'
    | (Raise e, w') => (Raise e, w')
    | (Starved, w') => (Starved, w')
    end.
Proof. reflexivity. Qed.

Lemma contains_run (x : string) (r : loc) (L : list string) (w : world) :
  heap w !! r = Some L -> contains x r w = (Ret (list_contains x L), w).
Proof. intros H. unfold contains, read_list. by rewrite bind_run, H. Qed.

Lemma remove_run (x : string) (r : loc) (L : list string) (w : world) :
  heap w !! r = Some L ->
  remove r x w =
    match list_remove x L with
    | Some L' => (Ret tt, with_list r L' w)
    | None => (Raise ValueError, w)
    end.
Proof. intros H. unfold remove. by rewrite H. Qed.

Lemma seller_stocks_loop (F : list watch) (r : loc) :
  forall (L : list string) (stocks : list pyobj) (w : world),
    heap w !! r = Some L ->
    Seller.create_stocks_loop F r stocks w =
      match reconcile F L with
      | (Ok entries, kept) =>
          (Ret (stocks ++ map (fun '(o, c) => PyDict [("offer_id", PyStr o);
                                                      ("stock", PyInt c)]) entries),
           with_list r kept w)
      | (Err e, kept) => (Raise e, with_list r kept w)
      end.
Proof.
  induction F as [|watch F IH]; intros L stocks w HL; simpl.
  - by rewrite app_nil_r, with_list_same.
  - rewrite bind_run, (contains_run _ _ L) by done.
    fold (code_of watch).
    destruct (list_contains (code_of watch) L) eqn:Hin; [|by apply IH].
    rewrite bind_run.
    destruct (Seller.stock_of watch) as [stock|e]; simpl;
      [|by rewrite with_list_same].
    rewrite bind_run, (remove_run _ _ L) by done.
    destruct (list_remove (code_of watch) L) as [L'|]; simpl;
      [|by rewrite with_list_same].
    rewrite (IH L') by apply with_list_lookup.
    destruct (reconcile F L') as [[entries|e] kept]; rewrite with_list_twice;
      [|done].
    by rewrite <- app_assoc.
Qed.

Lemma market_stocks_loop (F : list watch) (r : loc) (warehouse_id date : string) :
  forall (L : list string) (stocks : list pyobj) (w : world),
    heap w !! r = Some L ->
    Market.create_stocks_loop F r warehouse_id date stocks w =
      match reconcile F L with
      | (Ok entries, kept) =>
          (Ret (stocks ++ map (fun '(o, c) => Market.sku_entry o warehouse_id c date) entries),
           with_list r kept w)
      | (Err e, kept) => (Raise e, with_list r kept w)
      end.
Proof.
  induction F as [|watch F IH]; intros L stocks w HL; simpl.
  - by rewrite app_nil_r, with_list_same.
  - rewrite bind_run, (contains_run _ _ L) by done.
    fold (code_of watch).
    destruct (list_contains (code_of watch) L) eqn:Hin; [|by apply IH].
    rewrite bind_run. change (Market.stock_of watch) with (Seller.stock_of watch).
    destruct (Seller.stock_of watch) as [stock|e]; simpl;
      [|by rewrite with_list_same].
    rewrite bind_run, (remove_run _ _ L) by done.
    destruct (list_remove (code_of watch) L) as [L'|]; simpl;
      [|by rewrite with_list_same].
    rewrite (IH L') by apply with_list_lookup.
    destruct (reconcile F L') as [[entries|e] kept]; rewrite with_list_twice;
      [|done].
    by rewrite <- app_assoc.
Qed.

(** *** What [reconcile] computes *)

Lemma reconcile_perm (F : list watch) :
  forall ids entries kept,
    reconcile F ids = (Ok entries, kept) -> map fst entries ++ kept ≡ₚ ids.
Proof.
  induction F as [|watch F IH]; intros ids entries kept; simpl.
  - by intros [= <- <-].
  - destruct (list_contains (code_of watch) ids) eqn:Hin; [|by apply IH].
    apply list_contains_elem, list_remove_elem in Hin as (ids' & -> & Hp).
    destruct (Seller.stock_of watch); [|done].
    destruct (reconcile F ids') as [[es|] k] eqn:Hr; intros [= <- <-].
    simpl. by rewrite (IH _ _ _ Hr).
Qed.

Lemma reconcile_kept (F : list watch) :
  forall ids res kept o,
    reconcile F ids = (res, kept) -> o ∈ kept -> o ∈ ids.
Proof.
  induction F as [|watch F IH]; intros ids res kept o; simpl.
  - by intros [= <- <-].
  - destruct (list_contains (code_of watch) ids) eqn:Hin; [|by apply IH].
    apply list_contains_elem, list_remove_elem in Hin as (ids' & -> & Hp).
    destruct (Seller.stock_of watch); [|by intros [= <- <-]].
    destruct (reconcile F ids') as [[es|] k] eqn:Hr; intros [= <- <-] Ho;
      rewrite Hp; apply elem_of_cons; right; by eapply IH.
Qed.

Lemma find_code_skip (F : list watch) (watch : watch) (o : string) :
  code_of watch <> o ->
  first_row (watch :: F) o
  = first_row F o.
Proof. intros H. unfold first_row. simpl. by destruct (String.eqb_spec (code_of watch) o). Qed.

Lemma reconcile_entries (F : list watch) :
  forall ids entries kept,
    NoDup ids ->
    reconcile F ids = (Ok entries, kept) ->
    Forall (fun '(o, c) =>
              exists watch,
                first_row F o = Some watch /\
                Seller.stock_of watch = Ok c) entries /\
    Forall (fun o => first_row F o = None) kept.
Proof.
  induction F as [|watch F IH]; intros ids entries kept Hnd; simpl reconcile.
  - intros [= <- <-]. split; [constructor|]. by apply Forall_forall.
  - assert (Hskip : forall es k ids',
              code_of watch ∉ ids' -> map fst es ++ k ≡ₚ ids' ->
              Forall (fun '(o, c) =>
                exists x, first_row F o = Some x /\
                          Seller.stock_of x = Ok c) es ->
              Forall (fun o => first_row F o = None) k ->
              Forall (fun '(o, c) =>
                exists x, first_row (watch :: F) o = Some x /\
                          Seller.stock_of x = Ok c) es /\
              Forall (fun o => first_row (watch :: F) o = None) k).
    { intros es k ids' Hk Hperm He Hkept. split.
      - apply Forall_forall. intros [o c] Ho.
        rewrite find_code_skip; [by apply (proj1 (Forall_forall _ _) He (o, c))|].
        intros <-. apply Hk. rewrite <- Hperm. apply elem_of_app. left.
        apply list_elem_of_In, in_map_iff. exists (code_of watch, c).
        split; [done|]. by apply list_elem_of_In.
      - apply Forall_forall. intros o Ho.
        rewrite find_code_skip; [by apply (proj1 (Forall_forall _ _) Hkept o)|].
        intros <-. apply Hk. rewrite <- Hperm. apply elem_of_app. by right. }
    destruct (list_contains (code_of watch) ids) eqn:Hin.
    + apply list_contains_elem, list_remove_elem in Hin as (ids' & -> & Hp).
      rewrite Hp in Hnd. apply NoDup_cons in Hnd as [Hk Hnd'].
      destruct (Seller.stock_of watch) as [stock|] eqn:Hs; [|done].
      destruct (reconcile F ids') as [[es|] k] eqn:Hr; intros [= <- <-].
      destruct (IH _ _ _ Hnd' Hr) as [He Hkept].
      destruct (Hskip es k ids' Hk (reconcile_perm _ _ _ _ Hr) He Hkept) as [He' Hkept'].
      split; [|done]. constructor; [|done].
      exists watch. unfold first_row. simpl. by rewrite String.eqb_refl.
    + intros Hr. destruct (IH _ _ _ Hnd Hr) as [He Hkept].
      apply (Hskip entries kept ids); [|by eapply reconcile_perm|done..].
      intros Hc%list_contains_elem. congruence.
Qed.



Lemma seller_create_stocks_run (F : list watch) (r : loc) (L : list string) (w : world) :
  heap w !! r = Some L ->
  Seller.create_stocks F r w =
    match reconcile F L with
    | (Ok entries, kept) =>
        (Ret (map (fun '(o, c) => PyDict [("offer_id", PyStr o); ("stock", PyInt c)]) entries
              ++ map (fun o => PyDict [("offer_id", PyStr o); ("stock", PyInt 0)]) kept),
         with_list r kept w)
    | (Err e, kept) => (Raise e, with_list r kept w)
    end.
Proof.
  intros HL. unfold Seller.create_stocks.
  rewrite bind_run, (seller_stocks_loop F r L) by done.
  destruct (reconcile F L) as [[entries|e] kept]; [|done].
  rewrite bind_run. unfold read_list. by rewrite with_list_lookup.
Qed.

Lemma market_create_stocks_run (F : list watch) (r : loc) (L : list string)
    (warehouse_id : string) (w : world) :
  heap w !! r = Some L ->
  Market.create_stocks F r warehouse_id w =
    let date := stamp (utc_clock w (clock_reads w)) in
    match reconcile F L with
    | (Ok entries, kept) =>
        (Ret (map (fun '(o, c) => Market.sku_entry o warehouse_id c date) entries
              ++ map (fun o => Market.sku_entry o warehouse_id 0 date) kept),
         with_list r kept (tick w))
    | (Err e, kept) => (Raise e, with_list r kept (tick w))
    end.
Proof.
  intros HL. unfold Market.create_stocks.
  rewrite bind_run. unfold utcnow.
  rewrite bind_run, (market_stocks_loop F r _ _ L) by done.
  fold (stamp (utc_clock w (clock_reads w))).
  destruct (reconcile F L) as [[entries|e] kept]; [|done].
  rewrite bind_run. unfold read_list. by rewrite with_list_lookup.
Qed.

(** What [create_stocks] leaves in the caller's list: the listed identifiers
    that no feed row carries. *)
Lemma reconcile_keeps_unmatched (F : list watch) (L : list string)
    (entries : list (string * Z)) (kept : list string) :
  NoDup L -> reconcile F L = (Ok entries, kept) ->
  forall o, o ∈ kept <-> o ∈ L /\ first_row F o = None.
Proof.
  intros Hnd Hr o.
  destruct (reconcile_entries F L entries kept Hnd Hr) as [He Hk].
  pose proof (reconcile_perm F L entries kept Hr) as Hperm.
  split.
  - intros Ho. split; [by eapply reconcile_kept|].
    by apply (proj1 (Forall_forall _ _) Hk).
  - intros [Ho Hnone]. rewrite <- Hperm in Ho.
    apply elem_of_app in Ho as [Ho|Ho]; [|done].
    apply list_elem_of_In, in_map_iff in Ho as ([o' c] & <- & Hin).
    apply list_elem_of_In in Hin.
    destruct (proj1 (Forall_forall _ _) He _ Hin) as (watch & Hw & _).
    simpl in Hnone. congruence.
Qed.

Lemma create_stocks_leaves_unmatched (F : list watch) (r : loc) (L : list string)
    (warehouse_id : string) (w : world) (stocks : list pyobj) (w' : world) :
  heap w !! r = Some L -> NoDup L ->
  Seller.create_stocks F r w = (Ret stocks, w') \/
  Market.create_stocks F r warehouse_id w = (Ret stocks, w') ->
  exists kept, heap w' !! r = Some kept /\
               forall o, o ∈ kept <-> o ∈ L /\ first_row F o = None.
Proof.
  intros HL Hnd Hrun.
  rewrite (seller_create_stocks_run F r L w HL) in Hrun.
  rewrite (market_create_stocks_run F r L warehouse_id w HL) in Hrun.
  simpl in Hrun.
  destruct (reconcile F L) as [[entries|e] kept] eqn:Hr; [|by destruct Hrun].
  exists kept. split; [|by eapply reconcile_keeps_unmatched].
  destruct Hrun as [[= _ <-]|[= _ <-]]; apply lookup_insert_eq.
Qed.



(** C2 (the code departs from the claim). On the input of the docstring,
    [create_stocks] takes the matched identifier out of the very list the
    caller passed: after the call that list holds ["136748"] only. *)
Theorem create_stocks_shrinks_callers_list :
  let w := world_of {[ 0%nat := ["136748"; "73309"] ]} [] [] docstring_feed in
  heap w !! 0%nat = Some ["136748"; "73309"] /\
  (Seller.create_stocks docstring_feed 0%nat w).1
  = Ret [PyDict [("offer_id", PyStr "73309"); ("stock", PyInt 2)];
         PyDict [("offer_id", PyStr "136748"); ("stock", PyInt 0)]] /\
  heap (Seller.create_stocks docstring_feed 0%nat w).2 !! 0%nat = Some ["136748"] /\
  heap (Market.create_stocks docstring_feed 0%nat "W1" w).2 !! 0%nat = Some ["136748"].
Proof. vm_compute. done. Qed.

(** ** The price reconciler *)

Lemma seller_prices_loop (F : list watch) (r : loc) (L : list string) :
  forall (prices : list pyobj) (w : world),
    heap w !! r = Some L ->
    (Seller.create_prices_loop F r prices w).2 = w /\
    match (Seller.create_prices_loop F r prices w).1 with
    | Ret out =>
        exists new, out = prices ++ new /\
          Forall2 (fun watch price => ozon_price_of watch = Ok price)
                  (List.filter (fun watch => list_contains (code_of watch) L) F) new
    | Raise e =>
        exists watch, watch ∈ F /\ code_of watch ∈ L /\ ozon_price_of watch = Err e
    | Starved => False
    end.
Proof.
  induction F as [|watch F IH]; intros prices w HL; simpl.
  - split; [done|]. exists []. by rewrite app_nil_r.
  - rewrite bind_run, (contains_run _ _ L) by done.
    fold (code_of watch).
    destruct (list_contains (code_of watch) L) eqn:Hin.
    + rewrite bind_run. unfold ozon_price_of.
      destruct (price_conversion (dict_get watch "Цена")) as [converted|e] eqn:Hp; simpl.
      * match goal with |- context [Seller.create_prices_loop F r ?p w] =>
          destruct (IH p w HL) as [Hw Hres]; split; [done|];
          destruct (Seller.create_prices_loop F r p w).1 as [out|e|]
        end.
        -- destruct Hres as (new & -> & Hnew). eexists. rewrite <- app_assoc.
           split; [done|]. simpl. constructor; [|done]. by rewrite Hp.
        -- destruct Hres as (x & Hx & Hc & He). exists x.
           split; [by apply elem_of_cons; right|done].
        -- done.
      * split; [done|]. exists watch. rewrite Hp.
        split; [by apply elem_of_cons; left|]. split; [|done].
        by apply list_contains_elem.
    + destruct (IH prices w HL) as [Hw Hres]. split; [done|].
      destruct (Seller.create_prices_loop F r prices w).1 as [out|e|]; [done| |done].
      destruct Hres as (x & Hx & Hc & He). exists x.
      split; [by apply elem_of_cons; right|done].
Qed.

Lemma market_prices_loop (F : list watch) (r : loc) (L : list string) :
  forall (prices : list pyobj) (w : world),
    heap w !! r = Some L ->
    (Market.create_prices_loop F r prices w).2 = w /\
    match (Market.create_prices_loop F r prices w).1 with
    | Ret out =>
        exists new, out = prices ++ new /\
          Forall2 (fun watch price => market_price_of watch = Ok price)
                  (List.filter (fun watch => list_contains (code_of watch) L) F) new
    | Raise e =>
        exists watch, watch ∈ F /\ code_of watch ∈ L /\ market_price_of watch = Err e
    | Starved => False
    end.
Proof.
  induction F as [|watch F IH]; intros prices w HL; simpl.
  - split; [done|]. exists []. by rewrite app_nil_r.
  - rewrite bind_run, (contains_run _ _ L) by done.
    fold (code_of watch).
    destruct (list_contains (code_of watch) L) eqn:Hin.
    + rewrite bind_run. unfold market_price_of.
      destruct (price_conversion (dict_get watch "Цена")) as [converted|e] eqn:Hp; simpl.
      * rewrite bind_run.
        destruct (py_int_of_str converted) as [value|e] eqn:Hv; simpl.
        -- match goal with |- context [Market.create_prices_loop F r ?p w] =>
             destruct (IH p w HL) as [Hw Hres]; split; [done|];
             destruct (Market.create_prices_loop F r p w).1 as [out|e|]
           end.
           ++ destruct Hres as (new & -> & Hnew). eexists. rewrite <- app_assoc.
              split; [done|]. simpl. constructor; [|done]. by rewrite Hp, Hv.
           ++ destruct Hres as (x & Hx & Hc & He). exists x.
              split; [by apply elem_of_cons; right|done].
           ++ done.
        -- split; [done|]. exists watch. rewrite Hp, Hv.
           split; [by apply elem_of_cons; left|]. split; [|done].
           by apply list_contains_elem.
      * split; [done|]. exists watch. rewrite Hp.
        split; [by apply elem_of_cons; left|]. split; [|done].
        by apply list_contains_elem.
    + destruct (IH prices w HL) as [Hw Hres]. split; [done|].
      destruct (Market.create_prices_loop F r prices w).1 as [out|e|]; [done| |done].
      destruct Hres as (x & Hx & Hc & He). exists x.
      split; [by apply elem_of_cons; right|done].
Qed.

Lemma Forall2_transfer {A B : Type} (R : A -> B -> Prop) (P : A -> Prop)
    (Q : B -> Prop) (xs : list A) (ys : list B) :
  (forall x y, P x -> R x y -> Q y) ->
  Forall2 R xs ys -> Forall P xs -> Forall Q ys.
Proof.
  intros HPQ H. induction H as [|x y xs ys HR _ IH]; intros HP; [constructor|].
  apply Forall_cons in HP as [Hx HP]. constructor; eauto.
Qed.

Lemma filter_listed (F : list watch) (L : list string) :
  Forall (fun watch => code_of watch ∈ L)
         (List.filter (fun watch => list_contains (code_of watch) L) F).
Proof.
  apply Forall_forall. intros watch Hin.
  apply list_elem_of_In, filter_In in Hin as [_ Hin].
  by apply list_contains_elem.
Qed.

(** Every entry of a price batch names a listed offer. *)
Lemma price_ids_listed (F : list watch) (L : list string) (prices : list pyobj) :
  (Forall2 (fun watch price => ozon_price_of watch = Ok price)
           (List.filter (fun watch => list_contains (code_of watch) L) F) prices ->
   Forall (fun price => exists o, o ∈ L /\ find_key "offer_id" price = Some (PyStr o))
          prices) /\
  (Forall2 (fun watch price => market_price_of watch = Ok price)
           (List.filter (fun watch => list_contains (code_of watch) L) F) prices ->
   Forall (fun price => exists o, o ∈ L /\ find_key "id" price = Some (PyStr o))
          prices).
Proof.
  split; intros H.
  - eapply Forall2_transfer; [|exact H|apply filter_listed].
    intros watch price Hin Hp. exists (code_of watch). split; [done|].
    unfold ozon_price_of in Hp.
    destruct (price_conversion _); [|done]. by injection Hp as <-.
  - eapply Forall2_transfer; [|exact H|apply filter_listed].
    intros watch price Hin Hp. exists (code_of watch). split; [done|].
    unfold market_price_of in Hp.
    destruct (price_conversion _); [|done].
    destruct (py_int_of_str _); [|done]. by injection Hp as <-.
Qed.

(** C5. [create_prices], in both integrations, leaves the world as it was,
    the list behind [offer_ids] included, and returns one price entry, in
    feed order, for every feed row whose code is in that list: repeated codes
    give repeated entries, rows with other codes give none, and every entry
    names an identifier of the list. When no batch is returned, the price of
    a listed feed row raised. *)
Theorem create_prices_matches_listed (F : list watch) (r : loc) (L : list string)
    (w : world) :
  heap w !! r = Some L ->
  (price_batch_matches F L ozon_price_of w (Seller.create_prices F r w) /\
   forall prices, (Seller.create_prices F r w).1 = Ret prices ->
     Forall (fun price => exists o, o ∈ L /\ find_key "offer_id" price = Some (PyStr o))
            prices) /\
  (price_batch_matches F L market_price_of w (Market.create_prices F r w) /\
   forall prices, (Market.create_prices F r w).1 = Ret prices ->
     Forall (fun price => exists o, o ∈ L /\ find_key "id" price = Some (PyStr o))
            prices).
Proof.
  intros HL.
  assert (Hs : price_batch_matches F L ozon_price_of w (Seller.create_prices F r w)).
  { destruct (seller_prices_loop F r L [] w HL) as [Hw Hres].
    split; [done|]. unfold Seller.create_prices.
    destruct (Seller.create_prices_loop F r [] w).1; [|done..].
    by destruct Hres as (new & -> & Hnew). }
  assert (Hm : price_batch_matches F L market_price_of w (Market.create_prices F r w)).
  { destruct (market_prices_loop F r L [] w HL) as [Hw Hres].
    split; [done|]. unfold Market.create_prices.
    destruct (Market.create_prices_loop F r [] w).1; [|done..].
    by destruct Hres as (new & -> & Hnew). }
  split; (split; [done|]); intros prices Hrun.
  - destruct Hs as [_ Hs]. rewrite Hrun in Hs.
    by apply (proj1 (price_ids_listed F L prices)).
  - destruct Hm as [_ Hm]. rewrite Hrun in Hm.
    by apply (proj2 (price_ids_listed F L prices)).
Qed.

(** An instance of [create_prices_matches_listed]. *)
Lemma create_prices_matches_listed_witness :
  let w := world_of {[ 0%nat := ["136748"; "73309"] ]} [] [] docstring_feed in
  heap w !! 0%nat = Some ["136748"; "73309"] /\
  price_batch_matches docstring_feed ["136748"; "73309"] ozon_price_of w
    (Seller.create_prices docstring_feed 0%nat w) /\
  price_batch_matches docstring_feed ["136748"; "73309"] market_price_of w
    (Market.create_prices docstring_feed 0%nat w).
Proof.
  intros w. split; [reflexivity|].
  destruct (create_prices_matches_listed docstring_feed 0%nat ["136748"; "73309"] w
              eq_refl) as [[Hs _] [Hm _]].
  split; [exact Hs|exact Hm].
Defined.

(** ** Runs that send no price update *)

(** *** Rules for [quiet] *)

Lemma no_price_nil (w : world) :
  exists new, log w = log w ++ new /\ price_updates new = [].
Proof. exists []. by rewrite app_nil_r. Qed.

Lemma no_price_emit (e : event) (w : world) :
  is_price_update e = false ->
  exists new, log (emit e w) = log w ++ new /\ price_updates new = [].
Proof. intros He. exists [e]. split; [done|]. unfold price_updates. simpl. by rewrite He. Qed.

Lemma no_price_trans (l1 l2 l3 : list event) :
  (exists new, l2 = l1 ++ new /\ price_updates new = []) ->
  (exists new, l3 = l2 ++ new /\ price_updates new = []) ->
  exists new, l3 = l1 ++ new /\ price_updates new = [].
Proof.
  intros (n1 & -> & H1) (n2 & -> & H2). exists (n1 ++ n2).
  split; [by rewrite app_assoc|].
  unfold price_updates in *. by rewrite List.filter_app, H1, H2.
Qed.

Section Quiet.
Context {A B : Type}.
Implicit Types (P : world -> Prop).

Lemma quiet_ret P (a : A) (Q : A -> world -> Prop) :
  (forall w, P w -> Q a w) -> quiet P (ret a) Q.
Proof. intros H w HP. split; [apply no_price_nil|]. intros a' [= <-]. by apply H. Qed.

Lemma quiet_raise P (e : exn) (Q : A -> world -> Prop) : quiet P (raise e) Q.
Proof. intros w HP. split; [apply no_price_nil|done]. Qed.

Lemma quiet_bind P (m : M A) (Q : A -> world -> Prop) (k : A -> M B)
    (R : B -> world -> Prop) :
  quiet P m Q -> (forall a, quiet (Q a) (k a) R) -> quiet P (bind m k) R.
Proof.
  intros Hm Hk w HP. destruct (Hm w HP) as [Hlog HQ].
  rewrite bind_run. destruct (m w) as [[a|e|] w']; simpl in *; [|done..].
  destruct (Hk a w' (HQ a eq_refl)) as [Hlog' HR].
  split; [by eapply no_price_trans|done].
Qed.

Lemma quiet_weaken P P' (m : M A) (Q Q' : A -> world -> Prop) :
  (forall w, P' w -> P w) -> (forall a w, Q a w -> Q' a w) ->
  quiet P m Q -> quiet P' m Q'.
Proof.
  intros HP HQ Hm w Hw. destruct (Hm w (HP w Hw)) as [Hlog H].
  split; [done|]. intros a Ha. by apply HQ, H.
Qed.

Lemma quiet_lift P (r : result A) : quiet P (lift r) (fun a w => r = Ok a /\ P w).
Proof.
  intros w HP. destruct r as [a|e]; simpl; (split; [apply no_price_nil|]); [|done].
  by intros a' [= <-].
Qed.

Lemma quiet_try_except P (body : M A) (handler : exn -> M A)
    (Q : A -> world -> Prop) :
  quiet P body Q -> (forall e, quiet (fun _ => True) (handler e) Q) ->
  quiet P (try_except body handler) Q.
Proof.
  intros Hb Hh w HP. destruct (Hb w HP) as [Hlog HQ].
  unfold try_except. destruct (body w) as [[a|e|] w']; simpl in *; [done| |done].
  destruct (Hh e w' I) as [Hlog' HQ']. split; [by eapply no_price_trans|done].
Qed.

Lemma quiet_pure (phi : Prop) P (m : M A) (Q : A -> world -> Prop) :
  (phi -> quiet P m Q) -> quiet (fun w => phi /\ P w) m Q.
Proof. intros H w [Hphi HP]. by apply H. Qed.
End Quiet.

Lemma quiet_for_each {A : Type} (Inv : world -> Prop) (l : list A)
    (body : A -> M unit) :
  (forall x, quiet Inv (body x) (fun _ => Inv)) ->
  quiet Inv (for_each l body) (fun _ => Inv).
Proof.
  intros Hbody. induction l as [|x l IH]; simpl.
  - by apply quiet_ret.
  - eapply quiet_bind; [apply Hbody|]. intros u. apply IH.
Qed.

(** Sending something other than prices, printing and reading leave the
    heap alone and add no price update. *)
Lemma quiet_send (P : gmap loc (list string) -> Prop) (e : event) :
  is_price_update e = false ->
  quiet (fun w => P (heap w)) (send e) (fun _ w => P (heap w)).
Proof.
  intros He w HP. unfold send.
  destruct (ack w (log w) e); simpl; (split; [by apply no_price_emit|done]).
Qed.

Lemma quiet_print (P : world -> Prop) (msg : string) :
  quiet P (py_print msg) (fun _ _ => True).
Proof. intros w HP. split; [by apply no_price_emit|done]. Qed.

Lemma quiet_download (P : gmap loc (list string) -> Prop) :
  quiet (fun w => P (heap w)) Seller.download_stock (fun _ w => P (heap w)).
Proof.
  intros w HP. unfold Seller.download_stock.
  destruct (stock_file w); simpl; (split; [by apply no_price_emit|done]).
Qed.

Lemma quiet_print_error (P : world -> Prop) (error : exn) (msg : string) :
  quiet P (py_print_error error msg) (fun _ _ => True).
Proof. intros w HP. split; [by apply no_price_emit|done]. Qed.

Lemma quiet_seller_report (P : world -> Prop) (e : exn) :
  quiet P (Seller.report e) (fun _ _ => True).
Proof. destruct e; first [apply quiet_print|apply quiet_print_error]. Qed.

Lemma quiet_market_report (P : world -> Prop) (e : exn) :
  quiet P (Market.report e) (fun _ _ => True).
Proof. destruct e; first [apply quiet_print|apply quiet_print_error]. Qed.

Lemma quiet_contains (P : world -> Prop) (x : string) (r : loc) :
  quiet P (contains x r) (fun _ => P).
Proof.
  intros w HP. unfold contains, read_list. rewrite bind_run.
  destruct (heap w !! r); simpl; (split; [apply no_price_nil|done]).
Qed.

Lemma quiet_read_list (P : world -> Prop) (r : loc) :
  quiet P (read_list r) (fun _ => P).
Proof.
  intros w HP. unfold read_list.
  destruct (heap w !! r); simpl; (split; [apply no_price_nil|done]).
Qed.

Lemma quiet_remove (P : world -> Prop) (r : loc) (x : string) :
  quiet P (remove r x) (fun _ _ => True).
Proof.
  intros w HP. unfold remove.
  destruct (heap w !! r) as [l|]; [|split; [apply no_price_nil|done]].
  destruct (list_remove x l); simpl; (split; [apply (no_price_nil w)|done]).
Qed.

Lemma quiet_utcnow (P : world -> Prop) : quiet P utcnow (fun _ _ => True).
Proof. intros w HP. split; [apply (no_price_nil w)|done]. Qed.

Lemma quiet_new_list (P : world -> Prop) (l : list string) :
  quiet P (new_list l) (fun r w => heap w !! r = Some l).
Proof.
  intros w HP. split; [apply (no_price_nil w)|]. intros r [= <-]. simpl.
  apply lookup_insert_eq.
Qed.

(** *** The catalogue pagers *)

Lemma ozon_loop_frame (client_id seller_token : string) (fuel : nat) :
  forall (last_id : string) (acc : list ozon_product) (w : world),
    (exists new,
        log (Seller.get_offer_ids_loop fuel client_id seller_token last_id acc w).2
        = log w ++ new /\ price_updates new = []) /\
    forall l,
      (Seller.get_offer_ids_loop fuel client_id seller_token last_id acc w).1 = Ret l ->
      exists n, map offer_id l = map offer_id acc ++ ozon_catalogue (take n (ozon_replies w)).
Proof.
  induction fuel as [|fuel IH]; intros last_id acc w; simpl;
    [split; [apply no_price_nil|done]|].
  rewrite bind_run. unfold Seller.get_product_list.
  destruct (ozon_replies w) as [|[e| |p] rest] eqn:Hrep; simpl.
  - split; [apply no_price_nil|done].
  - split; [by apply (no_price_emit _ w)|done].
  - split; [by apply (no_price_emit _ w)|done].
  - destruct (page_total p =? Z.of_nat (length (acc ++ page_items p))).
    + simpl. split; [by apply (no_price_emit _ w)|].
      intros l [= <-]. exists 1%nat. simpl.
      by rewrite map_app, !app_nil_r.
    + match goal with |- context [Seller.get_offer_ids_loop _ _ _ ?x ?y ?z] =>
        destruct (IH x y z) as [Hlog Hl] end.
      split; [eapply no_price_trans; [|exact Hlog]; by apply (no_price_emit _ w)|].
      intros l Hrun. destruct (Hl l Hrun) as [n Hn]. exists (S n).
      rewrite Hn. simpl. by rewrite map_app, <- app_assoc.
Qed.

Lemma ozon_catalogue_take_NoDup (replies : list (reply ozon_page)) (n : nat) :
  NoDup (ozon_catalogue replies) -> NoDup (ozon_catalogue (take n replies)).
Proof.
  rewrite <- (take_drop n replies) at 1. unfold ozon_catalogue.
  rewrite flat_map_app. by intros [? _]%NoDup_app.
Qed.

Lemma quiet_seller_get_offer_ids (client_id seller_token : string) :
  quiet (fun w => NoDup (ozon_catalogue (ozon_replies w)))
        (Seller.get_offer_ids client_id seller_token)
        (fun r w => exists L, heap w !! r = Some L /\ NoDup L).
Proof.
  intros w Hnd. unfold Seller.get_offer_ids. rewrite bind_run.
  destruct (ozon_loop_frame client_id seller_token (S (length (ozon_replies w))) EmptyString [] w)
    as [Hlog Hl].
  destruct (Seller.get_offer_ids_loop _ _ _ _ _ w) as [[l|e|] w1]; simpl in *;
    [|done..].
  split; [eapply no_price_trans; [exact Hlog|apply no_price_nil]|].
  intros r [= <-]. eexists. split; [apply lookup_insert_eq|].
  destruct (Hl l eq_refl) as [n ->]. simpl. by apply ozon_catalogue_take_NoDup.
Qed.

Lemma market_loop_frame (campaign_id market_token : string) (fuel : nat) :
  forall (page : string) (acc : list mapping_entry) (w : world),
    exists new,
      log (Market.get_offer_ids_loop fuel campaign_id market_token page acc w).2
      = log w ++ new /\ price_updates new = [].
Proof.
  induction fuel as [|fuel IH]; intros page acc w; simpl; [apply no_price_nil|].
  rewrite bind_run. unfold Market.get_product_list.
  destruct (market_replies w) as [|[e| |p] rest] eqn:Hrep; simpl;
    [apply no_price_nil|by apply (no_price_emit _ w)..|].
  destruct (nextPageToken p) as [[|c tok]|]; simpl;
    try by apply (no_price_emit _ w).
  eapply no_price_trans; [|apply IH]. by apply (no_price_emit _ w).
Qed.

Lemma quiet_market_get_offer_ids (P : world -> Prop) (campaign_id market_token : string) :
  quiet P (Market.get_offer_ids campaign_id market_token) (fun _ _ => True).
Proof.
  intros w _. unfold Market.get_offer_ids. rewrite bind_run.
  pose proof (market_loop_frame campaign_id market_token
                (S (length (market_replies w))) EmptyString [] w) as Hlog.
  destruct (Market.get_offer_ids_loop _ _ _ _ _ w) as [[l|e|] w1]; simpl in *;
    split; done.
Qed.

(** *** The Ozon run *)

Lemma reconcile_kept_unmatched (F : list watch) (L : list string)
    (entries : list (string * Z)) (kept : list string) :
  NoDup L -> reconcile F L = (Ok entries, kept) ->
  forall watch, watch ∈ F -> code_of watch ∉ kept.
Proof.
  intros Hnd Hr watch Hin Hk.
  destruct (reconcile_entries F L entries kept Hnd Hr) as [_ Hkept].
  pose proof (proj1 (Forall_forall _ _) Hkept _ Hk) as Hnone.
  apply list_elem_of_In in Hin.
  pose proof (find_none _ _ Hnone _ Hin) as Hf. simpl in Hf.
  by rewrite String.eqb_refl in Hf.
Qed.

Lemma create_prices_unmatched (F : list watch) (r : loc) (kept : list string)
    (w : world) :
  heap w !! r = Some kept ->
  (forall watch, watch ∈ F -> code_of watch ∉ kept) ->
  Seller.create_prices F r w = (Ret [], w).
Proof.
  intros Hk Hun.
  destruct (seller_prices_loop F r kept [] w Hk) as [Hw Hres].
  unfold Seller.create_prices.
  destruct (Seller.create_prices_loop F r [] w) as [[prices|e|] w']; simpl in *;
    subst w'.
  - destruct Hres as (new & -> & Hres). simpl.
    replace (List.filter (fun watch => list_contains (code_of watch) kept) F)
      with (@nil watch) in Hres; [by inversion Hres|].
    symmetry. clear Hres. induction F as [|x F IH]; [done|]. simpl.
    destruct (list_contains (code_of x) kept) eqn:Hc.
    + apply list_contains_elem in Hc. exfalso. apply (Hun x); [|done].
      apply elem_of_cons. by left.
    + apply IH. intros y Hy. apply Hun, elem_of_cons. by right.
  - destruct Hres as (x & Hx & Hc & _). by destruct (Hun x Hx).
  - done.
Qed.

Lemma quiet_seller_create_stocks (F : list watch) (r : loc) :
  quiet (fun w => exists L, heap w !! r = Some L /\ NoDup L)
        (Seller.create_stocks F r)
        (fun _ w => exists kept, heap w !! r = Some kept /\
                      forall watch, watch ∈ F -> code_of watch ∉ kept).
Proof.
  intros w (L & HL & Hnd). rewrite (seller_create_stocks_run F r L w HL).
  destruct (reconcile F L) as [[entries|e] kept] eqn:Hr; simpl;
    [|split; [apply no_price_nil|done]].
  split; [apply no_price_nil|]. intros _ _. exists kept.
  split; [apply lookup_insert_eq|]. by eapply reconcile_kept_unmatched.
Qed.

Lemma quiet_seller_create_prices_none (F : list watch) (r : loc) :
  quiet (fun w => exists kept, heap w !! r = Some kept /\
                    forall watch, watch ∈ F -> code_of watch ∉ kept)
        (Seller.create_prices F r)
        (fun prices _ => prices = []).
Proof.
  intros w (kept & Hk & Hun). rewrite (create_prices_unmatched F r kept w Hk Hun).
  split; [apply no_price_nil|]. by intros prices [= <-].
Qed.

Lemma quiet_seller_main (seller_token client_id : string) :
  quiet (fun w => NoDup (ozon_catalogue (ozon_replies w)))
        (Seller.main seller_token client_id)
        (fun _ _ => True).
Proof.
  unfold Seller.main.
  apply quiet_try_except; [|intros e; apply quiet_seller_report].
  eapply quiet_bind; [apply quiet_seller_get_offer_ids|]. intros r.
  eapply quiet_bind;
    [apply (quiet_download (fun h => exists L, h !! r = Some L /\ NoDup L))|].
  intros F.
  eapply quiet_bind; [apply quiet_seller_create_stocks|]. intros stocks.
  eapply quiet_bind; [apply quiet_lift|]. intros chunks.
  apply quiet_pure. intros _.
  eapply quiet_bind.
  { apply quiet_for_each. intros some_stock.
    apply (quiet_send (fun h => exists kept, h !! r = Some kept /\
                         forall watch, watch ∈ F -> code_of watch ∉ kept)).
    done. }
  intros u.
  eapply quiet_bind; [apply quiet_seller_create_prices_none|]. intros prices.
  eapply quiet_bind; [apply quiet_lift|]. intros chunks'.
  apply quiet_pure. intros Hdiv. intros w ->.
  injection Hdiv as <-. split; [apply no_price_nil|done].
Qed.

(** C3, as stated, fails: when Ozon lists an offer twice, [create_stocks]
    removes one of the two identifiers only, [create_prices] still finds the
    feed code in the list, and [seller.main] sends a price update. *)
Lemma seller_main_sends_prices_for_repeated_offer :
  price_updates
    (log (Seller.main "token" "client"
            (world_of ∅
               [ReplyResult (OzonPage [OzonProduct 1 "73309"; OzonProduct 2 "73309"] 2 EmptyString)]
               [] docstring_feed)).2)
  = [PricesUpdate "client"
       [PyDict [("auto_action_enabled", PyStr "UNKNOWN");
                ("currency_code", PyStr "RUB");
                ("offer_id", PyStr "73309");
                ("old_price", PyStr "0");
                ("price", PyStr "38440")]]].
Proof. vm_compute. done. Qed.

(** C3 (amended). When the catalogue served by Ozon lists no offer twice,
    [seller.main] sends no price update, however the run ends: once
    [create_stocks] has returned, the list behind [offer_ids] holds no feed
    code any more, so [create_prices] on that same list returns the empty
    batch and [divide] yields no chunk to send. *)
Theorem seller_main_sends_no_prices (seller_token client_id : string) (w : world) :
  NoDup (ozon_catalogue (ozon_replies w)) ->
  (exists new, log (Seller.main seller_token client_id w).2 = log w ++ new /\
               price_updates new = []) /\
  (forall r w1 F w2 stocks w3 w4,
      Seller.get_offer_ids client_id seller_token w = (Ret r, w1) ->
      Seller.download_stock w1 = (Ret F, w2) ->
      Seller.create_stocks F r w2 = (Ret stocks, w3) ->
      heap w4 = heap w3 ->
      Seller.create_prices F r w4 = (Ret [], w4)).
Proof.
  intros Hnd. split; [by apply (quiet_seller_main seller_token client_id w)|].
  intros r w1 F w2 stocks w3 w4 Hids Hdl Hst Hheap.
  destruct (quiet_seller_get_offer_ids client_id seller_token w Hnd) as [_ H1].
  rewrite Hids in H1. specialize (H1 r eq_refl). simpl in H1.
  destruct (quiet_download (fun h => exists L, h !! r = Some L /\ NoDup L) w1 H1)
    as [_ H2].
  rewrite Hdl in H2. specialize (H2 F eq_refl). simpl in H2.
  destruct (quiet_seller_create_stocks F r w2 H2) as [_ H3].
  rewrite Hst in H3. destruct (H3 stocks eq_refl) as (kept & Hk & Hun). simpl in Hk.
  apply (create_prices_unmatched F r kept); [by rewrite Hheap|done].
Qed.

(** An instance of [seller_main_sends_no_prices]. *)
Lemma seller_main_sends_no_prices_witness :
  let w := world_of ∅
             [ReplyResult (OzonPage [OzonProduct 1 "136748"; OzonProduct 2 "73309"] 2 EmptyString)]
             [] docstring_feed in
  NoDup (ozon_catalogue (ozon_replies w)) /\
  exists new, log (Seller.main "token" "client" w).2 = log w ++ new /\
              price_updates new = [].
Proof.
  intros w.
  assert (Hnd : NoDup (ozon_catalogue (ozon_replies w))).
  { apply NoDup_cons. split; [|apply NoDup_singleton].
    intros [=]%list_elem_of_singleton. }
  split; [exact Hnd|].
  exact (proj1 (seller_main_sends_no_prices "token" "client" w Hnd)).
Defined.

(** *** The Market run *)

Lemma quiet_forget {A : Type} (P : world -> Prop) (m : M A) (Q : A -> world -> Prop) :
  quiet (fun _ => True) m Q -> quiet P m (fun _ _ => True).
Proof. apply quiet_weaken; done. Qed.

Lemma quiet_market_stocks_loop (F : list watch) (r : loc) (warehouse_id date : string) :
  forall stocks,
    quiet (fun _ => True)
          (Market.create_stocks_loop F r warehouse_id date stocks) (fun _ _ => True).
Proof.
  induction F as [|watch F IH]; intros stocks; simpl.
  - by apply quiet_ret.
  - eapply quiet_bind; [apply quiet_contains|]. intros [|]; [|apply IH].
    eapply quiet_bind; [apply quiet_lift|]. intros stock.
    eapply quiet_bind; [apply quiet_remove|]. intros u. apply IH.
Qed.

Lemma quiet_market_create_stocks (F : list watch) (r : loc) (warehouse_id : string) :
  quiet (fun _ => True) (Market.create_stocks F r warehouse_id) (fun _ _ => True).
Proof.
  unfold Market.create_stocks.
  eapply quiet_bind; [apply quiet_utcnow|]. intros now.
  eapply quiet_bind; [apply quiet_market_stocks_loop|]. intros stocks.
  eapply quiet_bind; [apply quiet_read_list|]. intros remaining.
  by apply quiet_ret.
Qed.

Lemma quiet_market_update_stocks (campaign_id market_token : string)
    (chunks : list (list pyobj)) :
  quiet (fun _ => True)
        (for_each chunks (fun some_stock =>
           Market.update_stocks some_stock campaign_id market_token))
        (fun _ _ => True).
Proof.
  apply quiet_for_each. intros some_stock.
  by apply (quiet_send (fun _ => True)).
Qed.

(** A call of [upload_prices] builds a coroutine and does nothing else. *)
Lemma quiet_market_upload_prices (F : list watch) (campaign_id market_token : string) :
  quiet (fun _ => True) (Market.upload_prices F campaign_id market_token)
        (fun _ _ => True).
Proof. unfold Market.upload_prices. by apply quiet_ret. Qed.

Lemma quiet_market_main (market_token campaign_fbs_id campaign_dbs_id
                         warehouse_fbs_id warehouse_dbs_id : string) :
  quiet (fun _ => True)
        (Market.main market_token campaign_fbs_id campaign_dbs_id
                     warehouse_fbs_id warehouse_dbs_id)
        (fun _ _ => True).
Proof.
  unfold Market.main.
  eapply quiet_bind; [apply (quiet_download (fun _ => True))|]. intros F.
  apply quiet_try_except; [|intros e; apply quiet_market_report].
  eapply quiet_bind; [apply quiet_market_get_offer_ids|]. intros r1.
  eapply quiet_bind; [apply quiet_market_create_stocks|]. intros stocks1.
  eapply quiet_bind; [eapply quiet_forget, quiet_lift|]. intros chunks1.
  eapply quiet_bind; [apply quiet_market_update_stocks|]. intros u1.
  eapply quiet_bind; [apply quiet_market_upload_prices|]. intros c1.
  eapply quiet_bind; [apply quiet_market_get_offer_ids|]. intros r2.
  eapply quiet_bind; [apply quiet_market_create_stocks|]. intros stocks2.
  eapply quiet_bind; [eapply quiet_forget, quiet_lift|]. intros chunks2.
  eapply quiet_bind; [apply quiet_market_update_stocks|]. intros u2.
  eapply quiet_bind; [apply quiet_market_upload_prices|]. intros c2.
  by apply quiet_ret.
Qed.

Lemma emit_all_nil (w : world) : emit_all [] w = w.
Proof. unfold emit_all. rewrite app_nil_r. by destruct w. Qed.

Lemma emit_all_cons (e : event) (es : list event) (w : world) :
  emit_all es (emit e w) = emit_all (e :: es) w.
Proof. unfold emit_all, emit. simpl. by rewrite <- app_assoc. Qed.

(** When no request fails, a sending loop sends every chunk, in order. *)
Lemma for_each_send_all {A : Type} (f : A -> event) (l : list A) :
  forall w, (forall lg e, ack w lg e = None) ->
    for_each l (fun x => send (f x)) w = (Ret tt, emit_all (map f l) w).
Proof.
  induction l as [|x l IH]; intros w Hack; simpl.
  - by rewrite emit_all_nil.
  - rewrite bind_run. unfold send at 1. rewrite Hack.
    rewrite IH by done. by rewrite emit_all_cons.
Qed.

(** C10. [market.main] never sends a price update, for either campaign and
    however the run ends: each call of the coroutine function
    [upload_prices] only builds a coroutine that nothing awaits. The stock
    updates of the same run are sent: when the catalogues are listed, the
    batches are built and no request fails, the run sends every chunk of the
    FBS batch and every chunk of the DBS batch. *)
Theorem market_main_never_sends_prices
    (market_token campaign_fbs_id campaign_dbs_id
     warehouse_fbs_id warehouse_dbs_id : string) (w : world) :
  (exists new,
      log (Market.main market_token campaign_fbs_id campaign_dbs_id
                       warehouse_fbs_id warehouse_dbs_id w).2 = log w ++ new /\
      price_updates new = []) /\
  (forall F w0 r1 w1 stocks1 w2 chunks1 r2 w4 stocks2 w5 chunks2,
      Seller.download_stock w = (Ret F, w0) ->
      Market.get_offer_ids campaign_fbs_id market_token w0 = (Ret r1, w1) ->
      Market.create_stocks F r1 warehouse_fbs_id w1 = (Ret stocks1, w2) ->
      divide stocks1 2000 = Ok chunks1 ->
      (forall lg e, ack w2 lg e = None) ->
      Market.get_offer_ids campaign_dbs_id market_token
        (emit_all (map (StocksUpdate campaign_fbs_id) chunks1) w2) = (Ret r2, w4) ->
      Market.create_stocks F r2 warehouse_dbs_id w4 = (Ret stocks2, w5) ->
      divide stocks2 2000 = Ok chunks2 ->
      (forall lg e, ack w5 lg e = None) ->
      let run := Market.main market_token campaign_fbs_id campaign_dbs_id
                             warehouse_fbs_id warehouse_dbs_id w in
      run = (Ret tt, emit_all (map (StocksUpdate campaign_dbs_id) chunks2) w5) /\
      Forall (fun chunk => StocksUpdate campaign_fbs_id chunk ∈ log run.2) chunks1 /\
      Forall (fun chunk => StocksUpdate campaign_dbs_id chunk ∈ log run.2) chunks2).
Proof.
  split; [by apply quiet_market_main|].
  intros F w0 r1 w1 stocks1 w2 chunks1 r2 w4 stocks2 w5 chunks2
         Hdl Hids1 Hst1 Hdiv1 Hack1 Hids2 Hst2 Hdiv2 Hack2 run.
  assert (Hrun : run = (Ret tt, emit_all (map (StocksUpdate campaign_dbs_id) chunks2) w5)).
  { subst run. unfold Market.main, try_except.
    rewrite bind_run, Hdl.
    rewrite bind_run, Hids1, bind_run, Hst1, bind_run, Hdiv1. cbn [lift ret].
    rewrite bind_run. unfold Market.update_stocks.
    rewrite (for_each_send_all (StocksUpdate campaign_fbs_id)) by done.
    rewrite bind_run. cbn [Market.upload_prices ret].
    rewrite bind_run, Hids2, bind_run, Hst2, bind_run, Hdiv2. cbn [lift ret].
    rewrite bind_run.
    rewrite (for_each_send_all (StocksUpdate campaign_dbs_id)) by done.
    by rewrite bind_run. }
  split; [done|]. rewrite Hrun. simpl.
  destruct (quiet_market_get_offer_ids (fun _ => True) campaign_dbs_id market_token
              (emit_all (map (StocksUpdate campaign_fbs_id) chunks1) w2) I)
    as [(new1 & Hlog1 & _) _].
  rewrite Hids2 in Hlog1. simpl in Hlog1.
  destruct (quiet_market_create_stocks F r2 warehouse_dbs_id w4 I)
    as [(new2 & Hlog2 & _) _].
  rewrite Hst2 in Hlog2. simpl in Hlog2.
  split; apply Forall_forall; intros chunk Hin.
  - rewrite Hlog2, Hlog1. do 3 (apply elem_of_app; left).
    apply elem_of_app. right.
    apply list_elem_of_In, in_map. by apply list_elem_of_In.
  - apply elem_of_app. right.
    apply list_elem_of_In, in_map. by apply list_elem_of_In.
Qed.

(** An instance of [market_main_never_sends_prices]. *)
Lemma market_main_never_sends_prices_witness :
  let m1 := MarketPage [MappingEntry "136748"; MappingEntry "73309"] None in
  let m2 := MarketPage [MappingEntry "73309"] (Some EmptyString) in
  let w := world_of ∅ [] [ReplyResult m1; ReplyResult m2] docstring_feed in
  let run := Market.main "token" "fbs" "dbs" "W1" "W2" w in
  (exists new, log run.2 = log w ++ new /\ price_updates new = []) /\
  exists chunks1 chunks2,
    chunks1 <> [] /\ chunks2 <> [] /\
    Forall (fun chunk => StocksUpdate "fbs" chunk ∈ log run.2) chunks1 /\
    Forall (fun chunk => StocksUpdate "dbs" chunk ∈ log run.2) chunks2.
Proof.
  intros m1 m2 w run.
  destruct (market_main_never_sends_prices "token" "fbs" "dbs" "W1" "W2" w) as [Hq Hs].
  split; [exact Hq|].
  pose (w0 := (Seller.download_stock w).2).
  pose (g1 := Market.get_offer_ids "fbs" "token" w0).
  pose (r1 := match g1.1 with Ret r => r | _ => 0%nat end).
  pose (c1 := Market.create_stocks docstring_feed r1 "W1" g1.2).
  pose (stocks1 := match c1.1 with Ret s => s | _ => [] end).
  pose (chunks1 := match divide stocks1 2000 with Ok c => c | Err _ => [] end).
  pose (g2 := Market.get_offer_ids "dbs" "token"
                (emit_all (map (StocksUpdate "fbs") chunks1) c1.2)).
  pose (r2 := match g2.1 with Ret r => r | _ => 0%nat end).
  pose (c2 := Market.create_stocks docstring_feed r2 "W2" g2.2).
  pose (stocks2 := match c2.1 with Ret s => s | _ => [] end).
  pose (chunks2 := match divide stocks2 2000 with Ok c => c | Err _ => [] end).
  destruct (Hs docstring_feed w0 r1 g1.2 stocks1 c1.2 chunks1 r2 g2.2 stocks2 c2.2 chunks2)
    as (_ & H1 & H2);
    try (vm_compute; reflexivity); try (intros lg e; vm_compute; reflexivity).
  exists chunks1, chunks2.
  split; [by vm_compute|]. split; [by vm_compute|]. split; [exact H1|exact H2].
Defined.

(** ** The catalogue pagers return *)

(** *** The rounds of the pagers *)

Lemma emit_all_app (es1 es2 : list event) (w : world) :
  emit_all es2 (emit_all es1 w) = emit_all (es1 ++ es2) w.
Proof. unfold emit_all. simpl. by rewrite app_assoc. Qed.

Lemma ozon_replies_step (rest tail : list (reply ozon_page)) (e : event)
    (es : list event) (w : world) :
  set_ozon_replies tail (emit_all es (set_ozon_replies rest (emit e w)))
  = set_ozon_replies tail (emit_all (e :: es) w).
Proof. unfold set_ozon_replies, emit_all, emit. simpl. by rewrite <- app_assoc. Qed.

Lemma market_replies_step (rest tail : list (reply market_page)) (e : event)
    (es : list event) (w : world) :
  set_market_replies tail (emit_all es (set_market_replies rest (emit e w)))
  = set_market_replies tail (emit_all (e :: es) w).
Proof. unfold set_market_replies, emit_all, emit. simpl. by rewrite <- app_assoc. Qed.

Lemma ozon_replies_last (rest tail : list (reply ozon_page)) (e : event)
    (es : list event) (w : world) :
  set_ozon_replies tail (emit e (set_ozon_replies rest (emit_all es w)))
  = set_ozon_replies tail (emit_all (es ++ [e]) w).
Proof. unfold set_ozon_replies, emit_all, emit. simpl. by rewrite <- app_assoc. Qed.

Lemma market_replies_last (rest tail : list (reply market_page)) (e : event)
    (es : list event) (w : world) :
  set_market_replies tail (emit e (set_market_replies rest (emit_all es w)))
  = set_market_replies tail (emit_all (es ++ [e]) w).
Proof. unfold set_market_replies, emit_all, emit. simpl. by rewrite <- app_assoc. Qed.

Lemma last_cons_default {A : Type} (l : list A) :
  forall x d, List.last (x :: l) d = List.last l x.
Proof.
  induction l as [|y l IH]; intros x d; [done|].
  change (List.last (x :: y :: l) d) with (List.last (y :: l) d).
  by rewrite !IH.
Qed.

Lemma removelast_last {A : Type} (x : A) (l : list A) :
  removelast (x :: l) ++ [List.last l x] = x :: l.
Proof.
  rewrite <- (last_cons_default l x x). symmetry. by apply app_removelast_last.
Qed.

(** The rounds of the Ozon pager over pages that do not end the paging. *)
Lemma ozon_loop_walk (client_id seller_token : string) (pages : list ozon_page) :
  forall (fuel : nat) (tail : list (reply ozon_page)) (acc : list ozon_product)
         (last_id : string) (w : world),
    ozon_replies w = map ReplyResult pages ++ tail ->
    ozon_unfinished (length acc) pages = true ->
    Seller.get_offer_ids_loop (length pages + fuel) client_id seller_token last_id acc w
    = Seller.get_offer_ids_loop fuel client_id seller_token
        (List.last (map page_last_id pages) last_id)
        (acc ++ concat (map page_items pages))
        (set_ozon_replies tail
           (emit_all (map (ProductListRequest client_id)
                          (removelast (last_id :: map page_last_id pages))) w)).
Proof.
  induction pages as [|p pages IH]; intros fuel tail acc last_id w Hrep Hun.
  - simpl in *. rewrite app_nil_r, emit_all_nil. f_equal.
    destruct w; simpl in *. by subst.
  - simpl in Hun. apply andb_prop in Hun as [Hgo Hun].
    apply negb_true_iff in Hgo.
    change (length (p :: pages) + fuel)%nat with (S (length pages + fuel)).
    cbn [Seller.get_offer_ids_loop]. rewrite bind_run.
    unfold Seller.get_product_list. rewrite Hrep. cbn [map app].
    rewrite length_app, Hgo.
    rewrite (IH fuel tail); [| done | by rewrite length_app].
    rewrite ozon_replies_step. cbn [map concat]. rewrite <- app_assoc.
    by rewrite last_cons_default.
Qed.

Lemma market_loop_walk (campaign_id market_token : string) (pages : list market_page) :
  forall (fuel : nat) (tail : list (reply market_page)) (acc : list mapping_entry)
         (page : string) (w : world),
    market_replies w = map ReplyResult pages ++ tail ->
    forallb (fun p => negb (market_last p)) pages = true ->
    Market.get_offer_ids_loop (length pages + fuel) campaign_id market_token page acc w
    = Market.get_offer_ids_loop fuel campaign_id market_token
        (List.last (map (fun p => default EmptyString (nextPageToken p)) pages) page)
        (acc ++ concat (map offerMappingEntries pages))
        (set_market_replies tail
           (emit_all (map (ProductListRequest campaign_id)
                          (removelast
                             (page :: map (fun p => default EmptyString (nextPageToken p))
                                          pages))) w)).
Proof.
  induction pages as [|p pages IH]; intros fuel tail acc page w Hrep Hun.
  - simpl in *. rewrite app_nil_r, emit_all_nil. f_equal.
    destruct w; simpl in *. by subst.
  - simpl in Hun. apply andb_prop in Hun as [Hgo Hun].
    apply negb_true_iff in Hgo. unfold market_last in Hgo.
    change (length (p :: pages) + fuel)%nat with (S (length pages + fuel)).
    cbn [Market.get_offer_ids_loop]. rewrite bind_run.
    unfold Market.get_product_list. rewrite Hrep. cbn [map app].
    destruct (nextPageToken p) as [[|c tok]|] eqn:Htok; try done.
    rewrite (IH fuel tail); [| done | done].
    rewrite market_replies_step. cbn [map concat]. rewrite <- app_assoc.
    by rewrite last_cons_default.
Qed.

Lemma ozon_loop_round (client_id seller_token : string) (fuel : nat) (last_id : string)
    (acc : list ozon_product) (w : world) :
  Seller.get_offer_ids_loop (S fuel) client_id seller_token last_id acc w
  = match ozon_replies w with
    | [] => (Starved, w)
    | r :: rest =>
        let w' := set_ozon_replies rest (emit (ProductListRequest client_id last_id) w) in
        match r with
        | ReplyFail e => (Raise e, w')
        | ReplyNoResult => (Raise AttributeError, w')
        | ReplyResult p =>
            if page_total p =? Z.of_nat (length (acc ++ page_items p))
            then (Ret (acc ++ page_items p), w')
            else Seller.get_offer_ids_loop fuel client_id seller_token (page_last_id p)
                   (acc ++ page_items p) w'
        end
    end.
Proof.
  cbn [Seller.get_offer_ids_loop]. rewrite bind_run. unfold Seller.get_product_list.
  destruct (ozon_replies w) as [|[e| |p] rest]; try done.
  cbv zeta. by destruct (page_total p =? _).
Qed.

Lemma market_loop_round (campaign_id market_token : string) (fuel : nat) (page : string)
    (acc : list mapping_entry) (w : world) :
  Market.get_offer_ids_loop (S fuel) campaign_id market_token page acc w
  = match market_replies w with
    | [] => (Starved, w)
    | r :: rest =>
        let w' := set_market_replies rest (emit (ProductListRequest campaign_id page) w) in
        match r with
        | ReplyFail e => (Raise e, w')
        | ReplyNoResult => (Raise AttributeError, w')
        | ReplyResult p =>
            if market_last p
            then (Ret (acc ++ offerMappingEntries p), w')
            else Market.get_offer_ids_loop fuel campaign_id market_token
                   (default EmptyString (nextPageToken p))
                   (acc ++ offerMappingEntries p) w'
        end
    end.
Proof.
  cbn [Market.get_offer_ids_loop]. rewrite bind_run. unfold Market.get_product_list.
  destruct (market_replies w) as [|[e| |p] rest]; try done.
  cbv zeta. unfold market_last. by destruct (nextPageToken p) as [[|c tok]|].
Qed.

(** The pager up to the answer that follows the pages that do not end the
    paging. *)
Lemma ozon_loop_upto (client_id seller_token : string) (w : world)
    (pages : list ozon_page) (r : reply ozon_page) (tail : list (reply ozon_page)) :
  ozon_replies w = map ReplyResult pages ++ r :: tail ->
  ozon_unfinished 0 pages = true ->
  let w1 := set_ozon_replies tail
              (emit_all (map (ProductListRequest client_id) (ozon_cursors pages)) w) in
  Seller.get_offer_ids_loop (S (length (ozon_replies w))) client_id seller_token
    EmptyString [] w
  = match r with
    | ReplyFail e => (Raise e, w1)
    | ReplyNoResult => (Raise AttributeError, w1)
    | ReplyResult p =>
        if page_total p =? Z.of_nat (length (concat (map page_items pages) ++ page_items p))
        then (Ret (concat (map page_items pages) ++ page_items p), w1)
        else Seller.get_offer_ids_loop (S (length tail)) client_id seller_token
               (page_last_id p) (concat (map page_items pages) ++ page_items p) w1
    end.
Proof.
  intros Hrep Hun w1.
  rewrite Hrep, length_app, length_map. cbn [length].
  replace (S (length pages + S (length tail)))
    with (length pages + S (S (length tail)))%nat by lia.
  rewrite (ozon_loop_walk client_id seller_token pages _ (r :: tail) [] EmptyString w Hrep Hun).
  rewrite ozon_loop_round. cbn [ozon_replies set_ozon_replies]. cbv zeta.
  rewrite ozon_replies_last, <- map_last, removelast_last.
  fold (ozon_cursors pages). fold w1. by rewrite app_nil_l.
Qed.

Lemma market_loop_upto (campaign_id market_token : string) (w : world)
    (pages : list market_page) (r : reply market_page) (tail : list (reply market_page)) :
  market_replies w = map ReplyResult pages ++ r :: tail ->
  forallb (fun p => negb (market_last p)) pages = true ->
  let w1 := set_market_replies tail
              (emit_all (map (ProductListRequest campaign_id) (market_cursors pages)) w) in
  Market.get_offer_ids_loop (S (length (market_replies w))) campaign_id market_token
    EmptyString [] w
  = match r with
    | ReplyFail e => (Raise e, w1)
    | ReplyNoResult => (Raise AttributeError, w1)
    | ReplyResult p =>
        if market_last p
        then (Ret (concat (map offerMappingEntries pages) ++ offerMappingEntries p), w1)
        else Market.get_offer_ids_loop (S (length tail)) campaign_id market_token
               (default EmptyString (nextPageToken p))
               (concat (map offerMappingEntries pages) ++ offerMappingEntries p) w1
    end.
Proof.
  intros Hrep Hun w1.
  rewrite Hrep, length_app, length_map. cbn [length].
  replace (S (length pages + S (length tail)))
    with (length pages + S (S (length tail)))%nat by lia.
  rewrite (market_loop_walk campaign_id market_token pages _ (r :: tail) [] EmptyString w
             Hrep Hun).
  rewrite market_loop_round. cbn [market_replies set_market_replies]. cbv zeta.
  rewrite market_replies_last, <- map_last, removelast_last.
  fold (market_cursors pages). fold w1. by rewrite app_nil_l.
Qed.

Lemma new_list_fresh (l : list string) (w : world) :
  exists r, heap w !! r = None /\ new_list l w = (Ret r, set_heap (<[r := l]> (heap w)) w).
Proof.
  exists (fresh (dom (heap w))). split; [|done].
  apply not_elem_of_dom, is_fresh.
Qed.

(** *** Termination of the pagers *)

(** The first index at which a test succeeds, when it succeeds somewhere. *)
Lemma first_index (P : nat -> bool) (k : nat) :
  P k = true ->
  exists n, (n <= k)%nat /\ P n = true /\ forall j, (j < n)%nat -> P j = false.
Proof.
  assert (Hsearch : forall m,
             (exists n, (n <= m)%nat /\ P n = true /\
                        forall j, (j < n)%nat -> P j = false) \/
             (forall j, (j <= m)%nat -> P j = false)).
  { induction m as [|m IH].
    - destruct (P 0%nat) eqn:H0.
      + left. exists 0%nat. split; [lia|]. split; [done|]. intros j Hj. lia.
      + right. intros j Hj. by replace j with 0%nat by lia.
    - destruct IH as [(n & Hn & HP & Hb)|Hnone].
      + left. exists n. split; [lia|done].
      + destruct (P (S m)) eqn:HS.
        * left. exists (S m). split; [lia|]. split; [done|].
          intros j Hj. apply Hnone. lia.
        * right. intros j Hj. destruct (decide (j = S m)) as [->|Hne]; [done|].
          apply Hnone. lia. }
  intros Hk. destruct (Hsearch k) as [Hfound|Hnone]; [done|].
  rewrite Hnone in Hk by lia. done.
Qed.

(** Pages of which none has, as [total], the number of entries gathered up
    to it do not end the Ozon paging. *)
Lemma ozon_unfinished_pages (pages : list ozon_page) :
  forall seen : nat,
    (forall j q, pages !! j = Some q ->
       page_total q
       <> Z.of_nat (seen + length (concat (map page_items (take (S j) pages))))) ->
    ozon_unfinished seen pages = true.
Proof.
  induction pages as [|p pages IH]; intros seen H; [done|].
  cbn [ozon_unfinished]. apply andb_true_intro. split.
  - apply negb_true_iff, Z.eqb_neq. pose proof (H 0%nat p eq_refl) as H0.
    cbn [take map concat] in H0. rewrite take_0 in H0. cbn [map concat] in H0.
    by rewrite app_nil_r in H0.
  - apply IH. intros j q Hj. pose proof (H (S j) q Hj) as HS.
    cbn [take map concat] in HS. rewrite length_app in HS.
    intros Heq. apply HS. rewrite Heq. f_equal. lia.
Qed.

(** C9. When the listing endpoint answers with well-formed pages and one of
    them ends the paging (Ozon: its [total] is the number of entries
    gathered so far; Market: its [nextPageToken] is missing or empty),
    [get_offer_ids] returns. It has read the pages up to the first one that
    ends the paging and no further, with one request per page read, and the
    new list it returns holds one identifier per product entry of the pages
    read, in order. *)
Theorem get_offer_ids_terminates (account token : string) (w : world) :
  (forall pages rest k p,
      ozon_replies w = map ReplyResult pages ++ rest ->
      pages !! k = Some p ->
      page_total p = Z.of_nat (length (concat (map page_items (take (S k) pages)))) ->
      exists n q r w',
        (n <= k)%nat /\
        pages !! n = Some q /\
        page_total q = Z.of_nat (length (concat (map page_items (take (S n) pages)))) /\
        (forall j q', (j < n)%nat -> pages !! j = Some q' ->
           page_total q'
           <> Z.of_nat (length (concat (map page_items (take (S j) pages))))) /\
        Seller.get_offer_ids account token w = (Ret r, w') /\
        heap w !! r = None /\
        heap w' = <[r := map offer_id (concat (map page_items (take (S n) pages)))]> (heap w) /\
        heap w' !! r
        = Some (map offer_id (concat (map page_items (take (S n) pages)))) /\
        log w' = log w ++ map (ProductListRequest account) (ozon_cursors (take n pages)) /\
        ozon_replies w' = map ReplyResult (drop (S n) pages) ++ rest) /\
  (forall pages rest k p,
      market_replies w = map ReplyResult pages ++ rest ->
      pages !! k = Some p ->
      nextPageToken p = None \/ nextPageToken p = Some EmptyString ->
      exists n q r w',
        (n <= k)%nat /\
        pages !! n = Some q /\
        (nextPageToken q = None \/ nextPageToken q = Some EmptyString) /\
        (forall j q', (j < n)%nat -> pages !! j = Some q' ->
           exists page, nextPageToken q' = Some page /\ page <> EmptyString) /\
        Market.get_offer_ids account token w = (Ret r, w') /\
        heap w !! r = None /\
        heap w'
        = <[r := map shopSku (concat (map offerMappingEntries (take (S n) pages)))]> (heap w) /\
        heap w' !! r
        = Some (map shopSku (concat (map offerMappingEntries (take (S n) pages)))) /\
        log w' = log w ++ map (ProductListRequest account) (market_cursors (take n pages)) /\
        market_replies w' = map ReplyResult (drop (S n) pages) ++ rest).
Proof.
  split.
  - intros pages rest k p Hrep Hk Htot.
    set (P := fun j =>
                match pages !! j with
                | Some q =>
                    page_total q
                    =? Z.of_nat (length (concat (map page_items (take (S j) pages))))
                | None => false
                end).
    assert (HPk : P k = true) by (unfold P; rewrite Hk; by apply Z.eqb_eq).
    destruct (first_index P k HPk) as (n & Hn & HPn & Hbefore).
    unfold P in HPn. destruct (pages !! n) as [q|] eqn:Hq; [|done].
    apply Z.eqb_eq in HPn.
    assert (Hgo : forall j q', (j < n)%nat -> pages !! j = Some q' ->
              page_total q'
              <> Z.of_nat (length (concat (map page_items (take (S j) pages))))).
    { intros j q' Hj Hq'. pose proof (Hbefore j Hj) as HPj. unfold P in HPj.
      rewrite Hq' in HPj. by apply Z.eqb_neq. }
    assert (Hun : ozon_unfinished 0 (take n pages) = true).
    { apply ozon_unfinished_pages. intros j q' Hj.
      apply lookup_take_Some in Hj as [Hj Hlt].
      rewrite take_take, Nat.min_l by lia. by apply Hgo. }
    assert (Hsplit : concat (map page_items (take n pages)) ++ page_items q
                     = concat (map page_items (take (S n) pages))).
    { rewrite (take_S_r pages n q Hq), map_app, concat_app. simpl.
      by rewrite app_nil_r. }
    assert (Hrep' : ozon_replies w
                    = map ReplyResult (take n pages)
                      ++ ReplyResult q :: (map ReplyResult (drop (S n) pages) ++ rest)).
    { rewrite Hrep. rewrite <- (take_drop_middle pages n q Hq) at 1.
      by rewrite map_app, <- app_assoc. }
    unfold Seller.get_offer_ids. rewrite bind_run.
    rewrite (ozon_loop_upto account token w (take n pages) _ _ Hrep' Hun).
    rewrite Hsplit. apply Z.eqb_eq in HPn. rewrite HPn.
    match goal with |- context [new_list ?l ?w1] =>
      destruct (new_list_fresh l w1) as (r & Hr & Hnew) end.
    exists n, q, r. eexists. split; [done|]. split; [done|].
    split; [by apply Z.eqb_eq|]. split; [done|]. split; [exact Hnew|].
    split; [exact Hr|]. split; [done|]. split; [apply lookup_insert_eq|].
    split; done.
  - intros pages rest k p Hrep Hk Hstop.
    set (P := fun j => match pages !! j with
                       | Some q => market_last q
                       | None => false
                       end).
    assert (HPk : P k = true).
    { unfold P, market_last. rewrite Hk. by destruct Hstop as [->| ->]. }
    destruct (first_index P k HPk) as (n & Hn & HPn & Hbefore).
    unfold P in HPn. destruct (pages !! n) as [q|] eqn:Hq; [|done].
    assert (Hgo : forall j q', (j < n)%nat -> pages !! j = Some q' ->
                               market_last q' = false).
    { intros j q' Hj Hq'. pose proof (Hbefore j Hj) as HPj. unfold P in HPj.
      by rewrite Hq' in HPj. }
    assert (Hun : forallb (fun p => negb (market_last p)) (take n pages) = true).
    { apply forallb_forall. intros q' Hin.
      apply list_elem_of_In, list_elem_of_lookup in Hin as [j Hj].
      apply lookup_take_Some in Hj as [Hj Hlt].
      apply negb_true_iff. by apply (Hgo j). }
    assert (Hsplit : concat (map offerMappingEntries (take n pages)) ++ offerMappingEntries q
                     = concat (map offerMappingEntries (take (S n) pages))).
    { rewrite (take_S_r pages n q Hq), map_app, concat_app. simpl.
      by rewrite app_nil_r. }
    assert (Hrep' : market_replies w
                    = map ReplyResult (take n pages)
                      ++ ReplyResult q :: (map ReplyResult (drop (S n) pages) ++ rest)).
    { rewrite Hrep. rewrite <- (take_drop_middle pages n q Hq) at 1.
      by rewrite map_app, <- app_assoc. }
    unfold Market.get_offer_ids. rewrite bind_run.
    rewrite (market_loop_upto account token w (take n pages) _ _ Hrep' Hun).
    rewrite Hsplit, HPn.
    match goal with |- context [new_list ?l ?w1] =>
      destruct (new_list_fresh l w1) as (r & Hr & Hnew) end.
    exists n, q, r. eexists. split; [done|]. split; [done|].
    split.
    { unfold market_last in HPn. destruct (nextPageToken q) as [[|c tok]|]; auto.
      discriminate HPn. }
    split.
    { intros j q' Hj Hq'. pose proof (Hgo j q' Hj Hq') as Hl. unfold market_last in Hl.
      destruct (nextPageToken q') as [[|c tok]|]; try discriminate Hl.
      by exists (String c tok). }
    split; [exact Hnew|]. split; [exact Hr|]. split; [done|].
    split; [apply lookup_insert_eq|]. split; done.
Qed.

(** An instance of [get_offer_ids_terminates]: in both catalogues the first
    page asks for more and the second one ends the paging; a third answer
    is left unread. *)
Lemma get_offer_ids_terminates_witness :
  let p1 := OzonPage [OzonProduct 1 "136748"; OzonProduct 2 "73309"] 3 "Mg==" in
  let p2 := OzonPage [OzonProduct 3 "5"] 3 EmptyString in
  let p3 := OzonPage [OzonProduct 4 "6"] 4 EmptyString in
  let m1 := MarketPage [MappingEntry "136748"; MappingEntry "73309"] (Some "eyJuIjoyfQ") in
  let m2 := MarketPage [MappingEntry "5"] None in
  let m3 := MarketPage [MappingEntry "6"] None in
  let w := world_of ∅ [ReplyResult p1; ReplyResult p2; ReplyResult p3]
                      [ReplyResult m1; ReplyResult m2; ReplyResult m3] [] in
  (exists n q r w',
      (n <= 2)%nat /\
      [p1; p2; p3] !! n = Some q /\
      page_total q
      = Z.of_nat (length (concat (map page_items (take (S n) [p1; p2; p3])))) /\
      (forall j q', (j < n)%nat -> [p1; p2; p3] !! j = Some q' ->
         page_total q'
         <> Z.of_nat (length (concat (map page_items (take (S j) [p1; p2; p3]))))) /\
      Seller.get_offer_ids "client" "token" w = (Ret r, w') /\
      heap w !! r = None /\
      heap w'
      = <[r := map offer_id (concat (map page_items (take (S n) [p1; p2; p3])))]> (heap w) /\
      heap w' !! r
      = Some (map offer_id (concat (map page_items (take (S n) [p1; p2; p3])))) /\
      log w' = log w ++ map (ProductListRequest "client") (ozon_cursors (take n [p1; p2; p3])) /\
      ozon_replies w' = map ReplyResult (drop (S n) [p1; p2; p3]) ++ []) /\
  (exists n q r w',
      (n <= 1)%nat /\
      [m1; m2; m3] !! n = Some q /\
      (nextPageToken q = None \/ nextPageToken q = Some EmptyString) /\
      (forall j q', (j < n)%nat -> [m1; m2; m3] !! j = Some q' ->
         exists page, nextPageToken q' = Some page /\ page <> EmptyString) /\
      Market.get_offer_ids "client" "token" w = (Ret r, w') /\
      heap w !! r = None /\
      heap w'
      = <[r := map shopSku (concat (map offerMappingEntries (take (S n) [m1; m2; m3])))]>
          (heap w) /\
      heap w' !! r
      = Some (map shopSku (concat (map offerMappingEntries (take (S n) [m1; m2; m3])))) /\
      log w'
      = log w ++ map (ProductListRequest "client") (market_cursors (take n [m1; m2; m3])) /\
      market_replies w' = map ReplyResult (drop (S n) [m1; m2; m3]) ++ []).
Proof.
  intros p1 p2 p3 m1 m2 m3 w.
  destruct (get_offer_ids_terminates "client" "token" w) as [Ho Hm]. split.
  - apply (Ho [p1; p2; p3] [] 2%nat p3); reflexivity.
  - apply (Hm [m1; m2; m3] [] 1%nat m2); [reflexivity..|by left].
Defined.

(** ** Time stamps of stock updates *)

(** *** Time stamps *)

Lemma append_assoc (a b c : string) : (a +:+ b) +:+ c = a +:+ (b +:+ c).
Proof.
  induction a as [|x a IH]; [done|].
  unfold String.append; fold String.append. by f_equal.
Qed.

Lemma length_append (a b : string) :
  String.length (a +:+ b) = (String.length a + String.length b)%nat.
Proof.
  induction a as [|x a IH]; [done|].
  unfold String.append; fold String.append. simpl. by f_equal.
Qed.

Lemma length_zeros (n : nat) : String.length (zeros n) = n.
Proof. induction n as [|n IH]; simpl; [done|]. by f_equal. Qed.

Lemma length_pad (width n : nat) :
  (String.length (NilZero.string_of_uint (Nat.to_uint n)) <= width)%nat ->
  String.length (pad width n) = width.
Proof. intros H. unfold pad. rewrite length_append, length_zeros. lia. Qed.

Lemma decimal_below (width bound : nat) :
  forallb (fun n => (String.length (NilZero.string_of_uint (Nat.to_uint n)) <=? width)%nat)
          (seq 0 bound) = true ->
  forall n, (n < bound)%nat ->
            (String.length (NilZero.string_of_uint (Nat.to_uint n)) <= width)%nat.
Proof.
  intros H n Hn. rewrite forallb_forall in H.
  apply Nat.leb_le, H, in_seq. lia.
Qed.

Lemma length_pad_2 (n : nat) : (n < 100)%nat -> String.length (pad 2 n) = 2%nat.
Proof. intros H. apply length_pad. revert n H. apply decimal_below. by vm_compute. Qed.

Lemma length_pad_4 (n : nat) : (n < 100 * 100)%nat -> String.length (pad 4 n) = 4%nat.
Proof. intros H. apply length_pad. revert n H. apply decimal_below. by vm_compute. Qed.

(** The stamp never shows a fraction of a second and always ends in ["Z"]. *)
Lemma stamp_format (dt : datetime) :
  stamp dt =
    pad 4 (year dt) +:+ "-" +:+ pad 2 (month dt) +:+ "-" +:+ pad 2 (day dt)
    +:+ "T" +:+ pad 2 (hour dt) +:+ ":" +:+ pad 2 (minute dt)
    +:+ ":" +:+ pad 2 (second dt) +:+ "Z".
Proof.
  unfold stamp, isoformat, replace_microsecond.
  cbn [year month day hour minute second microsecond Nat.eqb].
  by rewrite !append_assoc.
Qed.

Lemma stamp_length (dt : datetime) :
  (year dt < 100 * 100 /\ month dt < 100 /\ day dt < 100 /\
   hour dt < 100 /\ minute dt < 100 /\ second dt < 100)%nat ->
  String.length (stamp dt) = 20%nat.
Proof.
  intros (Hy & Hmo & Hd & Hh & Hmi & Hs). rewrite stamp_format.
  rewrite !length_append, length_pad_4, !length_pad_2 by done. done.
Qed.

Lemma stamp_ignores_microsecond (dt : datetime) (us : nat) :
  stamp (replace_microsecond dt us) = stamp dt.
Proof. reflexivity. Qed.

(** C8 (amended). Every entry of a batch built by Market's [create_stocks]
    carries one and the same [updatedAt]: the UTC clock reading taken once,
    when the call starts, cut to the second and written
    [YYYY-MM-DDTHH:MM:SSZ]. The entries built by Ozon's [create_stocks]
    carry no time stamp, and that function does not read the clock. *)
Theorem market_stocks_share_one_stamp (F : list watch) (r : loc) (L : list string)
    (warehouse_id : string) (w : world) :
  heap w !! r = Some L ->
  (forall stocks w',
      Market.create_stocks F r warehouse_id w = (Ret stocks, w') ->
      clock_reads w' = S (clock_reads w) /\
      Forall (fun s => find_key "updatedAt" s
                       = Some (PyStr (stamp (utc_clock w (clock_reads w))))) stocks) /\
  (forall dt,
      stamp dt =
        pad 4 (year dt) +:+ "-" +:+ pad 2 (month dt) +:+ "-" +:+ pad 2 (day dt)
        +:+ "T" +:+ pad 2 (hour dt) +:+ ":" +:+ pad 2 (minute dt)
        +:+ ":" +:+ pad 2 (second dt) +:+ "Z") /\
  (forall stocks w',
      Seller.create_stocks F r w = (Ret stocks, w') ->
      clock_reads w' = clock_reads w /\
      Forall (fun s => find_key "updatedAt" s = None) stocks).
Proof.
  intros HL. split; [|split; [apply stamp_format|]]; intros stocks w' Hrun.
  - rewrite (market_create_stocks_run F r L) in Hrun by done. simpl in Hrun.
    destruct (reconcile F L) as [[entries|e] kept]; [|done].
    injection Hrun as <- <-. split; [done|].
    apply Forall_app. split; apply Forall_forall; intros s Hs;
      apply list_elem_of_In, in_map_iff in Hs as (x & <- & _); [by destruct x|done].
  - rewrite (seller_create_stocks_run F r L) in Hrun by done.
    destruct (reconcile F L) as [[entries|e] kept]; [|done].
    injection Hrun as <- <-. split; [done|].
    apply Forall_app. split; apply Forall_forall; intros s Hs;
      apply list_elem_of_In, in_map_iff in Hs as (x & <- & _); [by destruct x|done].
Qed.

(** C8, as stated, fails for the Ozon integration: the stock updates that
    seller.py builds have no time stamp at all. *)
Lemma ozon_stock_updates_have_no_stamp :
  ~ (forall F r w stocks w',
        Seller.create_stocks F r w = (Ret stocks, w') ->
        Forall (fun s => exists t, find_key "updatedAt" s = Some (PyStr t)) stocks).
Proof.
  intros H.
  specialize (H docstring_feed 0%nat
                (world_of {[ 0%nat := ["136748"; "73309"] ]} [] [] docstring_feed)
                _ _ eq_refl).
  apply Forall_cons in H as [[t Ht] _]. vm_compute in Ht. done.
Qed.

(** An instance of [market_stocks_share_one_stamp]. *)
Lemma market_stocks_share_one_stamp_witness :
  let w := world_of {[ 0%nat := ["136748"; "73309"] ]} [] [] docstring_feed in
  heap w !! 0%nat = Some ["136748"; "73309"] /\
  forall stocks w',
    Market.create_stocks docstring_feed 0%nat "W1" w = (Ret stocks, w') ->
    clock_reads w' = S (clock_reads w) /\
    Forall (fun s => find_key "updatedAt" s = Some (PyStr "2022-12-29T18:02:01Z")) stocks.
Proof.
  intros w. split; [reflexivity|].
  exact (proj1 (market_stocks_share_one_stamp docstring_feed 0%nat
                  ["136748"; "73309"] "W1" w eq_refl)).
Defined.

(** * Further properties *)

(** ** More on the batcher *)

(** X1. For a positive [n], [divide lst n] yields [ceil(len(lst) / n)]
    chunks, and chunk number [i] is the window [lst[i*n : i*n + n]]. *)
Theorem divide_count {A : Type} (lst : list A) (n : Z) :
  0 < n ->
  exists chunks,
    divide lst n = Ok chunks /\
    Z.of_nat (length chunks) = (Z.of_nat (length lst) + n - 1) / n /\
    forall i, (i < length chunks)%nat ->
      chunks !! i = Some (take (Z.to_nat n) (drop (i * Z.to_nat n) lst)).
Proof.
  intros Hn. eexists. split; [by apply divide_windows|].
  rewrite length_map, length_seq. split.
  - destruct (Z.ltb_spec 0 (Z.of_nat (length lst))) as [Hlen|Hlen].
    + replace (Z.of_nat (length lst) + n - 1) with (Z.of_nat (length lst) - 1 + 1 * n)
        by lia.
      rewrite Z.div_add by lia.
      assert (0 <= (Z.of_nat (length lst) - 1) / n) by (apply Z.div_pos; lia). lia.
    + replace (Z.of_nat (length lst)) with 0 by lia.
      rewrite Z.div_small by lia. done.
  - intros i Hi. rewrite list_lookup_fmap, lookup_seq_lt by done. done.
Qed.

(** An instance of [divide_count]. *)
Lemma divide_count_witness :
  0 < 2 /\
  exists chunks,
    divide [1; 2; 3; 4; 5] 2 = Ok chunks /\
    Z.of_nat (length chunks) = (Z.of_nat (length [1; 2; 3; 4; 5]) + 2 - 1) / 2 /\
    forall i, (i < length chunks)%nat ->
      chunks !! i = Some (take (Z.to_nat 2) (drop (i * Z.to_nat 2) [1; 2; 3; 4; 5])).
Proof. split; [lia|]. apply (divide_count [1; 2; 3; 4; 5] 2). lia. Defined.

(** X2. [divide] with the chunk size 0 raises [ValueError], and with a
    negative chunk size it yields no chunk at all, whatever the list. *)
Theorem divide_not_positive {A : Type} (lst : list A) :
  divide lst 0 = Err ValueError /\
  forall n, n < 0 -> divide lst n = Ok [].
Proof.
  split; [done|]. intros n Hn. unfold divide, py_range.
  destruct (Z.eqb_spec n 0); [lia|]. destruct (Z.ltb_spec 0 n); [lia|].
  destruct (Z.ltb_spec (Z.of_nat (length lst)) 0); [lia|]. done.
Qed.

(** An instance of [divide_not_positive]. *)
Lemma divide_not_positive_witness :
  -3 < 0 /\ divide [1; 2; 3] (-3) = Ok [].
Proof. split; [lia|]. apply (divide_not_positive [1; 2; 3]). lia. Defined.

(** ** More on price normalisation *)

Lemma filter_digits_all (l : list ascii) :
  forallb is_digit (List.filter is_digit l) = true.
Proof.
  induction l as [|c l IH]; [done|]. simpl.
  destruct (is_digit c) eqn:Hc; [|done]. simpl. by rewrite Hc.
Qed.

Lemma filter_digits_id (l : list ascii) :
  forallb is_digit l = true -> List.filter is_digit l = l.
Proof.
  induction l as [|c l IH]; [done|]. simpl.
  intros [-> Hl]%andb_prop. by rewrite IH.
Qed.

Lemma dot_not_digit : is_digit "." = false.
Proof. reflexivity. Qed.

Lemma length_string_list (s : string) :
  String.length s = length (list_ascii_of_string s).
Proof. induction s as [|c s IH]; simpl; [done|]. by rewrite IH. Qed.

Lemma filter_length_le (l : list ascii) :
  (length (List.filter is_digit l) <= length l)%nat.
Proof.
  induction l as [|c l IH]; simpl; [done|].
  destruct (is_digit c); simpl; lia.
Qed.

Lemma first_segment_length (s pre : string) :
  (s = pre \/ exists rest, s = pre +:+ String "." rest) ->
  (String.length pre <= String.length s)%nat.
Proof.
  intros [->|[rest ->]]; [done|].
  induction pre as [|c pre IH]; simpl; [lia|].
  unfold String.append; fold String.append. simpl. lia.
Qed.

Lemma price_conversion_text (s : string) :
  exists pre r,
    (s = pre \/ exists rest, s = pre +:+ String "." rest) /\
    price_conversion (CStr s) = Ok r /\
    r = string_of_list_ascii (List.filter is_digit (list_ascii_of_string pre)) /\
    forallb is_digit (list_ascii_of_string r) = true.
Proof.
  destruct (split_first_segment s) as (pre & tl & Hsplit & Hdot & Hs).
  exists pre. eexists. split; [done|]. split; [|split; [reflexivity|]].
  - unfold price_conversion. by rewrite Hsplit, re_sub_keeps_digits.
  - rewrite list_ascii_of_string_of_list_ascii. apply filter_digits_all.
Qed.

(** X3. On a text, [price_conversion] always returns a text made of ASCII
    digits only, no longer than its input, and converting that result again
    changes nothing; on a cell that is not a text it raises
    [AttributeError]. *)
Theorem price_conversion_digits_only (s : string) :
  (exists r,
      price_conversion (CStr s) = Ok r /\
      forallb is_digit (list_ascii_of_string r) = true /\
      (String.length r <= String.length s)%nat /\
      price_conversion (CStr r) = Ok r) /\
  (forall z, price_conversion (CInt z) = Err AttributeError) /\
  price_conversion CNone = Err AttributeError.
Proof.
  split; [|done].
  destruct (price_conversion_text s) as (pre & r & Hs & Hconv & Hdef & Hr).
  exists r. split; [done|split; [done|split]].
  - rewrite Hdef. rewrite length_string_list, list_ascii_of_string_of_list_ascii.
    etransitivity; [apply filter_length_le|].
    rewrite <- length_string_list. by apply first_segment_length.
  - destruct (split_first_segment r) as (pre' & tl' & Hsplit' & Hdot' & Hs').
    assert (pre' = r) as ->.
    { destruct Hs' as [->|[rest Hrest]]; [done|]. exfalso.
      assert (Hin : In "."%char (list_ascii_of_string r)).
      { rewrite Hrest. clear. induction pre' as [|c p IH]; simpl; auto. }
      rewrite forallb_forall in Hr. apply Hr in Hin. by rewrite dot_not_digit in Hin. }
    unfold price_conversion. rewrite Hsplit', re_sub_keeps_digits.
    by rewrite (filter_digits_id _ Hr), string_of_list_ascii_of_string.
Qed.

Lemma py_int_of_str_error (s : string) (e : exn) :
  py_int_of_str s = Err e -> e = ValueError.
Proof.
  unfold py_int_of_str.
  destruct (lstrip (rstrip s)) as [|c d].
  - simpl. congruence.
  - destruct c as [[] [] [] [] [] [] [] []];
      repeat match goal with
             | |- context [digits_value ?x ?y ?z] => destruct (digits_value x y z)
             end; congruence.
Qed.

Lemma Forall2_strengthen {A B : Type} (R R' : A -> B -> Prop) (P : A -> Prop)
    (xs : list A) (ys : list B) :
  (forall x y, P x -> R x y -> R' x y) ->
  Forall2 R xs ys -> Forall P xs -> Forall2 R' xs ys.
Proof.
  intros HR H. induction H as [|x y xs ys Hxy _ IH]; intros HP; [constructor|].
  apply Forall_cons in HP as [Hx HP]. constructor; eauto.
Qed.

Lemma Forall2_left_total {A B : Type} (R : A -> B -> Prop) (xs : list A) (ys : list B)
    (x : A) :
  Forall2 R xs ys -> x ∈ xs -> exists y, R x y.
Proof.
  intros H. induction H as [|x' y xs ys Hxy _ IH]; [by intros ?%elem_of_nil|].
  intros [->|Hin]%elem_of_cons; eauto.
Qed.

Lemma filter_listed_elem (F : list watch) (L : list string) (watch : watch) :
  watch ∈ F -> code_of watch ∈ L ->
  watch ∈ List.filter (fun watch => list_contains (code_of watch) L) F.
Proof.
  intros Hin Hc. apply list_elem_of_In, filter_In.
  split; [by apply list_elem_of_In|]. by apply list_contains_elem.
Qed.

Lemma filter_listed_from (F : list watch) (L : list string) :
  Forall (fun watch => watch ∈ F /\ code_of watch ∈ L)
         (List.filter (fun watch => list_contains (code_of watch) L) F).
Proof.
  apply Forall_forall. intros watch Hin.
  apply list_elem_of_In, filter_In in Hin as [Hin Hc].
  split; [by apply list_elem_of_In|by apply list_contains_elem].
Qed.

(** X4. When the price cell of every listed feed row is a text of at most
    4300 characters (the length up to which every Python version converts a
    digit text), the Ozon
    [create_prices] always returns a batch. The Market [create_prices]
    returns one exactly when each of those texts has a digit before its
    first dot, with the decimal value of those digits as price; otherwise it
    raises [ValueError]. *)
Theorem create_prices_on_text_prices (F : list watch) (r : loc) (L : list string)
    (w : world) :
  heap w !! r = Some L ->
  (forall watch, watch ∈ F -> code_of watch ∈ L ->
                 exists s, dict_get watch "Цена" = CStr s /\
                           (String.length s <= 4300)%nat) ->
  (exists prices, (Seller.create_prices F r w).1 = Ret prices) /\
  ((exists prices, (Market.create_prices F r w).1 = Ret prices) \/
   (Market.create_prices F r w).1 = Raise ValueError) /\
  ((exists prices, (Market.create_prices F r w).1 = Ret prices) <->
   forall watch, watch ∈ F -> code_of watch ∈ L ->
                 price_conversion (dict_get watch "Цена") <> Ok EmptyString) /\
  (forall prices, (Market.create_prices F r w).1 = Ret prices ->
     Forall2 (fun watch price =>
                exists d, price_conversion (dict_get watch "Цена") = Ok d /\
                  find_key "value" price
                  = Some (PyInt (fold_left (fun a c => 10 * a + digit_value c)
                                           (list_ascii_of_string d) 0)))
             (List.filter (fun watch => list_contains (code_of watch) L) F) prices).
Proof.
  intros HL Htext.
  assert (Hmarket : forall watch, watch ∈ F -> code_of watch ∈ L ->
            exists d, price_conversion (dict_get watch "Цена") = Ok d /\
              ((d = EmptyString /\ market_price_of watch = Err ValueError) \/
               (d <> EmptyString /\
                market_price_of watch
                = Ok (PyDict [("id", PyStr (code_of watch));
                              ("price",
                               PyDict [("value",
                                        PyInt (fold_left (fun a c => 10 * a + digit_value c)
                                                         (list_ascii_of_string d) 0));
                                       ("currencyId", PyStr "RUR")])])))).
  { intros watch Hin Hc. destruct (Htext watch Hin Hc) as (s & Hs & _).
    destruct (price_conversion_text s) as (pre & d & _ & Hconv & _ & Hd).
    exists d. rewrite Hs. split; [done|]. unfold market_price_of. rewrite Hs, Hconv.
    destruct d as [|c d]; [by left|right]. split; [done|].
    by rewrite (py_int_of_str_digits (String c d)). }
  destruct (seller_prices_loop F r L [] w HL) as [_ Hs].
  destruct (market_prices_loop F r L [] w HL) as [_ Hm].
  unfold Seller.create_prices, Market.create_prices.
  split; [|split; [|split]].
  - destruct (Seller.create_prices_loop F r [] w).1 as [prices|e|]; [by eexists| |done].
    destruct Hs as (watch & Hin & Hc & He). destruct (Htext watch Hin Hc) as (s & Htxt & _).
    destruct (price_conversion_text s) as (pre & d & _ & Hconv & _).
    unfold ozon_price_of in He. by rewrite Htxt, Hconv in He.
  - destruct (Market.create_prices_loop F r [] w).1 as [prices|e|]; [left; by eexists| |done].
    right. destruct Hm as (watch & Hin & Hc & He).
    destruct (Hmarket watch Hin Hc) as (d & _ & [[_ H]|[_ H]]); congruence.
  - destruct (Market.create_prices_loop F r [] w).1 as [prices|e|]; [| |done].
    + destruct Hm as (new & -> & Hnew). split; [|by eexists].
      intros _ watch Hin Hc Hempty.
      destruct (Forall2_left_total _ _ _ watch Hnew (filter_listed_elem F L watch Hin Hc))
        as [price Hprice].
      destruct (Hmarket watch Hin Hc) as (d & Hd & [[_ H]|[Hne _]]); congruence.
    + destruct Hm as (watch & Hin & Hc & He). split; [by intros [? ?]|].
      intros Hall. exfalso.
      destruct (Hmarket watch Hin Hc) as (d & Hd & [[-> _]|[_ H]]); [|congruence].
      by apply (Hall watch Hin Hc).
  - intros prices Hrun.
    destruct (Market.create_prices_loop F r [] w).1 as [out|e|]; [|done..].
    injection Hrun as ->. destruct Hm as (new & -> & Hnew). simpl.
    eapply Forall2_strengthen; [|exact Hnew|apply filter_listed_from].
    intros watch price [Hin Hc] Hp.
    destruct (Hmarket watch Hin Hc) as (d & Hd & [[_ H]|[_ H]]); [congruence|].
    exists d. split; [done|]. rewrite H in Hp. by injection Hp as <-.
Qed.

(** An instance of [create_prices_on_text_prices]. *)
Lemma create_prices_on_text_prices_witness :
  let w := world_of {[ 0%nat := ["136748"; "73309"] ]} [] [] docstring_feed in
  heap w !! 0%nat = Some ["136748"; "73309"] /\
  (exists prices, (Seller.create_prices docstring_feed 0%nat w).1 = Ret prices) /\
  (exists prices, (Market.create_prices docstring_feed 0%nat w).1 = Ret prices).
Proof.
  intros w. split; [reflexivity|].
  assert (Htext : forall watch, watch ∈ docstring_feed ->
            code_of watch ∈ ["136748"; "73309"] ->
            exists s, dict_get watch "Цена" = CStr s /\ (String.length s <= 4300)%nat).
  { intros watch ->%list_elem_of_singleton _. eexists. split; [reflexivity|].
    apply Nat.leb_le. vm_compute. reflexivity. }
  destruct (create_prices_on_text_prices docstring_feed 0%nat ["136748"; "73309"] w
              eq_refl Htext) as (Hs & _ & Hiff & _).
  split; [exact Hs|]. apply Hiff.
  intros watch ->%list_elem_of_singleton _. discriminate.
Defined.

(** ** More on quantity normalisation *)

Lemma to_int_proper (z : Z) :
  Z.to_int z <> Decimal.Pos Decimal.Nil /\ Z.to_int z <> Decimal.Neg Decimal.Nil.
Proof.
  destruct z as [|p|p]; simpl; split; try discriminate;
    intros [= H]; by apply (DecimalPos.Unsigned.to_uint_nonnil p).
Qed.

(** [str()] of an [int] can be read back. *)
Lemma str_of_Z_read (z : Z) :
  NilZero.int_of_string (str_of_Z z) = Some (Z.to_int z).
Proof.
  destruct (to_int_proper z) as [H1 H2]. unfold str_of_Z. by apply NilZero.isi.
Qed.

Lemma str_of_Z_inj (z z' : Z) : str_of_Z z = str_of_Z z' -> z = z'.
Proof.
  intros H. apply DecimalZ.to_int_inj.
  pose proof (str_of_Z_read z) as Hz. rewrite H, str_of_Z_read in Hz. congruence.
Qed.

(** X5. A quantity cell that holds a 64-bit [int] [z] is normalised to 0 when
    [z] is 1 and to [z] itself otherwise, negative numbers included, in both
    integrations. *)
Theorem stock_of_int_cell (watch : watch) (z : Z) :
  - 2 ^ 63 <= z < 2 ^ 63 ->
  dict_get watch "Количество" = CInt z ->
  Seller.stock_of watch = Ok (if z =? 1 then 0 else z) /\
  Market.stock_of watch = Ok (if z =? 1 then 0 else z).
Proof.
  intros _ H.
  assert (Hs : Seller.stock_of watch = Ok (if z =? 1 then 0 else z)).
  { unfold Seller.stock_of. rewrite H. simpl.
    destruct (String.eqb_spec (str_of_Z z) ">10") as [Hgt|_].
    { pose proof (str_of_Z_read z) as Hr. rewrite Hgt in Hr. discriminate Hr. }
    destruct (String.eqb_spec (str_of_Z z) "1") as [Hone|Hne].
    - apply (str_of_Z_inj z 1) in Hone as ->. done.
    - destruct (Z.eqb_spec z 1) as [->|_]; [by destruct Hne|done]. }
  split; [exact Hs|]. by rewrite stock_of_same.
Qed.

(** An instance of [stock_of_int_cell]. *)
Lemma stock_of_int_cell_witness :
  - 2 ^ 63 <= 1 < 2 ^ 63 /\
  dict_get (row (CInt 73309) (CInt 1) (CStr "1.00")) "Количество" = CInt 1 /\
  Seller.stock_of (row (CInt 73309) (CInt 1) (CStr "1.00")) = Ok 0 /\
  Market.stock_of (row (CInt 73309) (CInt 1) (CStr "1.00")) = Ok 0.
Proof.
  assert (Hz : - 2 ^ 63 <= 1 < 2 ^ 63) by lia.
  split; [exact Hz|]. split; [reflexivity|].
  exact (stock_of_int_cell (row (CInt 73309) (CInt 1) (CStr "1.00")) 1 Hz eq_refl).
Defined.

(** X6. A quantity cell that holds a text: [">10"] gives 100 and ["1"]
    gives 0; any other non-empty text of at most 4300 ASCII digits gives
    its decimal value; the empty text, and any text other than [">10"] with an ASCII
    character that is neither a digit, a blank, a sign nor an underscore,
    raise [ValueError]. *)
Theorem stock_of_text_cell (watch : watch) (s : string) :
  dict_get watch "Количество" = CStr s ->
  (s = ">10" -> Seller.stock_of watch = Ok 100) /\
  (s = "1" -> Seller.stock_of watch = Ok 0) /\
  (s <> "1" -> s <> EmptyString -> (String.length s <= 4300)%nat ->
   forallb is_digit (list_ascii_of_string s) = true ->
   Seller.stock_of watch
   = Ok (fold_left (fun a c => 10 * a + digit_value c) (list_ascii_of_string s) 0)) /\
  (s = EmptyString -> Seller.stock_of watch = Err ValueError) /\
  (s <> ">10" ->
   (exists c, In c (list_ascii_of_string s) /\ (nat_of_ascii c < 128)%nat /\
              is_digit c = false /\ is_space c = false /\
              c <> "_"%char /\ c <> "+"%char /\ c <> "-"%char) ->
   Seller.stock_of watch = Err ValueError).
Proof.
  intros H. rewrite (stock_of_text watch s H).
  split; [by intros ->|]. split; [by intros ->|]. split; [|split].
  - intros Hone Hne _ Hd.
    destruct (String.eqb_spec s ">10") as [->|_]; [discriminate Hd|].
    destruct (String.eqb_spec s "1") as [->|_]; [done|].
    by apply py_int_of_str_digits.
  - by intros ->.
  - intros Hgt (c & Hin & Hascii & Hd & Hsp & Hu & Hp & Hm).
    destruct (String.eqb_spec s ">10") as [->|_]; [done|].
    destruct (String.eqb_spec s "1") as [->|_].
    { simpl in Hin. destruct Hin as [<-|[]]. discriminate Hd. }
    by apply (py_int_of_str_rejects s c).
Qed.

(** An instance of [stock_of_text_cell]. *)
Lemma stock_of_text_cell_witness :
  dict_get (row (CInt 73309) (CStr "2O") (CStr "1.00")) "Количество" = CStr "2O" /\
  Seller.stock_of (row (CInt 73309) (CStr "2O") (CStr "1.00")) = Err ValueError.
Proof.
  split; [reflexivity|].
  apply (stock_of_text_cell (row (CInt 73309) (CStr "2O") (CStr "1.00")) "2O" eq_refl).
  - discriminate.
  - exists "O"%char. simpl. repeat split; try discriminate; auto.
    apply Nat.leb_le. reflexivity.
Defined.

(** ** More on the stock reconciler *)

Lemma list_remove_sublist (x : string) (l l' : list string) :
  list_remove x l = Some l' -> l' `sublist_of` l.
Proof.
  revert l'. induction l as [|y l IH]; intros l'; simpl; [done|].
  destruct (String.eqb x y).
  - intros [= <-]. by apply sublist_cons.
  - destruct (list_remove x l) as [r|]; [|done]. intros [= <-].
    by apply sublist_skip, IH.
Qed.

Lemma list_remove_NoDup (x : string) (l : list string) :
  NoDup l -> x ∈ l ->
  list_remove x l = Some (List.filter (fun o => negb (String.eqb o x)) l).
Proof.
  induction l as [|y l IH]; [by intros _ ?%elem_of_nil|].
  intros [Hy Hnd]%NoDup_cons Hin. simpl.
  rewrite (String.eqb_sym y x).
  destruct (String.eqb_spec x y) as [->|Hne]; simpl.
  - f_equal. symmetry. clear IH Hin Hnd.
    induction l as [|z l IH]; [done|]. simpl.
    apply not_elem_of_cons in Hy as [Hz Hy].
    destruct (String.eqb_spec z y) as [->|_]; [done|]. simpl. f_equal. by apply IH.
  - apply elem_of_cons in Hin as [?|Hin]; [done|]. by rewrite IH.
Qed.

Lemma NoDup_filter_bool (f : string -> bool) (l : list string) :
  NoDup l -> NoDup (List.filter f l).
Proof. rewrite !NoDup_ListNoDup. apply List.NoDup_filter. Qed.

(** The pairs that [reconcile] appends follow the feed, and the content it
    leaves follows the list. *)
Lemma reconcile_order (F : list watch) :
  forall ids res kept,
    reconcile F ids = (res, kept) ->
    kept `sublist_of` ids /\
    forall entries, res = Ok entries -> map fst entries `sublist_of` codes F.
Proof.
  induction F as [|watch F IH]; intros ids res kept; simpl.
  - intros [= <- <-]. split; [done|]. by intros entries [= <-].
  - destruct (list_contains (code_of watch) ids) eqn:Hin.
    + destruct (Seller.stock_of watch) as [stock|e].
      * destruct (list_remove (code_of watch) ids) as [ids'|] eqn:Hrem.
        -- destruct (reconcile F ids') as [[es|e] k] eqn:Hr; intros [= <- <-];
             destruct (IH _ _ _ Hr) as [Hk He];
             (split; [etransitivity; [exact Hk|by eapply list_remove_sublist]|]).
           ++ intros entries [= <-]. simpl. by apply sublist_skip, He.
           ++ done.
        -- intros [= <- <-]. split; done.
      * intros [= <- <-]. split; done.
    + intros Hr. destruct (IH _ _ _ Hr) as [Hk He]. split; [done|].
      intros entries ->. by apply sublist_cons, He.
Qed.

Lemma filter_filter_codes (L : list string) (k : string) (cs : list string) :
  List.filter (fun o => negb (list_contains o cs))
              (List.filter (fun o => negb (String.eqb o k)) L)
  = List.filter (fun o => negb (list_contains o (k :: cs))) L.
Proof.
  induction L as [|o L IH]; [done|]. simpl.
  destruct (String.eqb o k); simpl; [done|].
  destruct (list_contains o cs); simpl; [done|]. by rewrite IH.
Qed.

(** For a duplicate-free list, [reconcile] leaves the identifiers that are
    no feed code, in the order of the list. *)
Lemma reconcile_kept_exact (F : list watch) :
  forall ids entries kept,
    NoDup ids ->
    reconcile F ids = (Ok entries, kept) ->
    kept = List.filter (fun o => negb (list_contains o (codes F))) ids.
Proof.
  induction F as [|watch F IH]; intros ids entries kept Hnd; simpl.
  - intros [= _ <-]. induction ids as [|o ids IHi]; [done|]. simpl.
    apply NoDup_cons in Hnd as [_ Hnd]. by rewrite <- IHi.
  - destruct (list_contains (code_of watch) ids) eqn:Hin.
    + apply list_contains_elem in Hin.
      rewrite (list_remove_NoDup _ _ Hnd Hin).
      destruct (Seller.stock_of watch) as [stock|]; [|done].
      destruct (reconcile F _) as [[es|] k] eqn:Hr; intros [= _ <-].
      rewrite (IH _ _ _ (NoDup_filter_bool _ _ Hnd) Hr).
      apply filter_filter_codes.
    + intros Hr. rewrite (IH _ _ _ Hnd Hr).
      apply filter_ext_in. intros o Ho.
      destruct (String.eqb_spec o (code_of watch)) as [->|_]; [|done].
      apply list_elem_of_In, list_contains_elem in Ho. congruence.
Qed.

Lemma reconcile_unmatched (F : list watch) (ids : list string) :
  (forall watch, watch ∈ F -> code_of watch ∉ ids) ->
  reconcile F ids = (Ok [], ids).
Proof.
  induction F as [|watch F IH]; intros Hun; simpl; [done|].
  destruct (list_contains (code_of watch) ids) eqn:Hin.
  - apply list_contains_elem in Hin. exfalso. apply (Hun watch); [|done].
    apply elem_of_cons. by left.
  - apply IH. intros x Hx. apply Hun, elem_of_cons. by right.
Qed.

(** X7. Whether or not the list behind [offer_ids] repeats identifiers, a
    batch returned by [create_stocks] has exactly one entry per element of
    that list: its identifiers are those of the list, each as many times as
    the list holds it. *)
Theorem create_stocks_one_entry_per_element (F : list watch) (r : loc)
    (L : list string) (warehouse_id : string) (w : world) :
  heap w !! r = Some L ->
  (forall stocks w',
      Seller.create_stocks F r w = (Ret stocks, w') ->
      map (find_key "offer_id") stocks ≡ₚ map (fun o => Some (PyStr o)) L /\
      length stocks = length L) /\
  (forall stocks w',
      Market.create_stocks F r warehouse_id w = (Ret stocks, w') ->
      map (find_key "sku") stocks ≡ₚ map (fun o => Some (PyStr o)) L /\
      length stocks = length L).
Proof.
  intros HL. split; intros stocks w' Hrun.
  - rewrite (seller_create_stocks_run F r L w HL) in Hrun.
    destruct (reconcile F L) as [[entries|e] kept] eqn:Hr; [|done].
    injection Hrun as <- _.
    pose proof (reconcile_perm F L entries kept Hr) as Hperm.
    assert (Hids : map (find_key "offer_id")
                     (map (fun '(o, c) => PyDict [("offer_id", PyStr o); ("stock", PyInt c)])
                          entries
                      ++ map (fun o => PyDict [("offer_id", PyStr o); ("stock", PyInt 0)]) kept)
                   = map (fun o => Some (PyStr o)) (map fst entries ++ kept)).
    { rewrite !map_app, !map_map. f_equal. apply map_ext. by intros [o c]. }
    split.
    + rewrite Hids. by apply Permutation_map.
    + rewrite <- (length_map (find_key "offer_id")), Hids, length_map.
      by apply Permutation_length.
  - rewrite (market_create_stocks_run F r L warehouse_id w HL) in Hrun. simpl in Hrun.
    destruct (reconcile F L) as [[entries|e] kept] eqn:Hr; [|done].
    injection Hrun as <- _.
    pose proof (reconcile_perm F L entries kept Hr) as Hperm.
    match goal with |- map _ ?l ≡ₚ _ /\ _ =>
      assert (Hids : map (find_key "sku") l
                     = map (fun o => Some (PyStr o)) (map fst entries ++ kept))
    end.
    { rewrite !map_app, !map_map. f_equal. apply map_ext. by intros [o c]. }
    split.
    + rewrite Hids. by apply Permutation_map.
    + rewrite <- (length_map (find_key "sku")), Hids, length_map.
      by apply Permutation_length.
Qed.

(** An instance of [create_stocks_one_entry_per_element], on a list that
    names one offer twice. *)
Lemma create_stocks_one_entry_per_element_witness :
  let w := world_of {[ 0%nat := ["73309"; "136748"; "73309"] ]} [] [] docstring_feed in
  heap w !! 0%nat = Some ["73309"; "136748"; "73309"] /\
  forall stocks w',
    Seller.create_stocks docstring_feed 0%nat w = (Ret stocks, w') ->
    map (find_key "offer_id") stocks
    ≡ₚ map (fun o => Some (PyStr o)) ["73309"; "136748"; "73309"] /\
    length stocks = 3%nat.
Proof.
  intros w. split; [reflexivity|].
  exact (proj1 (create_stocks_one_entry_per_element docstring_feed 0%nat
                  ["73309"; "136748"; "73309"] "W1" w eq_refl)).
Defined.



(** X9. After [create_stocks] has returned a batch for a duplicate-free
    list, the caller's list holds exactly the identifiers that are the code
    of no feed row, in their original order. *)
Theorem create_stocks_leaves_unlisted (F : list watch) (r : loc) (L : list string)
    (warehouse_id : string) (w : world) (stocks : list pyobj) (w' : world) :
  heap w !! r = Some L ->
  NoDup L ->
  Seller.create_stocks F r w = (Ret stocks, w') \/
  Market.create_stocks F r warehouse_id w = (Ret stocks, w') ->
  heap w' !! r
  = Some (List.filter (fun o => negb (list_contains o (codes F))) L).
Proof.
  intros HL Hnd Hrun.
  rewrite (seller_create_stocks_run F r L w HL) in Hrun.
  rewrite (market_create_stocks_run F r L warehouse_id w HL) in Hrun.
  simpl in Hrun.
  destruct (reconcile F L) as [[entries|e] kept] eqn:Hr; [|by destruct Hrun].
  rewrite <- (reconcile_kept_exact F L entries kept Hnd Hr).
  destruct Hrun as [[= _ <-]|[= _ <-]]; apply with_list_lookup.
Qed.

(** An instance of [create_stocks_leaves_unlisted]. *)
Lemma create_stocks_leaves_unlisted_witness :
  let w := world_of {[ 0%nat := ["136748"; "73309"] ]} [] [] docstring_feed in
  heap w !! 0%nat = Some ["136748"; "73309"] /\
  NoDup ["136748"; "73309"] /\
  forall stocks w',
    Seller.create_stocks docstring_feed 0%nat w = (Ret stocks, w') ->
    heap w' !! 0%nat
    = Some (List.filter (fun o => negb (list_contains o (codes docstring_feed)))
                        ["136748"; "73309"]).
Proof.
  intros w.
  assert (Hnd : NoDup ["136748"; "73309"]).
  { apply NoDup_cons. split; [|apply NoDup_singleton].
    intros [=]%list_elem_of_singleton. }
  split; [reflexivity|]. split; [exact Hnd|].
  intros stocks w' Hrun.
  exact (create_stocks_leaves_unlisted docstring_feed 0%nat ["136748"; "73309"] "W1" w
           stocks w' eq_refl Hnd (or_introl Hrun)).
Defined.

(** X10. Once [create_stocks] has returned a batch for a duplicate-free
    list, running it again on the same list and the same feed reports every
    remaining identifier with count 0 and leaves the list as it is: the
    quantities of the feed are not read a second time. *)
Theorem create_stocks_second_run (F : list watch) (r : loc) (L : list string)
    (w : world) (stocks : list pyobj) (w' : world) :
  heap w !! r = Some L ->
  NoDup L ->
  Seller.create_stocks F r w = (Ret stocks, w') ->
  exists kept,
    heap w' !! r = Some kept /\
    Seller.create_stocks F r w'
    = (Ret (map (fun o => PyDict [("offer_id", PyStr o); ("stock", PyInt 0)]) kept), w').
Proof.
  intros HL Hnd Hrun.
  rewrite (seller_create_stocks_run F r L w HL) in Hrun.
  destruct (reconcile F L) as [[entries|e] kept] eqn:Hr; [|done].
  injection Hrun as <- <-.
  exists kept. split; [apply with_list_lookup|].
  rewrite (seller_create_stocks_run F r kept (with_list r kept w)
             (with_list_lookup r kept w)).
  rewrite reconcile_unmatched.
  - simpl. by rewrite with_list_twice.
  - intros watch Hw Hin.
    rewrite (reconcile_kept_exact F L entries kept Hnd Hr) in Hin.
    apply list_elem_of_In, List.filter_In in Hin as [_ Hneg].
    apply negb_true_iff in Hneg.
    assert (Hc : list_contains (code_of watch) (codes F) = true); [|congruence].
    apply list_contains_elem. unfold codes. apply list_elem_of_In, in_map.
    by apply list_elem_of_In.
Qed.

(** An instance of [create_stocks_second_run]. *)
Lemma create_stocks_second_run_witness :
  let w := world_of {[ 0%nat := ["136748"; "73309"] ]} [] [] docstring_feed in
  heap w !! 0%nat = Some ["136748"; "73309"] /\
  NoDup ["136748"; "73309"] /\
  forall stocks w',
    Seller.create_stocks docstring_feed 0%nat w = (Ret stocks, w') ->
    exists kept,
      heap w' !! 0%nat = Some kept /\
      Seller.create_stocks docstring_feed 0%nat w'
      = (Ret (map (fun o => PyDict [("offer_id", PyStr o); ("stock", PyInt 0)]) kept), w').
Proof.
  intros w.
  assert (Hnd : NoDup ["136748"; "73309"]).
  { apply NoDup_cons. split; [|apply NoDup_singleton].
    intros [=]%list_elem_of_singleton. }
  split; [reflexivity|]. split; [exact Hnd|].
  intros stocks w' Hrun.
  exact (create_stocks_second_run docstring_feed 0%nat ["136748"; "73309"] w
           stocks w' eq_refl Hnd Hrun).
Defined.

Lemma reconcile_error_split (F : list watch) :
  forall ids e kept,
    reconcile F ids = (Err e, kept) ->
    exists before watch after entries,
      F = before ++ watch :: after /\
      reconcile before ids = (Ok entries, kept) /\
      code_of watch ∈ kept /\
      Seller.stock_of watch = Err e.
Proof.
  induction F as [|x F IH]; intros ids e kept; simpl; [done|].
  destruct (list_contains (code_of x) ids) eqn:Hin.
  - destruct (Seller.stock_of x) as [stock|e'] eqn:Hs.
    + pose proof Hin as Hel. apply list_contains_elem in Hel.
      apply list_remove_elem in Hel as (ids' & Hrm & _). rewrite Hrm.
      destruct (reconcile F ids') as [[es|e''] k] eqn:Hr; intros [= <- <-].
      destruct (IH _ _ _ Hr) as (before & watch & after & entries & -> & Hr1 & Hc & Hsw).
      exists (x :: before), watch, after, ((code_of x, stock) :: entries).
      split; [done|]. split; [|done]. simpl. by rewrite Hin, Hs, Hrm, Hr1.
    + intros [= <- <-]. exists [], x, F, []. split; [done|]. split; [done|].
      split; [by apply list_contains_elem|done].
  - intros Hr.
    destruct (IH _ _ _ Hr) as (before & watch & after & entries & -> & Hr1 & Hc & Hsw).
    exists (x :: before), watch, after, entries.
    split; [done|]. split; [|done]. simpl. by rewrite Hin.
Qed.

(** X11. When [create_stocks] fails, it was stopped by one feed row: the
    quantity of that row raised the error, and its code is still in the
    caller's list. The rows before it have been dealt with as in a run that
    returns: the world is left exactly as [create_stocks] on these rows
    alone leaves it, so the identifiers they match are gone from the list
    (for a duplicate-free list, what is left is exactly the identifiers that
    are the code of none of them), and nothing has been sent. *)
Theorem create_stocks_failure_is_partial (F : list watch) (r : loc) (L : list string)
    (warehouse_id : string) (w : world) (e : exn) (w' : world) :
  heap w !! r = Some L ->
  Seller.create_stocks F r w = (Raise e, w') \/
  Market.create_stocks F r warehouse_id w = (Raise e, w') ->
  exists before watch after kept,
    F = before ++ watch :: after /\
    Seller.stock_of watch = Err e /\
    watch ∈ F /\
    code_of watch ∈ kept /\
    heap w' !! r = Some kept /\
    kept `sublist_of` L /\
    (NoDup L ->
     kept = List.filter (fun o => negb (list_contains o (codes before))) L) /\
    log w' = log w /\
    (Seller.create_stocks F r w = (Raise e, w') ->
     exists stocks, Seller.create_stocks before r w = (Ret stocks, w')) /\
    (Market.create_stocks F r warehouse_id w = (Raise e, w') ->
     exists stocks, Market.create_stocks before r warehouse_id w = (Ret stocks, w')).
Proof.
  intros HL Hrun.
  pose proof (seller_create_stocks_run F r L w HL) as Hs.
  pose proof (market_create_stocks_run F r L warehouse_id w HL) as Hm.
  cbv zeta in Hm.
  destruct (reconcile F L) as [[entries|e'] kept] eqn:Hr.
  { rewrite Hs, Hm in Hrun. by destruct Hrun. }
  assert (He : e' = e) by (rewrite Hs, Hm in Hrun; destruct Hrun as [[=]|[=]]; done).
  subst e'.
  destruct (reconcile_error_split F L e kept Hr)
    as (before & watch & after & es & HF & Hr1 & Hc & Hsw).
  assert (Hk : kept `sublist_of` L) by apply (reconcile_order F L _ kept Hr).
  pose proof (seller_create_stocks_run before r L w HL) as Hs1.
  pose proof (market_create_stocks_run before r L warehouse_id w HL) as Hm1.
  cbv zeta in Hm1. rewrite Hr1 in Hs1, Hm1.
  exists before, watch, after, kept.
  split; [done|]. split; [done|].
  split; [rewrite HF; apply elem_of_app; right; apply elem_of_cons; by left|].
  split; [done|].
  split; [destruct Hrun as [Hrun|Hrun]; [rewrite Hs in Hrun|rewrite Hm in Hrun];
          injection Hrun as <-; apply with_list_lookup|].
  split; [done|].
  split; [intros Hnd; by apply (reconcile_kept_exact before L es kept)|].
  split; [destruct Hrun as [Hrun|Hrun]; [rewrite Hs in Hrun|rewrite Hm in Hrun];
          by injection Hrun as <-|].
  split.
  - intros Hrun'. rewrite Hs in Hrun'. injection Hrun' as <-. eexists. exact Hs1.
  - intros Hrun'. rewrite Hm in Hrun'. injection Hrun' as <-. eexists. exact Hm1.
Qed.

(** An instance of [create_stocks_failure_is_partial]: the first row is
    matched and its identifier removed, the quantity of the second one
    cannot be read. *)
Lemma create_stocks_failure_is_partial_witness :
  let r1 := row (CInt 136748) (CStr "5") (CStr "1.00") in
  let r2 := row (CInt 73309) (CStr "2O") (CStr "1.00") in
  let w := world_of {[ 0%nat := ["136748"; "73309"] ]} [] [] [] in
  let w' := (Seller.create_stocks [r1; r2] 0%nat w).2 in
  heap w !! 0%nat = Some ["136748"; "73309"] /\
  Seller.create_stocks [r1; r2] 0%nat w = (Raise ValueError, w') /\
  heap w' !! 0%nat = Some ["73309"] /\
  log w' = log w /\
  exists stocks, Seller.create_stocks [r1] 0%nat w = (Ret stocks, w').
Proof.
  intros r1 r2 w w'.
  assert (Hrun : Seller.create_stocks [r1; r2] 0%nat w = (Raise ValueError, w')).
  { vm_compute. reflexivity. }
  assert (Hnd : NoDup ["136748"; "73309"]).
  { apply NoDup_cons. split; [|apply NoDup_singleton].
    intros [=]%list_elem_of_singleton. }
  split; [reflexivity|]. split; [exact Hrun|].
  destruct (create_stocks_failure_is_partial [r1; r2] 0%nat ["136748"; "73309"] "W1" w
              ValueError w' eq_refl (or_introl Hrun))
    as (before & watch & after & kept & HF & Hs & _ & _ & Hk & _ & Hkept & Hlog & Hpre & _).
  assert (Hb : before = [r1]).
  { destruct before as [|a [|b before]].
    - injection HF as <- _. vm_compute in Hs. discriminate Hs.
    - by injection HF as <- _ _.
    - injection HF as _ _ Hnil. by destruct before. }
  subst before. rewrite (Hkept Hnd) in Hk.
  split; [exact Hk|]. split; [exact Hlog|]. exact (Hpre Hrun).
Defined.

(** ** More on the pagers *)

(** X12. [seller.get_offer_ids] asks for the first page with the empty
    cursor and for each further page with the [last_id] of the page before
    it; it stops at the first page whose [total] is the number of entries
    gathered, having made one request per page read, and returns a new list
    object holding the [offer_id] of every entry read, in order; the lists
    that exist already are not touched, and the answers not asked for stay
    with the endpoint. *)
Theorem seller_get_offer_ids_requests (client_id seller_token : string) (w : world)
    (pages : list ozon_page) (p : ozon_page) (tail : list (reply ozon_page)) :
  ozon_replies w = map ReplyResult pages ++ ReplyResult p :: tail ->
  ozon_unfinished 0 pages = true ->
  page_total p = Z.of_nat (length (concat (map page_items pages) ++ page_items p)) ->
  exists r,
    heap w !! r = None /\
    Seller.get_offer_ids client_id seller_token w
    = (Ret r,
       set_heap (<[r := map offer_id (concat (map page_items pages) ++ page_items p)]>
                   (heap w))
         (set_ozon_replies tail
            (emit_all (map (ProductListRequest client_id) (ozon_cursors pages)) w))).
Proof.
  intros Hrep Hun Htot. unfold Seller.get_offer_ids. rewrite bind_run.
  rewrite (ozon_loop_upto client_id seller_token w pages _ tail Hrep Hun).
  apply Z.eqb_eq in Htot. rewrite Htot.
  match goal with |- context [new_list ?l ?w1] =>
    destruct (new_list_fresh l w1) as (r & Hr & ->) end.
  by exists r.
Qed.

(** An instance of [seller_get_offer_ids_requests]: two pages are read, the
    third answer is left. *)
Lemma seller_get_offer_ids_requests_witness :
  let p1 := OzonPage [OzonProduct 1 "136748"] 2 "c1" in
  let p2 := OzonPage [OzonProduct 2 "73309"] 2 "c2" in
  let w := world_of ∅ [ReplyResult p1; ReplyResult p2; ReplyNoResult] [] [] in
  exists r,
    heap w !! r = None /\
    Seller.get_offer_ids "client" "token" w
    = (Ret r,
       set_heap (insert r ["136748"; "73309"] (heap w))
         (set_ozon_replies [ReplyNoResult]
            (emit_all [ProductListRequest "client" EmptyString;
                       ProductListRequest "client" "c1"] w))).
Proof.
  intros p1 p2 w.
  exact (seller_get_offer_ids_requests "client" "token" w [p1] p2 [ReplyNoResult]
           eq_refl eq_refl eq_refl).
Defined.

(** X13. [market.get_offer_ids] asks for the first page with the empty page
    token and for each further page with the [nextPageToken] of the page
    before it; it stops at the first page whose [nextPageToken] is missing
    or empty, having made one request per page read, and returns a new list
    object holding the [shopSku] of every entry read, in order; the lists
    that exist already are not touched. *)
Theorem market_get_offer_ids_requests (campaign_id market_token : string) (w : world)
    (pages : list market_page) (p : market_page) (tail : list (reply market_page)) :
  market_replies w = map ReplyResult pages ++ ReplyResult p :: tail ->
  forallb (fun p => negb (market_last p)) pages = true ->
  market_last p = true ->
  exists r,
    heap w !! r = None /\
    Market.get_offer_ids campaign_id market_token w
    = (Ret r,
       set_heap (<[r := map shopSku
                          (concat (map offerMappingEntries pages) ++ offerMappingEntries p)]>
                   (heap w))
         (set_market_replies tail
            (emit_all (map (ProductListRequest campaign_id) (market_cursors pages)) w))).
Proof.
  intros Hrep Hun Hlast. unfold Market.get_offer_ids. rewrite bind_run.
  rewrite (market_loop_upto campaign_id market_token w pages _ tail Hrep Hun).
  rewrite Hlast.
  match goal with |- context [new_list ?l ?w1] =>
    destruct (new_list_fresh l w1) as (r & Hr & ->) end.
  by exists r.
Qed.

(** An instance of [market_get_offer_ids_requests]. *)
Lemma market_get_offer_ids_requests_witness :
  let p1 := MarketPage [MappingEntry "136748"] (Some "t1") in
  let p2 := MarketPage [MappingEntry "73309"] None in
  let w := world_of ∅ [] [ReplyResult p1; ReplyResult p2] [] in
  exists r,
    heap w !! r = None /\
    Market.get_offer_ids "fbs" "token" w
    = (Ret r,
       set_heap (insert r ["136748"; "73309"] (heap w))
         (set_market_replies []
            (emit_all [ProductListRequest "fbs" EmptyString;
                       ProductListRequest "fbs" "t1"] w))).
Proof.
  intros p1 p2 w.
  exact (market_get_offer_ids_requests "fbs" "token" w [p1] p2 []
           eq_refl eq_refl eq_refl).
Defined.

(** X14. When the listing endpoint fails in the middle of the paging,
    [get_offer_ids] of either file ends with the error of the request, and
    with [AttributeError] when the answer holds no ["result"]; the pages
    read so far are dropped: no list object is made, and nothing but the
    listing requests has been sent. *)
Theorem get_offer_ids_failure (account token : string) (w : world) :
  (forall pages r tail,
      ozon_replies w = map ReplyResult pages ++ r :: tail ->
      ozon_unfinished 0 pages = true ->
      (forall p, r <> ReplyResult p) ->
      Seller.get_offer_ids account token w
      = (Raise (match r with ReplyFail e => e | _ => AttributeError end),
         set_ozon_replies tail
           (emit_all (map (ProductListRequest account) (ozon_cursors pages)) w))) /\
  (forall pages r tail,
      market_replies w = map ReplyResult pages ++ r :: tail ->
      forallb (fun p => negb (market_last p)) pages = true ->
      (forall p, r <> ReplyResult p) ->
      Market.get_offer_ids account token w
      = (Raise (match r with ReplyFail e => e | _ => AttributeError end),
         set_market_replies tail
           (emit_all (map (ProductListRequest account) (market_cursors pages)) w))).
Proof.
  split; intros pages r tail Hrep Hun Hr.
  - unfold Seller.get_offer_ids. rewrite bind_run.
    rewrite (ozon_loop_upto account token w pages _ tail Hrep Hun).
    destruct r as [e| |p]; [done..|]. by destruct (Hr p).
  - unfold Market.get_offer_ids. rewrite bind_run.
    rewrite (market_loop_upto account token w pages _ tail Hrep Hun).
    destruct r as [e| |p]; [done..|]. by destruct (Hr p).
Qed.

(** An instance of [get_offer_ids_failure]: the second request times out. *)
Lemma get_offer_ids_failure_witness :
  let p1 := OzonPage [OzonProduct 1 "136748"] 2 "c1" in
  let w := world_of ∅ [ReplyResult p1; ReplyFail ReadTimeout] [] [] in
  Seller.get_offer_ids "client" "token" w
  = (Raise ReadTimeout,
     set_ozon_replies []
       (emit_all [ProductListRequest "client" EmptyString;
                  ProductListRequest "client" "c1"] w)).
Proof.
  intros p1 w.
  apply (proj1 (get_offer_ids_failure "client" "token" w) [p1] (ReplyFail ReadTimeout) []);
    [reflexivity|reflexivity|discriminate].
Defined.

(** ** What the runs send *)

Lemma divide_sizes {A : Type} (lst : list A) (n : Z) (chunks : list (list A)) :
  0 < n ->
  divide lst n = Ok chunks ->
  Forall (fun c => (1 <= length c <= Z.to_nat n)%nat) chunks.
Proof.
  intros Hn. rewrite divide_windows by done. intros [= <-].
  apply Forall_forall. intros c Hc.
  apply list_elem_of_In, in_map_iff in Hc as (k & <- & Hk). apply in_seq in Hk.
  rewrite length_take, length_drop.
  destruct (Z.ltb_spec 0 (Z.of_nat (length lst))); [|simpl in Hk; lia].
  assert (Hle : Z.of_nat k <= (Z.of_nat (length lst) - 1) / n) by lia.
  assert (Hmul : Z.of_nat k * n <= Z.of_nat (length lst) - 1).
  { etransitivity; [apply Z.mul_le_mono_nonneg_r; [lia|exact Hle]|].
    rewrite Z.mul_comm. apply Z.mul_div_le. lia. }
  assert (Hnat : (k * Z.to_nat n < length lst)%nat) by nia.
  lia.
Qed.

(** *** Rules for [emits] *)

Lemma emits_ret {A : Type} (phi : event -> Prop) (a : A) : emits phi (ret a).
Proof. intros w. exists []. by rewrite app_nil_r. Qed.

Lemma emits_raise {A : Type} (phi : event -> Prop) (e : exn) : emits phi (@raise A e).
Proof. intros w. exists []. by rewrite app_nil_r. Qed.

Lemma emits_pure {A : Type} (phi : event -> Prop) (m : M A) :
  (forall w, log (m w).2 = log w) -> emits phi m.
Proof. intros H w. exists []. by rewrite app_nil_r, H. Qed.

Lemma emits_bind {A B : Type} (phi : event -> Prop) (m : M A) (k : A -> M B) :
  emits phi m -> (forall a, emits phi (k a)) -> emits phi (bind m k).
Proof.
  intros Hm Hk w. rewrite bind_run. destruct (Hm w) as (new & Hlog & Hphi).
  destruct (m w) as [[a|e|] w1]; simpl in *; [|by exists new..].
  destruct (Hk a w1) as (new' & Hlog' & Hphi').
  exists (new ++ new'). split; [by rewrite Hlog', Hlog, app_assoc|by apply Forall_app].
Qed.

Lemma emits_lift_bind {A B : Type} (phi : event -> Prop) (r : result A) (k : A -> M B) :
  (forall a, r = Ok a -> emits phi (k a)) -> emits phi (bind (lift r) k).
Proof.
  intros Hk w. rewrite bind_run. destruct r as [a|e]; simpl.
  - by apply Hk.
  - exists []. by rewrite app_nil_r.
Qed.

Lemma emits_try_except {A : Type} (phi : event -> Prop) (m : M A) (h : exn -> M A) :
  emits phi m -> (forall e, emits phi (h e)) -> emits phi (try_except m h).
Proof.
  intros Hm Hh w. unfold try_except. destruct (Hm w) as (new & Hlog & Hphi).
  destruct (m w) as [[a|e|] w1]; simpl in *; [by exists new| |by exists new].
  destruct (Hh e w1) as (new' & Hlog' & Hphi').
  exists (new ++ new'). split; [by rewrite Hlog', Hlog, app_assoc|by apply Forall_app].
Qed.

Lemma emits_weaken {A : Type} (phi psi : event -> Prop) (m : M A) :
  (forall e, phi e -> psi e) -> emits phi m -> emits psi m.
Proof.
  intros Himp Hm w. destruct (Hm w) as (new & Hlog & Hphi).
  exists new. split; [done|]. eapply Forall_impl; [exact Hphi|done].
Qed.

Lemma emits_send (phi : event -> Prop) (e : event) : phi e -> emits phi (send e).
Proof.
  intros He w. exists [e]. unfold send.
  split; [by destruct (ack w (log w) e)|by apply Forall_singleton].
Qed.

Lemma emits_print (phi : event -> Prop) (msg : string) :
  phi (Printed msg) -> emits phi (py_print msg).
Proof. intros He w. exists [Printed msg]. split; [done|by apply Forall_singleton]. Qed.

Lemma emits_for_each {A : Type} (phi : event -> Prop) (l : list A) (body : A -> M unit) :
  Forall (fun x => emits phi (body x)) l -> emits phi (for_each l body).
Proof.
  induction 1 as [|x l Hx Hl IH]; simpl; [apply emits_ret|].
  apply emits_bind; [done|]. by intros _.
Qed.

Lemma emits_send_chunks {B : Type} (phi : event -> Prop) (f : list pyobj -> event)
    (lst : list pyobj) (n : Z) (k : M B) :
  0 < n ->
  (forall c, (1 <= length c <= Z.to_nat n)%nat -> phi (f c)) ->
  emits phi k ->
  emits phi (let! chunks := lift (divide lst n) in
             for_each chunks (fun c => send (f c)) ;;; k).
Proof.
  intros Hn Hf Hk. apply emits_lift_bind. intros chunks Hdiv.
  apply emits_bind; [|done].
  apply emits_for_each. eapply Forall_impl; [exact (divide_sizes lst n chunks Hn Hdiv)|].
  intros c Hc. by apply emits_send, Hf.
Qed.

Lemma emits_contains (phi : event -> Prop) (x : string) (r : loc) :
  emits phi (contains x r).
Proof.
  apply emits_pure. intros w. unfold contains. rewrite bind_run. unfold read_list.
  by destruct (heap w !! r).
Qed.

Lemma emits_read_list (phi : event -> Prop) (r : loc) : emits phi (read_list r).
Proof. apply emits_pure. intros w. unfold read_list. by destruct (heap w !! r). Qed.

Lemma emits_remove (phi : event -> Prop) (r : loc) (x : string) : emits phi (remove r x).
Proof.
  apply emits_pure. intros w. unfold remove.
  destruct (heap w !! r) as [l|]; [|done]. by destruct (list_remove x l).
Qed.

Lemma emits_seller_create_stocks (phi : event -> Prop) (F : list watch) (r : loc) :
  emits phi (Seller.create_stocks F r).
Proof.
  unfold Seller.create_stocks. apply emits_bind.
  - generalize (@nil pyobj). induction F as [|watch F IH]; intros acc; simpl;
      [apply emits_ret|].
    apply emits_bind; [apply emits_contains|]. intros [|]; [|apply IH].
    apply emits_lift_bind. intros stock _.
    apply emits_bind; [apply emits_remove|]. intros _. apply IH.
  - intros stocks. apply emits_bind; [apply emits_read_list|].
    intros remaining. apply emits_ret.
Qed.

Lemma emits_market_create_stocks (phi : event -> Prop) (F : list watch) (r : loc)
    (warehouse_id : string) :
  emits phi (Market.create_stocks F r warehouse_id).
Proof.
  unfold Market.create_stocks. apply emits_bind; [by apply emits_pure|].
  intros now. apply emits_bind.
  - generalize (@nil pyobj). induction F as [|watch F IH]; intros acc; simpl;
      [apply emits_ret|].
    apply emits_bind; [apply emits_contains|]. intros [|]; [|apply IH].
    apply emits_lift_bind. intros stock _.
    apply emits_bind; [apply emits_remove|]. intros _. apply IH.
  - intros stocks. apply emits_bind; [apply emits_read_list|].
    intros remaining. apply emits_ret.
Qed.

Lemma emits_seller_create_prices (phi : event -> Prop) (F : list watch) (r : loc) :
  emits phi (Seller.create_prices F r).
Proof.
  unfold Seller.create_prices.
  generalize (@nil pyobj). induction F as [|watch F IH]; intros acc; simpl;
    [apply emits_ret|].
  apply emits_bind; [apply emits_contains|]. intros [|]; [|apply IH].
  apply emits_lift_bind. intros converted _. apply IH.
Qed.

Lemma emits_market_create_prices (phi : event -> Prop) (F : list watch) (r : loc) :
  emits phi (Market.create_prices F r).
Proof.
  unfold Market.create_prices.
  generalize (@nil pyobj). induction F as [|watch F IH]; intros acc; simpl;
    [apply emits_ret|].
  apply emits_bind; [apply emits_contains|]. intros [|]; [|apply IH].
  apply emits_lift_bind. intros converted _.
  apply emits_lift_bind. intros value _. apply IH.
Qed.

Lemma emits_seller_get_offer_ids (phi : event -> Prop) (client_id seller_token : string) :
  (forall cursor, phi (ProductListRequest client_id cursor)) ->
  emits phi (Seller.get_offer_ids client_id seller_token).
Proof.
  intros Hphi w. unfold Seller.get_offer_ids.
  apply (emits_bind phi
           (Seller.get_offer_ids_loop (S (length (ozon_replies w))) client_id seller_token
              EmptyString [])); [|by intros l; apply emits_pure].
  generalize (S (length (ozon_replies w))) EmptyString (@nil ozon_product).
  clear w. intros fuel. induction fuel as [|fuel IH]; intros last_id acc w.
  - exists []. by rewrite app_nil_r.
  - rewrite ozon_loop_round.
    destruct (ozon_replies w) as [|[e| |p] rest]; [exists []; by rewrite app_nil_r|..];
      cbv zeta.
    + exists [ProductListRequest client_id last_id]. split; [done|by apply Forall_singleton].
    + exists [ProductListRequest client_id last_id]. split; [done|by apply Forall_singleton].
    + destruct (page_total p =? _).
      * exists [ProductListRequest client_id last_id].
        split; [done|by apply Forall_singleton].
      * match goal with |- context [Seller.get_offer_ids_loop _ _ _ ?x ?y ?z] =>
          destruct (IH x y z) as (new & Hlog & Hnew) end.
        exists (ProductListRequest client_id last_id :: new).
        split; [rewrite Hlog; simpl; by rewrite <- app_assoc|by apply Forall_cons].
Qed.

Lemma emits_market_get_offer_ids (phi : event -> Prop) (campaign_id market_token : string) :
  (forall cursor, phi (ProductListRequest campaign_id cursor)) ->
  emits phi (Market.get_offer_ids campaign_id market_token).
Proof.
  intros Hphi w. unfold Market.get_offer_ids.
  apply (emits_bind phi
           (Market.get_offer_ids_loop (S (length (market_replies w))) campaign_id market_token
              EmptyString [])); [|by intros l; apply emits_pure].
  generalize (S (length (market_replies w))) EmptyString (@nil mapping_entry).
  clear w. intros fuel. induction fuel as [|fuel IH]; intros page acc w.
  - exists []. by rewrite app_nil_r.
  - rewrite market_loop_round.
    destruct (market_replies w) as [|[e| |p] rest]; [exists []; by rewrite app_nil_r|..];
      cbv zeta.
    + exists [ProductListRequest campaign_id page]. split; [done|by apply Forall_singleton].
    + exists [ProductListRequest campaign_id page]. split; [done|by apply Forall_singleton].
    + destruct (market_last p).
      * exists [ProductListRequest campaign_id page].
        split; [done|by apply Forall_singleton].
      * match goal with |- context [Market.get_offer_ids_loop _ _ _ ?x ?y ?z] =>
          destruct (IH x y z) as (new & Hlog & Hnew) end.
        exists (ProductListRequest campaign_id page :: new).
        split; [rewrite Hlog; simpl; by rewrite <- app_assoc|by apply Forall_cons].
Qed.

Lemma emits_print_error (phi : event -> Prop) (error : exn) (msg : string) :
  phi (PrintedError error msg) -> emits phi (py_print_error error msg).
Proof.
  intros He w. exists [PrintedError error msg]. split; [done|by apply Forall_singleton].
Qed.

Lemma emits_report (phi : event -> Prop) :
  (forall msg, phi (Printed msg)) ->
  (forall error msg, phi (PrintedError error msg)) ->
  (forall e, emits phi (Seller.report e)) /\ (forall e, emits phi (Market.report e)).
Proof.
  intros Hphi Herr.
  split; intros []; first [by apply emits_print|by apply emits_print_error].
Qed.

Lemma emits_download (phi : event -> Prop) :
  phi StockFileDownload -> emits phi Seller.download_stock.
Proof.
  intros Hphi w. exists [StockFileDownload]. unfold Seller.download_stock.
  split; [by destruct (stock_file w)|by apply Forall_singleton].
Qed.

Lemma emits_await {A : Type} (phi : event -> Prop) (body : M A) :
  emits phi body -> emits phi (let! c := ret (Coroutine body) in await c).
Proof. intros Hb w. rewrite bind_run. apply Hb. Qed.

(** X15. However a run goes, every stock request [seller.main] sends holds
    between 1 and 100 entries and every price request between 1 and 900;
    every stock request [market.main] sends holds between 1 and 2000
    entries, and it sends no price request: an empty batch is never sent. *)
Theorem main_requests_are_bounded :
  (forall seller_token client_id, emits (sized 100 900) (Seller.main seller_token client_id)) /\
  (forall market_token campaign_fbs_id campaign_dbs_id warehouse_fbs_id warehouse_dbs_id,
      emits (sized 2000 0)
            (Market.main market_token campaign_fbs_id campaign_dbs_id
                         warehouse_fbs_id warehouse_dbs_id)).
Proof.
  split.
  - intros seller_token client_id. unfold Seller.main.
    apply emits_try_except; [|by apply emits_report].
    apply emits_bind; [by apply emits_seller_get_offer_ids|]. intros offer_ids.
    apply emits_bind; [by apply emits_download|]. intros watch_remnants.
    apply emits_bind; [apply emits_seller_create_stocks|]. intros stocks.
    apply (emits_send_chunks _ (fun c => StocksUpdate client_id c)); [lia|done|].
    apply emits_bind; [apply emits_seller_create_prices|]. intros prices.
    apply emits_lift_bind. intros chunks Hdiv.
    apply emits_for_each.
    eapply Forall_impl; [exact (divide_sizes prices 900 chunks eq_refl Hdiv)|].
    intros c Hc. by apply emits_send.
  - intros market_token campaign_fbs_id campaign_dbs_id warehouse_fbs_id warehouse_dbs_id.
    unfold Market.main.
    apply emits_bind; [by apply emits_download|]. intros watch_remnants.
    apply emits_try_except; [|by apply emits_report].
    apply emits_bind; [by apply emits_market_get_offer_ids|]. intros offer_ids.
    apply emits_bind; [apply emits_market_create_stocks|]. intros stocks.
    apply (emits_send_chunks _ (fun c => StocksUpdate campaign_fbs_id c)); [lia|done|].
    apply emits_bind; [apply emits_ret|]. intros _.
    apply emits_bind; [by apply emits_market_get_offer_ids|]. intros offer_ids'.
    apply emits_bind; [apply emits_market_create_stocks|]. intros stocks'.
    apply (emits_send_chunks _ (fun c => StocksUpdate campaign_dbs_id c)); [lia|done|].
    apply emits_bind; [apply emits_ret|]. intros _. apply emits_ret.
Qed.

(** X16. Awaited, the coroutine of [seller.upload_prices] sends price
    requests of 1 to 1000 entries and no stock request, that of
    [seller.upload_stocks] stock requests of 1 to 100 entries and no price
    request, and that of [market.upload_prices] price requests of 1 to 500
    entries and no stock request. *)
Theorem awaited_uploads_are_bounded (watch_remnants : list watch) (account token : string) :
  emits (sized 0 1000)
        (let! c := Seller.upload_prices watch_remnants account token in await c) /\
  emits (sized 100 0)
        (let! c := Seller.upload_stocks watch_remnants account token in await c) /\
  emits (sized 0 500)
        (let! c := Market.upload_prices watch_remnants account token in await c).
Proof.
  split; [|split].
  - apply emits_await.
    apply emits_bind; [by apply emits_seller_get_offer_ids|]. intros offer_ids.
    apply emits_bind; [apply emits_seller_create_prices|]. intros prices.
    apply (emits_send_chunks _ (fun c => PricesUpdate account c)); [lia|done|].
    apply emits_ret.
  - apply emits_await.
    apply emits_bind; [by apply emits_seller_get_offer_ids|]. intros offer_ids.
    apply emits_bind; [apply emits_seller_create_stocks|]. intros stocks.
    apply (emits_send_chunks _ (fun c => StocksUpdate account c)); [lia|done|].
    apply emits_lift_bind. intros not_empty _. apply emits_ret.
  - apply emits_await.
    apply emits_bind; [by apply emits_market_get_offer_ids|]. intros offer_ids.
    apply emits_bind; [apply emits_market_create_prices|]. intros prices.
    apply (emits_send_chunks _ (fun c => PricesUpdate account c)); [lia|done|].
    apply emits_ret.
Qed.

(** X17. Given its settings, [seller.main] never ends with an exception:
    whatever is raised while the catalogue is listed, the spreadsheet
    fetched, the batches built or the requests sent is caught and reported
    on the standard output. *)
Theorem seller_main_never_raises (seller_token client_id : string) (w : world) (e : exn) :
  (Seller.main seller_token client_id w).1 <> Raise e.
Proof.
  unfold Seller.main, try_except.
  match goal with |- context [match ?m w with _ => _ end] =>
    destruct (m w) as [[u|e'|] w1] end; [done| |done].
  by destruct e'.
Qed.

(** X18. [market.main] fetches the spreadsheet before it enters its [try]
    block: it ends with an exception exactly when fetching the spreadsheet
    raises, with that exception, and then nothing has been asked of Yandex
    Market. *)
Theorem market_main_raises_iff_download_fails
    (market_token campaign_fbs_id campaign_dbs_id warehouse_fbs_id warehouse_dbs_id : string)
    (w : world) (e : exn) :
  ((Market.main market_token campaign_fbs_id campaign_dbs_id
                warehouse_fbs_id warehouse_dbs_id w).1 = Raise e
   <-> stock_file w = Err e) /\
  (stock_file w = Err e ->
   Market.main market_token campaign_fbs_id campaign_dbs_id
               warehouse_fbs_id warehouse_dbs_id w
   = (Raise e, emit StockFileDownload w)).
Proof.
  unfold Market.main. rewrite bind_run. unfold Seller.download_stock.
  destruct (stock_file w) as [F|e0]; simpl.
  - split; [|done]. split; [|done]. unfold try_except.
    match goal with |- context [match ?m ?w0 with _ => _ end] =>
      destruct (m w0) as [[u|e'|] w1] end; [done| |done].
    by destruct e'.
  - split; [|by intros [= ->]]. split; by intros [= ->].
Qed.

(** An instance of [market_main_raises_iff_download_fails]: the spreadsheet
    cannot be parsed. *)
Lemma market_main_raises_iff_download_fails_witness :
  let w := World ∅ [] [] [] (Err XLRDError) (fun _ _ => None)
                 (fun n => Datetime 2022 12 29 18 2 n 0) 0 in
  stock_file w = Err XLRDError /\
  Market.main "token" "fbs" "dbs" "w1" "w2" w = (Raise XLRDError, emit StockFileDownload w).
Proof.
  intros w. split; [reflexivity|].
  exact (proj2 (market_main_raises_iff_download_fails "token" "fbs" "dbs" "w1" "w2" w
                  XLRDError) eq_refl).
Defined.

(** ** The Ozon run, step by step *)

Lemma divide_concat {A : Type} (lst : list A) (n : Z) (chunks : list (list A)) :
  0 < n -> divide lst n = Ok chunks -> concat chunks = lst.
Proof.
  intros Hn. rewrite divide_windows by done. intros [= <-].
  rewrite concat_windows. apply take_ge.
  destruct (Z.ltb_spec 0 (Z.of_nat (length lst))) as [Hlen|Hlen]; [|lia].
  pose proof (Z.mul_succ_div_gt (Z.of_nat (length lst) - 1) n Hn). nia.
Qed.

Lemma divide_total {A : Type} (lst : list A) (n : Z) :
  0 < n -> exists chunks, divide lst n = Ok chunks.
Proof. intros Hn. eexists. by apply divide_windows. Qed.

(** The listing leaves the spreadsheet and the update endpoints as they
    are, and what it returns refers to a list. *)
Lemma ozon_loop_steady (client_id seller_token : string) (fuel : nat) :
  forall (last_id : string) (acc : list ozon_product) (w : world),
    let w' := (Seller.get_offer_ids_loop fuel client_id seller_token last_id acc w).2 in
    ack w' = ack w /\ stock_file w' = stock_file w.
Proof.
  induction fuel as [|fuel IH]; intros last_id acc w; [done|].
  cbv zeta. rewrite ozon_loop_round.
  destruct (ozon_replies w) as [|[e| |p] rest]; try done.
  cbv zeta. destruct (page_total p =? _); [done|].
  match goal with |- context [Seller.get_offer_ids_loop _ _ _ ?x ?y ?z] =>
    destruct (IH x y z) as [-> ->] end.
  done.
Qed.

Lemma seller_get_offer_ids_steady (client_id seller_token : string) (w : world)
    (r : loc) (w1 : world) :
  Seller.get_offer_ids client_id seller_token w = (Ret r, w1) ->
  ack w1 = ack w /\ stock_file w1 = stock_file w /\ exists L, heap w1 !! r = Some L.
Proof.
  unfold Seller.get_offer_ids. rewrite bind_run.
  pose proof (ozon_loop_steady client_id seller_token (S (length (ozon_replies w)))
                EmptyString [] w) as Hst. cbv zeta in Hst.
  destruct (Seller.get_offer_ids_loop _ _ _ _ _ w) as [[l|e|] w0]; [|done..].
  simpl in Hst. destruct Hst as [Hack Hfile].
  intros [= <- <-]. simpl. split; [done|]. split; [done|].
  eexists. apply lookup_insert_eq.
Qed.

(** A sending loop stops at the first request that fails. *)
Lemma for_each_send_fails {A : Type} (f : A -> event) (l : list A) :
  forall (i : nat) (x : A) (err : exn) (w : world),
    l !! i = Some x ->
    (forall j y, (j < i)%nat -> l !! j = Some y ->
                 ack w (log w ++ map f (take j l)) (f y) = None) ->
    ack w (log w ++ map f (take i l)) (f x) = Some err ->
    for_each l (fun x => send (f x)) w = (Raise err, emit_all (map f (take (S i) l)) w).
Proof.
  induction l as [|a l IH]; intros i x err w Hx Hbefore Hfail; [done|].
  cbn [for_each]. rewrite bind_run. unfold send at 1.
  destruct i as [|i].
  - injection Hx as ->. simpl in Hfail. rewrite app_nil_r in Hfail.
    rewrite Hfail. simpl.
    by rewrite <- (emit_all_cons (f x) [] w), emit_all_nil.
  - pose proof (Hbefore 0%nat a ltac:(lia) eq_refl) as H0.
    simpl in H0. rewrite app_nil_r in H0. rewrite H0.
    rewrite (IH i x err (emit (f a) w)).
    + cbn [take map]. by rewrite emit_all_cons.
    + done.
    + intros j y Hj Hy. simpl.
      pose proof (Hbefore (S j) y ltac:(lia) Hy) as Hb. simpl in Hb.
      by rewrite <- app_assoc.
    + simpl. by rewrite <- app_assoc.
Qed.

Lemma seller_create_stocks_steady (F : list watch) (r : loc) (L : list string)
    (w : world) (res : outcome (list pyobj)) (w' : world) :
  heap w !! r = Some L ->
  Seller.create_stocks F r w = (res, w') ->
  ack w' = ack w /\ log w' = log w /\ exists kept, heap w' !! r = Some kept.
Proof.
  intros HL. rewrite (seller_create_stocks_run F r L w HL).
  destruct (reconcile F L) as [[entries|e] kept]; intros [= <- <-];
    (split; [done|]; split; [done|]; exists kept; apply with_list_lookup).
Qed.

(** X19. In [seller.main], the first stock request that fails ends the
    run: the chunks before it and the failing one have been sent, the later
    chunks and every price request are not, and the error is only reported
    by the one line that the [except] clause of its class prints. *)
Theorem seller_main_stops_at_rejected_request (seller_token client_id : string)
    (w w1 w2 : world) (r : loc) (F : list watch) (stocks : list pyobj)
    (chunks : list (list pyobj)) (i : nat) (some_stock : list pyobj) (err : exn) :
  Seller.get_offer_ids client_id seller_token w = (Ret r, w1) ->
  stock_file w = Ok F ->
  Seller.create_stocks F r (emit StockFileDownload w1) = (Ret stocks, w2) ->
  divide stocks 100 = Ok chunks ->
  chunks !! i = Some some_stock ->
  (forall j c, (j < i)%nat -> chunks !! j = Some c ->
               ack w (log w2 ++ map (StocksUpdate client_id) (take j chunks))
                   (StocksUpdate client_id c) = None) ->
  ack w (log w2 ++ map (StocksUpdate client_id) (take i chunks))
      (StocksUpdate client_id some_stock) = Some err ->
  exists line,
    ((err = ReadTimeout /\ line = Printed "Превышено время ожидания...") \/
     (err = ConnectionError /\ line = PrintedError err "Ошибка соединения") \/
     (err <> ReadTimeout /\ err <> ConnectionError /\
      line = PrintedError err "ERROR_2")) /\
    Seller.main seller_token client_id w
    = (Ret tt,
       emit line (emit_all (map (StocksUpdate client_id) (take (S i) chunks)) w2)).
Proof.
  intros Hids Hfile Hstocks Hdiv Hx Hbefore Hfail.
  destruct (seller_get_offer_ids_steady _ _ _ _ _ Hids) as (Hack & Hst & L & HL).
  destruct (seller_create_stocks_steady F r L (emit StockFileDownload w1) _ _ HL Hstocks)
    as (Hack2 & _ & _).
  simpl in Hack2. rewrite Hack in Hack2. rewrite <- Hack2 in Hbefore, Hfail.
  unfold Seller.main, try_except.
  rewrite bind_run, Hids, bind_run. unfold Seller.download_stock.
  rewrite Hst, Hfile. cbn [lift ret]. rewrite bind_run, Hstocks, bind_run, Hdiv.
  cbn [lift ret]. rewrite bind_run. unfold Seller.update_stocks.
  rewrite (for_each_send_fails (StocksUpdate client_id) chunks i some_stock err w2
             Hx Hbefore Hfail).
  destruct err; eexists; (split; [|reflexivity]);
    first [by left | by right; left | by right; right].
Qed.

(** An instance of [seller_main_stops_at_rejected_request]: the endpoint
    times out on the first stock request. *)
Lemma seller_main_stops_at_rejected_request_witness :
  let w := World ∅ [] [ReplyResult (OzonPage [OzonProduct 1 "73309"] 1 EmptyString)] []
                 (Ok docstring_feed) (fun _ _ => Some ReadTimeout)
                 (fun n => Datetime 2022 12 29 18 2 n 0) 0 in
  let stocks := [PyDict [("offer_id", PyStr "73309"); ("stock", PyInt 2)]] in
  exists w2,
    Seller.main "token" "client" w
    = (Ret tt,
       emit (Printed "Превышено время ожидания...")
            (emit_all [StocksUpdate "client" stocks] w2)).
Proof.
  intros w stocks.
  pose (w1 := set_heap (insert 0%nat ["73309"] ∅)
                (set_ozon_replies [] (emit (ProductListRequest "client" EmptyString) w))).
  pose (w2 := with_list 0%nat [] (emit StockFileDownload w1)).
  destruct (seller_main_stops_at_rejected_request "token" "client" w w1 w2 0%nat
              docstring_feed stocks [stocks] 0%nat stocks ReadTimeout)
    as (line & Hline & Hmain).
  - vm_compute. reflexivity.
  - reflexivity.
  - vm_compute. reflexivity.
  - reflexivity.
  - reflexivity.
  - intros j c Hj. lia.
  - reflexivity.
  - exists w2.
    destruct Hline as [[_ ->]|[[Herr _]|[Herr _]]];
      [exact Hmain|discriminate Herr|by destruct Herr].
Defined.

(** X20. When the catalogue is listed without a repeated identifier, the
    spreadsheet is fetched, the stock batch is built and no request fails,
    [seller.main] returns normally having sent the whole stock batch, cut
    into chunks of at most 100 entries in batch order, and nothing after
    it. *)
Theorem seller_main_clean_run (seller_token client_id : string) (w w1 w2 : world)
    (r : loc) (L : list string) (F : list watch) (stocks : list pyobj) :
  Seller.get_offer_ids client_id seller_token w = (Ret r, w1) ->
  heap w1 !! r = Some L ->
  NoDup L ->
  stock_file w = Ok F ->
  Seller.create_stocks F r (emit StockFileDownload w1) = (Ret stocks, w2) ->
  (forall lg e, ack w lg e = None) ->
  exists chunks,
    divide stocks 100 = Ok chunks /\
    concat chunks = stocks /\
    log w2 = log w1 ++ [StockFileDownload] /\
    Seller.main seller_token client_id w
    = (Ret tt, emit_all (map (StocksUpdate client_id) chunks) w2).
Proof.
  intros Hids HL Hnd Hfile Hstocks Hack.
  destruct (seller_get_offer_ids_steady _ _ _ _ _ Hids) as (Hack1 & Hst & _).
  destruct (divide_total stocks 100 eq_refl) as [chunks Hdiv].
  exists chunks. split; [done|]. split; [by apply (divide_concat stocks 100)|].
  pose proof Hstocks as Hrun.
  rewrite (seller_create_stocks_run F r L (emit StockFileDownload w1) HL) in Hrun.
  destruct (reconcile F L) as [[entries|e] kept] eqn:Hr; [|done].
  injection Hrun as _ <-. split; [done|].
  unfold Seller.main, try_except.
  rewrite bind_run, Hids, bind_run. unfold Seller.download_stock.
  rewrite Hst, Hfile. cbn [lift ret]. rewrite bind_run, Hstocks, bind_run, Hdiv.
  cbn [lift ret]. rewrite bind_run. unfold Seller.update_stocks.
  rewrite (for_each_send_all (StocksUpdate client_id) chunks)
    by (intros lg e; simpl; rewrite Hack1; apply Hack).
  rewrite bind_run.
  rewrite (create_prices_unmatched F r kept).
  - rewrite bind_run. done.
  - simpl. apply lookup_insert_eq.
  - by apply (reconcile_kept_unmatched F L entries kept).
Qed.

(** An instance of [seller_main_clean_run]. *)
Lemma seller_main_clean_run_witness :
  let w := world_of ∅ [ReplyResult (OzonPage [OzonProduct 1 "73309"] 1 EmptyString)] []
                    docstring_feed in
  let stocks := [PyDict [("offer_id", PyStr "73309"); ("stock", PyInt 2)]] in
  exists chunks w1 w2,
    divide stocks 100 = Ok chunks /\
    concat chunks = stocks /\
    log w2 = log w1 ++ [StockFileDownload] /\
    Seller.main "token" "client" w
    = (Ret tt, emit_all (map (StocksUpdate "client") chunks) w2).
Proof.
  intros w stocks.
  pose (w1 := set_heap (insert 0%nat ["73309"] ∅)
                (set_ozon_replies [] (emit (ProductListRequest "client" EmptyString) w))).
  pose (w2 := with_list 0%nat [] (emit StockFileDownload w1)).
  destruct (seller_main_clean_run "token" "client" w w1 w2 0%nat ["73309"]
              docstring_feed stocks) as [chunks Hrun].
  - vm_compute. reflexivity.
  - reflexivity.
  - apply NoDup_singleton.
  - reflexivity.
  - vm_compute. reflexivity.
  - reflexivity.
  - exists chunks, w1, w2. exact Hrun.
Defined.

(** *** The coroutine of [upload_stocks] *)

Lemma stock_filter (entries : list (string * Z)) (kept : list string) :
  py_filter (fun stock => match obj_get stock "stock" with
                          | Ok v => Ok (obj_ne_int v 0)
                          | Err e => Err e
                          end)
            (map (fun '(o, c) => PyDict [("offer_id", PyStr o); ("stock", PyInt c)]) entries
             ++ map (fun o => PyDict [("offer_id", PyStr o); ("stock", PyInt 0)]) kept)
  = Ok (map (fun '(o, c) => PyDict [("offer_id", PyStr o); ("stock", PyInt c)])
            (List.filter (fun '(o, c) => negb (c =? 0)) entries)).
Proof.
  induction entries as [|[o c] entries IH].
  - simpl. induction kept as [|o kept IH]; [done|].
    cbn [map py_filter]. rewrite IH. done.
  - cbn [map app py_filter List.filter]. rewrite IH.
    cbn [obj_get]. simpl. by destruct (c =? 0).
Qed.

(** X21. Awaited after the catalogue is listed, the batch built and every
    request accepted, the coroutine of [seller.upload_stocks] sends the
    whole batch in chunks of at most 100 entries and returns the batch with
    the list [not_empty]: the entries taken from the feed whose count is not
    0, in batch order. The identifiers that no feed row names, and the rows
    whose quantity is 1, are not in it; the filter itself never raises. *)
Theorem awaited_upload_stocks_result (watch_remnants : list watch)
    (client_id seller_token : string) (w w1 w2 : world) (r : loc)
    (stocks : list pyobj) :
  Seller.get_offer_ids client_id seller_token w = (Ret r, w1) ->
  Seller.create_stocks watch_remnants r w1 = (Ret stocks, w2) ->
  (forall lg e, ack w lg e = None) ->
  exists entries kept chunks,
    stocks = map (fun '(o, c) => PyDict [("offer_id", PyStr o); ("stock", PyInt c)]) entries
             ++ map (fun o => PyDict [("offer_id", PyStr o); ("stock", PyInt 0)]) kept /\
    heap w2 !! r = Some kept /\
    divide stocks 100 = Ok chunks /\
    (let! c := Seller.upload_stocks watch_remnants client_id seller_token in await c) w
    = (Ret (map (fun '(o, c) => PyDict [("offer_id", PyStr o); ("stock", PyInt c)])
                (List.filter (fun '(o, c) => negb (c =? 0)) entries),
            stocks),
       emit_all (map (StocksUpdate client_id) chunks) w2).
Proof.
  intros Hids Hstocks Hack.
  destruct (seller_get_offer_ids_steady _ _ _ _ _ Hids) as (Hack1 & _ & L & HL).
  destruct (divide_total stocks 100 eq_refl) as [chunks Hdiv].
  pose proof Hstocks as Hrun.
  rewrite (seller_create_stocks_run watch_remnants r L w1 HL) in Hrun.
  destruct (reconcile watch_remnants L) as [[entries|e] kept] eqn:Hr; [|done].
  injection Hrun as Hs Hw2.
  exists entries, kept, chunks. split; [done|].
  split; [rewrite <- Hw2; apply with_list_lookup|]. split; [done|].
  rewrite bind_run. unfold Seller.upload_stocks. cbn [ret await].
  rewrite bind_run, Hids, bind_run, Hstocks, bind_run, Hdiv.
  cbn [lift ret]. rewrite bind_run. unfold Seller.update_stocks.
  rewrite (for_each_send_all (StocksUpdate client_id) chunks)
    by (intros lg e; rewrite <- Hw2; simpl; rewrite Hack1; apply Hack).
  rewrite bind_run. rewrite <- Hs at 1. rewrite stock_filter. done.
Qed.

(** An instance of [awaited_upload_stocks_result]: one offer in stock, one
    that the feed does not name. *)
Lemma awaited_upload_stocks_result_witness :
  let w := world_of ∅
             [ReplyResult (OzonPage [OzonProduct 1 "136748"; OzonProduct 2 "73309"] 2
                                    EmptyString)] [] [] in
  let w1 := set_heap (insert 0%nat ["136748"; "73309"] ∅)
              (set_ozon_replies [] (emit (ProductListRequest "client" EmptyString) w)) in
  let w2 := with_list 0%nat ["136748"] w1 in
  let stocks := [PyDict [("offer_id", PyStr "73309"); ("stock", PyInt 2)];
                 PyDict [("offer_id", PyStr "136748"); ("stock", PyInt 0)]] in
  exists entries kept chunks,
    stocks = map (fun '(o, c) => PyDict [("offer_id", PyStr o); ("stock", PyInt c)]) entries
             ++ map (fun o => PyDict [("offer_id", PyStr o); ("stock", PyInt 0)]) kept /\
    heap w2 !! 0%nat = Some kept /\
    divide stocks 100 = Ok chunks /\
    (let! c := Seller.upload_stocks docstring_feed "client" "token" in await c) w
    = (Ret (map (fun '(o, c) => PyDict [("offer_id", PyStr o); ("stock", PyInt c)])
                (List.filter (fun '(o, c) => negb (c =? 0)) entries),
            stocks),
       emit_all (map (StocksUpdate "client") chunks) w2).
Proof.
  intros w w1 w2 stocks.
  apply (awaited_upload_stocks_result docstring_feed "client" "token" w w1 w2 0%nat stocks).
  - vm_compute. reflexivity.
  - vm_compute. reflexivity.
  - reflexivity.
Defined.

(** *** The coroutine of [upload_prices] *)

(** X22. Awaited, the coroutine of [seller.upload_prices] works on a list
    that no [create_stocks] has emptied: when the catalogue is listed, the
    price of every listed feed row can be read and every request is
    accepted, it sends one price entry for every feed row whose code is
    listed, in feed order, cut into chunks of at most 1000 entries, and
    returns these entries. *)
Theorem awaited_upload_prices_result (watch_remnants : list watch)
    (client_id seller_token : string) (w w1 : world) (r : loc) (L : list string) :
  Seller.get_offer_ids client_id seller_token w = (Ret r, w1) ->
  heap w1 !! r = Some L ->
  (forall watch, watch ∈ watch_remnants -> code_of watch ∈ L ->
                 exists price, ozon_price_of watch = Ok price) ->
  (forall lg e, ack w lg e = None) ->
  exists prices chunks,
    Forall2 (fun watch price => ozon_price_of watch = Ok price)
            (List.filter (fun watch => list_contains (code_of watch) L) watch_remnants)
            prices /\
    divide prices 1000 = Ok chunks /\
    concat chunks = prices /\
    (let! c := Seller.upload_prices watch_remnants client_id seller_token in await c) w
    = (Ret prices, emit_all (map (PricesUpdate client_id) chunks) w1).
Proof.
  intros Hids HL Hread Hack.
  destruct (seller_get_offer_ids_steady _ _ _ _ _ Hids) as (Hack1 & _ & _).
  destruct (seller_prices_loop watch_remnants r L [] w1 HL) as [Hw Hres].
  destruct (Seller.create_prices_loop watch_remnants r [] w1) as [[prices|e|] w'] eqn:Hloop;
    simpl in Hw, Hres; subst w'.
  - destruct Hres as (new & -> & Hres).
    destruct (divide_total new 1000 eq_refl) as [chunks Hdiv].
    exists new, chunks. split; [done|]. split; [done|].
    split; [by apply (divide_concat new 1000)|].
    rewrite bind_run. unfold Seller.upload_prices. cbn [ret await].
    rewrite bind_run, Hids, bind_run. unfold Seller.create_prices. rewrite Hloop.
    cbn [app]. rewrite bind_run, Hdiv. cbn [lift ret]. rewrite bind_run.
    unfold Seller.update_price.
    rewrite (for_each_send_all (PricesUpdate client_id) chunks)
      by (intros lg e; rewrite Hack1; apply Hack).
    done.
  - destruct Hres as (watch & Hin & Hc & He).
    destruct (Hread watch Hin Hc) as [price Hp]. congruence.
  - done.
Qed.

(** An instance of [awaited_upload_prices_result]. *)
Lemma awaited_upload_prices_result_witness :
  let w := world_of ∅
             [ReplyResult (OzonPage [OzonProduct 1 "136748"; OzonProduct 2 "73309"] 2
                                    EmptyString)] [] [] in
  let w1 := set_heap (insert 0%nat ["136748"; "73309"] ∅)
              (set_ozon_replies [] (emit (ProductListRequest "client" EmptyString) w)) in
  exists prices chunks,
    Forall2 (fun watch price => ozon_price_of watch = Ok price)
            (List.filter (fun watch => list_contains (code_of watch) ["136748"; "73309"])
                         docstring_feed)
            prices /\
    divide prices 1000 = Ok chunks /\
    concat chunks = prices /\
    (let! c := Seller.upload_prices docstring_feed "client" "token" in await c) w
    = (Ret prices, emit_all (map (PricesUpdate "client") chunks) w1).
Proof.
  intros w w1.
  apply (awaited_upload_prices_result docstring_feed "client" "token" w w1 0%nat
           ["136748"; "73309"]).
  - vm_compute. reflexivity.
  - reflexivity.
  - intros watch Hin _. apply list_elem_of_singleton in Hin as ->.
    eexists. vm_compute. reflexivity.
  - reflexivity.
Defined.
